(** * Authorization artifacts of the data federation: the model and its properties

    A shallow embedding of [src/webapp/vos_data.py], [src/webapp/data_federation.py]
    and [src/stashcache.py].  Python strings are byte strings ([string]),
    ordered dicts are association lists in insertion order, sets are
    duplicate-free lists, and a call that may raise returns a [result]. *)

From Stdlib Require Import List String Ascii Bool Arith ZArith Lia.
From Stdlib Require Import DecimalString Sorted Permutation.
Import ListNotations.
Open Scope list_scope.
Open Scope string_scope.

Set Implicit Arguments.
Set Warnings "-register-all".


(* ================================================================== *)
(** ** Python primitives *)

(** The newline character, as a string. *)
Definition LF : string := String (ascii_of_nat 10) EmptyString.

Module Py.

(** Text of [str(n)] for a natural number and for an integer. *)
Definition str_of_nat (n : nat) : string :=
  NilZero.string_of_uint (Nat.to_uint n).

Definition str_of_Z (z : Z) : string :=
  NilZero.string_of_int (Z.to_int z).

Definition str_of_bool (b : bool) : string :=
  if b then "True" else "False".

(** [s.startswith(p)] *)
Definition startswith (s p : string) : bool := String.prefix p s.

(** [s[n:]] *)
Fixpoint drop (n : nat) (s : string) : string :=
  match n, s with
  | O, _ => s
  | S _, EmptyString => EmptyString
  | S n', String _ s' => drop n' s'
  end.

(** The ASCII characters that [str.strip] removes: tab, newline, vertical
    tab, form feed, carriage return, the four separators 28..31 and the
    space.  (Whitespace outside ASCII is not modelled.) *)
Definition is_space (c : ascii) : bool :=
  let n := nat_of_ascii c in
  (Nat.leb 9 n && Nat.leb n 13) || (Nat.leb 28 n && Nat.leb n 32).

Fixpoint lstrip (s : string) : string :=
  match s with
  | EmptyString => EmptyString
  | String c s' => if is_space c then lstrip s' else s
  end.

Fixpoint dropwhile_space (l : list ascii) : list ascii :=
  match l with
  | [] => []
  | c :: l' => if is_space c then dropwhile_space l' else l
  end.

Definition rstrip (s : string) : string :=
  string_of_list_ascii (rev (dropwhile_space (rev (list_ascii_of_string s)))).

Definition strip (s : string) : string := rstrip (lstrip s).

(** [s[:-2]] *)
Definition chop2 (s : string) : string :=
  String.substring 0 (String.length s - 2) s.

(** [s[:-n]] for a positive [n], and [s.endswith(suffix)]. *)
Definition chop (n : nat) (s : string) : string :=
  String.substring 0 (String.length s - n) s.

Definition endswith (s suffix : string) : bool :=
  String.eqb (drop (String.length s - String.length suffix) s) suffix.

(** [sep.join(l)] *)
Definition join (sep : string) (l : list string) : string := String.concat sep l.

(** [sub in s] for two strings. *)
Fixpoint contains (sub s : string) : bool :=
  String.prefix sub s ||
  match s with
  | EmptyString => false
  | String _ s' => contains sub s'
  end.

(** The one-character strings of [s], as iterating over a [str] yields. *)
Fixpoint chars (s : string) : list string :=
  match s with
  | EmptyString => []
  | String c s' => String c EmptyString :: chars s'
  end.

(** [x in l] on a list of strings. *)
Definition mem (x : string) (l : list string) : bool :=
  existsb (String.eqb x) l.

(** [s.add(x)] on a set of strings, kept as a duplicate-free list. *)
Definition set_add (x : string) (s : list string) : list string :=
  if mem x s then s else (s ++ [x])%list.

(** [sorted(s)], code point order being byte order. *)
Fixpoint insert_sorted (x : string) (l : list string) : list string :=
  match l with
  | [] => [x]
  | y :: l' => if String.leb x y then x :: l else y :: insert_sorted x l'
  end.

Fixpoint sorted (l : list string) : list string :=
  match l with
  | [] => []
  | x :: l' => insert_sorted x (sorted l')
  end.

(** [set(l)]: the distinct elements of [l]. *)
Definition to_set (l : list string) : list string :=
  fold_left (fun s x => set_add x s) l [].

(** Dicts with string keys, in insertion order. *)
Section Dict.
Variable V : Type.

Fixpoint dict_get (d : list (string * V)) (k : string) : option V :=
  match d with
  | [] => None
  | (k', v) :: d' => if String.eqb k k' then Some v else dict_get d' k
  end.

Definition dict_mem (d : list (string * V)) (k : string) : bool :=
  match dict_get d k with Some _ => true | None => false end.

(** [d[k] = v]: a known key keeps its place, a new key goes last. *)
Fixpoint dict_set (d : list (string * V)) (k : string) (v : V) : list (string * V) :=
  match d with
  | [] => [(k, v)]
  | (k', v') :: d' =>
      if String.eqb k k' then (k', v) :: d' else (k', v') :: dict_set d' k v
  end.
End Dict.

End Py.

(* ================================================================== *)
(** ** Parsed YAML values *)

Inductive Yaml : Type :=
| YNone
| YBool (b : bool)
| YInt (z : Z)
| YStr (s : string)
| YList (l : list Yaml)
| YDict (d : list (string * Yaml)).

(** Python truthiness of a parsed value. *)
Definition truthy (y : Yaml) : bool :=
  match y with
  | YNone => false
  | YBool b => b
  | YInt z => negb (Z.eqb z 0)
  | YStr s => negb (String.eqb s "")
  | YList l => match l with [] => false | _ => true end
  | YDict d => match d with [] => false | _ => true end
  end.

Definition is_str (y : Yaml) : bool :=
  match y with YStr _ => true | _ => false end.

(** [d.get(k, default)] *)
Definition get_default (d : list (string * Yaml)) (k : string) (default : Yaml) : Yaml :=
  match Py.dict_get d k with Some v => v | None => default end.

(* ================================================================== *)
(** ** Nodes of the registry *)

(** Modelled from the spec: the class [Resource] of [webapp.topology], which
    is not part of the sources.  A node has a [name], an [fqdn], the names
    of its services, its [AllowedVOs] list (empty when the key is absent)
    and an optional [DN]. *)
Record Resource : Type := mkResource {
  name : string;
  fqdn : string;
  service_names : list string;
  AllowedVOs : list string;
  DN : option string
}.

(** Modelled from the spec: a [ResourceGroup] of [webapp.topology], as far
    as [get_supported_caches_for_namespace] reads it. *)
Record ResourceGroup : Type := mkResourceGroup {
  resources : list Resource
}.

(** Modelled from the spec: the [Topology] of [webapp.topology], as the list
    that [get_resource_group_list()] returns. *)
Record Topology : Type := mkTopology {
  get_resource_group_list : list ResourceGroup
}.

(* ================================================================== *)
(** ** Exceptions and results *)

Inductive exn : Type :=
| TypeError
| AttributeError
| KeyError
| ValueError
| DataError (msg : string)
| ResourceNotRegistered (fqdn : string)
| ResourceMissingService (resource : Resource) (service_name : string)
| IllTyped.

Inductive result (A : Type) : Type :=
| Ok (a : A)
| Raise (e : exn).

Arguments Ok {A} a.
Arguments Raise {A} e.

Definition bind {A B : Type} (r : result A) (k : A -> result B) : result B :=
  match r with
  | Ok a => k a
  | Raise e => Raise e
  end.

Declare Scope result_scope.
Delimit Scope result_scope with result.
Notation "x <- c ;; k" := (bind c (fun x => k))
  (at level 61, c at next level, right associativity) : result_scope.
Notation "' p <- c ;; k" := (bind c (fun p => k))
  (at level 61, p pattern, c at next level, right associativity) : result_scope.
Open Scope result_scope.

(** [IllTyped] is not a Python exception.  The sources annotate [dn], [fqan],
    [issuer], [base_path] and [path] as [str], [restricted_path] as
    [Optional[str]] and the two allowed lists as [List[str]], but store what
    the document holds without a check.  The model keeps these fields typed
    as annotated; a loader that would store a value of another type stops
    with [IllTyped]. *)

Definition as_str (y : Yaml) : result string :=
  match y with
  | YStr s => Ok s
  | _ => Raise IllTyped
  end.

Fixpoint as_str_list_aux (l : list Yaml) : result (list string) :=
  match l with
  | [] => Ok []
  | y :: l' => s <- as_str y ;; r <- as_str_list_aux l' ;; Ok (s :: r)
  end.

Definition as_str_list (y : Yaml) : result (list string) :=
  match y with
  | YList l => as_str_list_aux l
  | _ => Raise IllTyped
  end.

Definition as_opt_str (y : Yaml) : result (option string) :=
  match y with
  | YNone => Ok None
  | YStr s => Ok (Some s)
  | _ => Raise IllTyped
  end.

(** What a [for] loop iterates over: the items of a list, the characters of a
    string, the keys of a dict; anything else is not iterable. *)
Definition py_iter (y : Yaml) : result (list Yaml) :=
  match y with
  | YList l => Ok l
  | YStr s => Ok (map YStr (Py.chars s))
  | YDict d => Ok (map (fun kv => YStr (fst kv)) d)
  | _ => Raise TypeError
  end.

(** [k in y] for a string [k]. *)
Definition py_contains (y : Yaml) (k : string) : result bool :=
  match y with
  | YDict d => Ok (Py.dict_mem d k)
  | YList l => Ok (existsb (fun v => match v with YStr s => String.eqb s k | _ => false end) l)
  | YStr s => Ok (Py.contains k s)
  | _ => Raise TypeError
  end.

(** [y[k]] for a string [k]. *)
Definition py_getitem (y : Yaml) (k : string) : result Yaml :=
  match y with
  | YDict d => match Py.dict_get d k with Some v => Ok v | None => Raise KeyError end
  | _ => Raise TypeError
  end.

(** [y.get(k, default)]: only dicts have the method. *)
Definition py_get (y : Yaml) (k : string) (default : Yaml) : result Yaml :=
  match y with
  | YDict d => Ok (get_default d k default)
  | _ => Raise AttributeError
  end.

(* ================================================================== *)
(** ** What the model takes from outside the sources *)

Class Externals : Type := {
  (** [webapp.x509.generate_dn_hash]; [None] when the import failed. *)
  generate_dn_hash : option (string -> string);
  (** Python's [str()] of a list or dict (used in error messages only). *)
  py_repr : Yaml -> string;
  (** [webapp.common.is_null] *)
  is_null : Yaml -> list string -> bool;
  (** [urllib.parse.urlparse], restricted to (scheme, netloc); [None] where
      it raises [ValueError] (a malformed host, as in [https://[]). *)
  urlparse : string -> option (string * string);
  (** Whether [int(s)] of a text returns; it raises [ValueError] otherwise. *)
  py_int_accepts : string -> bool;
  (** The two service names of [webapp.common]. *)
  XROOTD_CACHE_SERVER : string;
  XROOTD_ORIGIN_SERVER : string;
  (** [Topology.safe_get_resource_by_fqdn] *)
  safe_get_resource_by_fqdn : Topology -> string -> option Resource
}.

(** [str(y)], as an f-string renders a parsed value. *)
Definition py_str {ext : Externals} (y : Yaml) : string :=
  match y with
  | YNone => "None"
  | YBool b => Py.str_of_bool b
  | YInt z => Py.str_of_Z z
  | YStr s => s
  | YList _ | YDict _ => py_repr y
  end.

Definition ANY : string := "ANY".
Definition ANY_PUBLIC : string := "ANY_PUBLIC".

(* ================================================================== *)
(** ** The authorization methods

    Both modules declare the same five classes with the same fields. *)

Inductive AuthMethod : Type :=
| NullAuth
| PublicAuth
| DNAuth (dn : string)
| FQANAuth (fqan : string)
| SciTokenAuth (issuer base_path : string) (restricted_path : option string)
               (map_subject : bool).

Definition is_public_auth (a : AuthMethod) : bool :=
  match a with PublicAuth => true | _ => false end.

Definition used_in_authfile (a : AuthMethod) : bool :=
  match a with PublicAuth | DNAuth _ | FQANAuth _ => true | _ => false end.

Definition used_in_scitokens_conf (a : AuthMethod) : bool :=
  match a with SciTokenAuth _ _ _ _ => true | _ => false end.

(** The error string of a parse is tested with [if err:]. *)
Definition err_truthy (err : option string) : bool :=
  match err with
  | Some s => negb (String.eqb s "")
  | None => false
  end.

(* ================================================================== *)
(** ** Notions used to state the properties of the loaders *)

(** The path that a list-shape namespace entry declares. *)
Definition entry_path (ns_data : Yaml) : option string :=
  match ns_data with
  | YDict d =>
      match Py.dict_get d "Path" with
      | Some (YStr p) => Some p
      | _ => None
      end
  | _ => None
  end.

(** The error recorded for entry number [idx] when it declares [path] again. *)
Definition redefining (idx : nat) (path orig_vo_name : string) : string :=
  "Namespace #" ++ Py.str_of_nat idx ++ ": Redefining " ++ path
  ++ "; original was defined in " ++ orig_vo_name.

Definition str_list_ok (y : Yaml) : bool :=
  match as_str_list y with Ok _ => true | Raise _ => false end.

(** What one turn of the loop of [load_new_yaml] does to the registry
    [nss], the error set [errs] and the VO name [vo_of] of the loader state,
    for an entry [y] with number [idx]: the errors only grow; an entry
    without a path changes no namespace; a path already present stays as it
    is and is reported; a new path is stored with the namespace it declares. *)
Definition step_outcome (St NS : Type) (nss : St -> list (string * NS))
    (errs : St -> list string) (vo_of : St -> string) (ns_vo : NS -> string)
    (declared : string -> string -> Yaml -> NS -> Prop)
    (idx : nat) (y : Yaml) (st st' : St) : Prop :=
  vo_of st' = vo_of st
  /\ incl (errs st) (errs st')
  /\ match entry_path y with
     | None => nss st' = nss st
     | Some p =>
         match Py.dict_get (nss st) p with
         | Some orig =>
             nss st' = nss st /\ In (redefining idx p (ns_vo orig)) (errs st')
         | None =>
             exists ns, declared (vo_of st) p y ns
                        /\ ns_vo ns = vo_of st
                        /\ nss st' = Py.dict_set (nss st) p ns
         end
     end.

(* ================================================================== *)
(** ** [webapp/vos_data.py]: the model that [stashcache.py] imports *)

Module VosData.

Section WithExternals.
Context {ext : Externals}.

(** [AuthMethod.get_authfile_id]; the DN variant calls the hash, which is
    [None] (not callable) when the import failed. *)
Definition get_authfile_id (a : AuthMethod) : result string :=
  match a with
  | PublicAuth => Ok "u *"
  | DNAuth dn =>
      match generate_dn_hash with
      | Some h => Ok ("u " ++ h dn)
      | None => Raise TypeError
      end
  | FQANAuth fqan => Ok ("g " ++ fqan)
  | NullAuth | SciTokenAuth _ _ _ _ => Ok ""
  end.

(** [__str__].  [NullAuth] inherits the address-dependent text of [object];
    no caller asks for it, since only entries used in an authfile are
    rendered. *)
Definition str (a : AuthMethod) : string :=
  match a with
  | NullAuth => ""
  | PublicAuth => "PUBLIC"
  | DNAuth dn => "DN: " ++ dn
  | FQANAuth fqan => "FQAN: " ++ fqan
  | SciTokenAuth issuer base_path restricted_path map_subject =>
      "SciToken: issuer=" ++ issuer ++ " base_path=" ++ base_path
      ++ " restricted_path="
      ++ match restricted_path with Some s => s | None => "None" end
      ++ " map_subject=" ++ Py.str_of_bool map_subject
  end.

Definition get_scitokens_conf_block (a : AuthMethod) (service_name : string)
  : result string :=
  match a with
  | SciTokenAuth issuer base_path restricted_path map_subject =>
      if negb (Py.mem service_name [XROOTD_CACHE_SERVER; XROOTD_ORIGIN_SERVER])
      then Raise ValueError
      else
        let block := "[Issuer " ++ issuer ++ "]" ++ LF
                     ++ "issuer = " ++ issuer ++ LF
                     ++ "base_path = " ++ base_path ++ LF in
        let block :=
          match restricted_path with
          | Some s => if negb (String.eqb s "")
                      then block ++ "restricted_path = " ++ s ++ LF
                      else block
          | None => block
          end in
        let block :=
          if String.eqb service_name XROOTD_ORIGIN_SERVER
          then block ++ "map_subject = " ++ Py.str_of_bool map_subject ++ LF
          else block in
        Ok block
  | _ => Ok ""
  end.

Record Namespace : Type := mkNamespace {
  path : string;
  vo_name : string;
  allowed_origins : list string;
  allowed_caches : list string;
  authz_list : list AuthMethod;
  writeback : Yaml;
  dirlist : Yaml
}.

(** [self.authz_list and self.authz_list[0].is_public], as a truth value. *)
Definition is_public (ns : Namespace) : bool :=
  match authz_list ns with
  | [] => false
  | a :: _ => is_public_auth a
  end.

Definition is_bool (y : Yaml) : bool :=
  match y with YBool _ => true | _ => false end.

Definition _parse_authz_scitokens (attributes : list (string * Yaml)) (authz : Yaml)
  : result (AuthMethod * option string) :=
  let errors := "" in
  let issuer := get_default attributes "Issuer" YNone in
  let errors := if negb (truthy issuer)
                then errors ++ "'Issuer' missing or empty; " else errors in
  let base_path := get_default attributes "Base Path" YNone in
  let errors := if negb (truthy base_path)
                then errors ++ "'Base Path' missing or empty; " else errors in
  let restricted_path := get_default attributes "Restricted Path" YNone in
  let errors := if truthy restricted_path && negb (is_str restricted_path)
                then errors ++ "'Restricted Path' not a string; " else errors in
  let map_subject := get_default attributes "Map Subject" (YBool false) in
  let errors := if negb (is_bool map_subject)
                then errors ++ "'Map Subject' not a boolean; " else errors in
  if negb (String.eqb errors "") then
    let errors := Py.chop2 errors in
    Ok (NullAuth, Some ("Invalid SciTokens auth " ++ py_str authz ++ ": " ++ errors))
  else
    i <- as_str issuer ;;
    b <- as_str base_path ;;
    r <- as_opt_str restricted_path ;;
    Ok (SciTokenAuth i b r (truthy map_subject), None).

(** The loop returns on the first item.  On an empty dict it falls through
    and the function returns [None], which no caller can unpack into a
    pair: the [TypeError] of the call site. *)
Definition _parse_authz_dict (authz : list (string * Yaml))
  : result (AuthMethod * option string) :=
  match authz with
  | [] => Raise TypeError
  | (auth_type, attributes) :: _ =>
      if String.eqb auth_type "SciTokens" then
        match attributes with
        | YDict ((_ :: _) as attrs) => _parse_authz_scitokens attrs (YDict authz)
        | _ => Ok (NullAuth, Some ("Invalid SciTokens auth " ++ py_str (YDict authz)
                                   ++ ": no attributes"))
        end
      else if String.eqb auth_type "FQAN" then
        if negb (truthy attributes) then
          Ok (NullAuth, Some ("Invalid FQAN auth " ++ py_str (YDict authz)
                              ++ ": FQAN missing or empty"))
        else fqan <- as_str attributes ;; Ok (FQANAuth fqan, None)
      else if String.eqb auth_type "DN" then
        match generate_dn_hash with
        | None => Ok (NullAuth, Some ("'asn1' library unavailable; cannot handle DN auth "
                                      ++ py_str (YDict authz)))
        | Some _ =>
            if negb (truthy attributes) then
              Ok (NullAuth, Some ("Invalid DN auth " ++ py_str (YDict authz)
                                  ++ ": DN missing or empty"))
            else dn <- as_str attributes ;; Ok (DNAuth dn, None)
        end
      else Ok (NullAuth, Some ("Unknown auth type " ++ auth_type ++ " in "
                               ++ py_str (YDict authz)))
  end.

Definition _parse_authz_str (authz : string) : AuthMethod * option string :=
  if Py.startswith authz "FQAN:" then
    let fqan := Py.strip (Py.drop 5 authz) in
    if String.eqb fqan "" then
      (NullAuth, Some ("Invalid FQAN auth " ++ authz ++ ": FQAN missing or empty"))
    else (FQANAuth fqan, None)
  else if Py.startswith authz "DN:" then
    match generate_dn_hash with
    | None => (NullAuth, Some ("'asn1' library unavailable; cannot handle DN auth " ++ authz))
    | Some _ =>
        let dn := Py.strip (Py.drop 3 authz) in
        if String.eqb dn "" then
          (NullAuth, Some ("Invalid DN auth " ++ authz ++ ": DN missing or empty"))
        else (DNAuth dn, None)
    end
  else if String.eqb (Py.strip authz) "PUBLIC" then (PublicAuth, None)
  else (NullAuth, Some ("Unknown authz list entry " ++ authz)).

Definition parse_authz (authz : Yaml) : result (AuthMethod * option string) :=
  match authz with
  | YDict d => _parse_authz_dict d
  | YStr s => Ok (_parse_authz_str s)
  | _ => Ok (NullAuth, Some ("Unknown authz list entry " ++ py_str authz))
  end.

Definition err_text (err : option string) : string :=
  match err with Some s => s | None => "None" end.

(** The body of [StashCache.parse_authz_list]: [errors] is [self.errors]. *)
Fixpoint parse_authz_items (path : string) (items : list Yaml)
    (authz_list : list AuthMethod) (errors : list string)
  : result (list AuthMethod * list string) :=
  match items with
  | [] => Ok (authz_list, errors)
  | authz :: rest =>
      '(parsed_authz, err) <- parse_authz authz ;;
      if err_truthy err then
        parse_authz_items path rest authz_list
          (Py.set_add ("Namespace " ++ path ++ ": " ++ err_text err) errors)
      else if is_public_auth parsed_authz then Ok ([parsed_authz], errors)
      else parse_authz_items path rest (authz_list ++ [parsed_authz])%list errors
  end.

Definition parse_authz_list (errors : list string) (path : string)
    (unparsed_authz_list : Yaml) : result (list AuthMethod * list string) :=
  items <- py_iter unparsed_authz_list ;;
  parse_authz_items path items [] errors.

Record StashCache : Type := mkStashCache {
  sc_vo_name : string;
  namespaces : list (string * Namespace);
  errors : list string
}.

Definition add_error (self : StashCache) (e : string) : StashCache :=
  mkStashCache (sc_vo_name self) (namespaces self) (Py.set_add e (errors self)).

(** A dict key must be hashable, and a namespace path is a [str]. *)
Definition as_key (y : Yaml) : result string :=
  match y with
  | YList _ | YDict _ => Raise TypeError
  | _ => as_str y
  end.

(** One turn of the loop of [load_new_yaml]. *)
Definition load_new_entry (idx : nat) (ns_data : Yaml) (self : StashCache)
  : result StashCache :=
  has_path <- py_contains ns_data "Path" ;;
  if negb has_path then
    Ok (add_error self ("Namespace #" ++ Py.str_of_nat idx ++ ": No Path"))
  else
    path_v <- py_getitem ns_data "Path" ;;
    path <- as_key path_v ;;
    match Py.dict_get (namespaces self) path with
    | Some orig =>
        let orig_vo_name := vo_name orig in
        Ok (add_error self ("Namespace #" ++ Py.str_of_nat idx ++ ": Redefining "
                            ++ path ++ "; original was defined in " ++ orig_vo_name))
    | None =>
        unparsed <- py_get ns_data "Authorizations" (YList []) ;;
        '(authz_list, errors') <- parse_authz_list (errors self) path unparsed ;;
        origins_v <- py_get ns_data "AllowedOrigins" (YList []) ;;
        origins <- as_str_list origins_v ;;
        caches_v <- py_get ns_data "AllowedCaches" (YList []) ;;
        caches <- as_str_list caches_v ;;
        wb <- py_get ns_data "Writeback" YNone ;;
        dl <- py_get ns_data "DirList" YNone ;;
        Ok (mkStashCache (sc_vo_name self)
              (Py.dict_set (namespaces self) path
                 (mkNamespace path (sc_vo_name self) origins caches authz_list wb dl))
              errors')
    end.

Fixpoint load_new_entries (idx : nat) (entries : list Yaml) (self : StashCache)
  : result StashCache :=
  match entries with
  | [] => Ok self
  | ns_data :: rest =>
      self' <- load_new_entry idx ns_data self ;;
      load_new_entries (S idx) rest self'
  end.

Definition load_new_yaml (self : StashCache) (yaml_data : Yaml) : result StashCache :=
  nss <- py_getitem yaml_data "Namespaces" ;;
  entries <- py_iter nss ;;
  load_new_entries 0 entries self.

(** One turn of the loop of [load_old_yaml]. *)
Definition load_old_entry (yaml_data : Yaml) (path : string) (unparsed : Yaml)
    (self : StashCache) : result StashCache :=
  '(authz_list, errors') <- parse_authz_list (errors self) path unparsed ;;
  let self := mkStashCache (sc_vo_name self) (namespaces self) errors' in
  match Py.dict_get (namespaces self) path with
  | Some orig =>
      let orig_vo_name := vo_name orig in
      Ok (add_error self ("Redefining " ++ path ++ "; original was defined in "
                          ++ orig_vo_name))
  | None =>
      origins_v <- py_get yaml_data "AllowedOrigins" (YList []) ;;
      origins <- as_str_list origins_v ;;
      caches_v <- py_get yaml_data "AllowedCaches" (YList []) ;;
      caches <- as_str_list caches_v ;;
      Ok (mkStashCache (sc_vo_name self)
            (Py.dict_set (namespaces self) path
               (mkNamespace path (sc_vo_name self) origins caches authz_list YNone YNone))
            (errors self))
  end.

Fixpoint load_old_entries (yaml_data : Yaml) (items : list (string * Yaml))
    (self : StashCache) : result StashCache :=
  match items with
  | [] => Ok self
  | (path, unparsed) :: rest =>
      self' <- load_old_entry yaml_data path unparsed self ;;
      load_old_entries yaml_data rest self'
  end.

Definition load_old_yaml (self : StashCache) (yaml_data : Yaml) : result StashCache :=
  nss <- py_getitem yaml_data "Namespaces" ;;
  match nss with
  | YDict items => load_old_entries yaml_data items self
  | _ => Raise AttributeError
  end.

Definition load_yaml (self : StashCache) (yaml_data : Yaml) : result StashCache :=
  if is_null yaml_data ["Namespaces"] then Ok self
  else
    nss <- py_getitem yaml_data "Namespaces" ;;
    match nss with
    | YList _ => load_new_yaml self yaml_data
    | _ => load_old_yaml self yaml_data
    end.

(** [StashCache(vo_name, yaml_data)] *)
Definition new_StashCache (vo_name : string) (yaml_data : Yaml) : result StashCache :=
  load_yaml (mkStashCache vo_name [] []) yaml_data.

(** The two dicts of [VOsData] that the loading touches. *)
Record VOsData : Type := mkVOsData {
  vos : list (string * Yaml);
  stashcache_by_vo_name : list (string * StashCache)
}.

(** [VOsData.add_vo]: the object after the call, and how the call ended.
    [log.exception] only writes to the log. *)
Definition add_vo (self : VOsData) (vo_name : string) (vo_data : Yaml)
  : VOsData * result unit :=
  let self := mkVOsData (Py.dict_set (vos self) vo_name vo_data)
                        (stashcache_by_vo_name self) in
  let r :=
    df <- py_get vo_data "DataFederations" (YDict []) ;;
    stashcache_data <- py_get df "StashCache" YNone ;;
    if truthy stashcache_data then
      stashcache_obj <- new_StashCache vo_name stashcache_data ;;
      match errors stashcache_obj with
      | _ :: _ => Ok self
      | [] => Ok (mkVOsData (vos self)
                    (Py.dict_set (stashcache_by_vo_name self) vo_name stashcache_obj))
      end
    else Ok self in
  match r with
  | Ok self' => (self', Ok tt)
  | Raise e => (self, Raise e)
  end.

(** *** Notions used to state the properties *)

(** An authorization item that [parse_authz] answers with a pair (a method
    or an error string): anything but an empty dict and a payload that is
    not a string. *)
Definition authz_item_ok (authz : Yaml) : bool :=
  match parse_authz authz with Ok _ => true | Raise _ => false end.

(** A well-typed entry of a list-shape document: a dict; its [Path], when
    present, a string; then its [Authorizations] iterable with items as
    above, and its two allowed lists lists of strings. *)
Definition wf_entry (ns_data : Yaml) : bool :=
  match ns_data with
  | YDict d =>
      match Py.dict_get d "Path" with
      | None => true
      | Some (YStr _) =>
          match py_iter (get_default d "Authorizations" (YList [])) with
          | Ok items => forallb authz_item_ok items
          | Raise _ => false
          end
          && str_list_ok (get_default d "AllowedOrigins" (YList []))
          && str_list_ok (get_default d "AllowedCaches" (YList []))
      | Some _ => false
      end
  | _ => false
  end.

(** [namespace] is the [Namespace] that the entry [ns_data] of the VO [vo]
    declares for [p]. *)
Definition declared (vo p : string) (ns_data : Yaml) (namespace : Namespace) : Prop :=
  exists d errs errs',
    ns_data = YDict d
    /\ path namespace = p
    /\ vo_name namespace = vo
    /\ parse_authz_list errs p (get_default d "Authorizations" (YList []))
       = Ok (authz_list namespace, errs')
    /\ as_str_list (get_default d "AllowedOrigins" (YList []))
       = Ok (allowed_origins namespace)
    /\ as_str_list (get_default d "AllowedCaches" (YList []))
       = Ok (allowed_caches namespace)
    /\ writeback namespace = get_default d "Writeback" YNone
    /\ dirlist namespace = get_default d "DirList" YNone.

End WithExternals.

End VosData.

(* ================================================================== *)
(** ** [webapp/data_federation.py]: the second copy of the model *)

Module DataFederation.

Section WithExternals.
Context {ext : Externals}.

Record CredentialGeneration : Type := mkCredentialGeneration {
  strategy : Yaml;
  cg_issuer : Yaml;
  max_scope_depth : Yaml;
  vault_server : Yaml;
  cg_base_path : Yaml;
  vault_issuer : Yaml
}.

Definition STRATEGY_VAULT : string := "Vault".
Definition STRATEGY_OAUTH2 : string := "OAuth2".
Definition STRATEGIES : list string := [STRATEGY_OAUTH2; STRATEGY_VAULT].

(** [y == s] and [y in l] for strings [s] and a list [l] of strings. *)
Definition eq_str (y : Yaml) (s : string) : bool :=
  match y with YStr t => String.eqb t s | _ => false end.

Definition in_strs (y : Yaml) (l : list string) : bool :=
  existsb (eq_str y) l.

Definition errprefix : string := "CredentialGeneration:".

(** [CredentialGeneration.validate].  [urlparse] of the issuer can raise
    [ValueError].  [int()] of a list or dict raises the [TypeError] that the
    method catches; [int()] of a text raises [ValueError], or returns, and
    then the comparison of the text with [0] raises [TypeError]: an
    exception leaves the method either way.  (A parsed value is a null, a
    boolean, an integer, a text, a list or a dict: floats are not
    modelled.) *)
Definition validate (self : CredentialGeneration) : result (list string) :=
  let errors := [] in
  let errors :=
    if negb (in_strs (strategy self) STRATEGIES)
    then Py.set_add (errprefix ++ " invalid Strategy " ++ py_str (strategy self)) errors
    else errors in
  errors <-
    (if negb (truthy (cg_issuer self)) then
       Ok (Py.set_add (errprefix ++ " Issuer not specified") errors)
     else
       match cg_issuer self with
       | YStr s =>
           match urlparse s with
           | None => Raise ValueError
           | Some (scheme, netloc) =>
               if String.eqb netloc "" || negb (String.eqb scheme "https")
               then Ok (Py.set_add (errprefix ++ " Issuer not a valid URL " ++ s) errors)
               else Ok errors
           end
       | other => Ok (Py.set_add (errprefix ++ " invalid Issuer " ++ py_str other) errors)
       end) ;;
  let errors :=
    if truthy (cg_base_path self) && negb (is_str (cg_base_path self))
    then Py.set_add (errprefix ++ " invalid BasePath " ++ py_str (cg_base_path self)) errors
    else errors in
  errors <-
    (if truthy (max_scope_depth self) then
       match max_scope_depth self with
       | YInt z =>
           if Z.ltb z 0
           then Ok (Py.set_add (errprefix ++ " negative MaxScopeDepth " ++ Py.str_of_Z z) errors)
           else Ok errors
       | YStr s => if py_int_accepts s then Raise TypeError else Raise ValueError
       | YList _ | YDict _ =>
           Ok (Py.set_add (errprefix ++ " invalid MaxScopeDepth (not an integer) "
                           ++ py_str (max_scope_depth self)) errors)
       | _ => Ok errors
       end
     else Ok errors) ;;
  let errors :=
    if truthy (vault_server self) then
      if negb (eq_str (strategy self) STRATEGY_VAULT)
      then Py.set_add (errprefix ++ " VaultServer specified for a "
                       ++ py_str (strategy self) ++ " strategy") errors
      else errors
    else
      if eq_str (strategy self) STRATEGY_VAULT
      then Py.set_add (errprefix ++ " VaultServer not specified for a "
                       ++ py_str (strategy self) ++ " strategy") errors
      else errors in
  let errors :=
    if truthy (vault_issuer self) && negb (eq_str (strategy self) STRATEGY_VAULT)
    then Py.set_add (errprefix ++ " VaultIssuer specified for a "
                     ++ py_str (strategy self) ++ " strategy") errors
    else errors in
  Ok errors.

Record Namespace : Type := mkNamespace {
  path : string;
  vo_name : string;
  allowed_origins : list string;
  allowed_caches : list string;
  authz_list : list AuthMethod;
  writeback : Yaml;
  dirlist : Yaml;
  credential_generation : option CredentialGeneration
}.

(** [any(x for x in self.authz_list if x.is_public)]: the generator yields
    the public entries, and every [AuthMethod] object is truthy. *)
Definition is_public (ns : Namespace) : bool :=
  existsb (fun _ => true) (filter is_public_auth (authz_list ns)).

Definition is_bool (y : Yaml) : bool :=
  match y with YBool _ => true | _ => false end.

Definition _parse_authz_scitokens (attributes : list (string * Yaml)) (authz : Yaml)
  : result (AuthMethod * option string) :=
  let errors := "" in
  let issuer := get_default attributes "Issuer" YNone in
  let errors := if negb (truthy issuer)
                then errors ++ "'Issuer' missing or empty; " else errors in
  let base_path :=
    get_default attributes "BasePath" (get_default attributes "Base Path" YNone) in
  let errors := if negb (truthy base_path)
                then errors ++ "'BasePath' missing or empty; " else errors in
  let restricted_path :=
    get_default attributes "RestrictedPath"
      (get_default attributes "Restricted Path" YNone) in
  let errors := if truthy restricted_path && negb (is_str restricted_path)
                then errors ++ "'RestrictedPath' not a string; " else errors in
  let map_subject :=
    get_default attributes "MapSubject"
      (get_default attributes "Map Subject" (YBool false)) in
  let errors := if negb (is_bool map_subject)
                then errors ++ "'MapSubject' not a boolean; " else errors in
  if negb (String.eqb errors "") then
    let errors := Py.chop2 errors in
    Ok (NullAuth, Some ("Invalid SciTokens auth " ++ py_str authz ++ ": " ++ errors))
  else
    i <- as_str issuer ;;
    b <- as_str base_path ;;
    r <- as_opt_str restricted_path ;;
    Ok (SciTokenAuth i b r (truthy map_subject), None).

(** As in [vos_data.py]: the first item decides, and an empty dict makes the
    call site fail with [TypeError]. *)
Definition _parse_authz_dict (authz : list (string * Yaml))
  : result (AuthMethod * option string) :=
  match authz with
  | [] => Raise TypeError
  | (auth_type, attributes) :: _ =>
      if String.eqb auth_type "SciTokens" then
        match attributes with
        | YDict ((_ :: _) as attrs) => _parse_authz_scitokens attrs (YDict authz)
        | _ => Ok (NullAuth, Some ("Invalid SciTokens auth " ++ py_str (YDict authz)
                                   ++ ": no attributes"))
        end
      else if String.eqb auth_type "FQAN" then
        if negb (truthy attributes) then
          Ok (NullAuth, Some ("Invalid FQAN auth " ++ py_str (YDict authz)
                              ++ ": FQAN missing or empty"))
        else fqan <- as_str attributes ;; Ok (FQANAuth fqan, None)
      else if String.eqb auth_type "DN" then
        match generate_dn_hash with
        | None => Ok (NullAuth, Some ("'asn1' library unavailable; cannot handle DN auth "
                                      ++ py_str (YDict authz)))
        | Some _ =>
            if negb (truthy attributes) then
              Ok (NullAuth, Some ("Invalid DN auth " ++ py_str (YDict authz)
                                  ++ ": DN missing or empty"))
            else dn <- as_str attributes ;; Ok (DNAuth dn, None)
        end
      else Ok (NullAuth, Some ("Unknown auth type " ++ auth_type ++ " in "
                               ++ py_str (YDict authz)))
  end.

Definition _parse_authz_str (authz : string) : AuthMethod * option string :=
  if Py.startswith authz "FQAN:" then
    let fqan := Py.strip (Py.drop 5 authz) in
    if String.eqb fqan "" then
      (NullAuth, Some ("Invalid FQAN auth " ++ authz ++ ": FQAN missing or empty"))
    else (FQANAuth fqan, None)
  else if Py.startswith authz "DN:" then
    match generate_dn_hash with
    | None => (NullAuth, Some ("'asn1' library unavailable; cannot handle DN auth " ++ authz))
    | Some _ =>
        let dn := Py.strip (Py.drop 3 authz) in
        if String.eqb dn "" then
          (NullAuth, Some ("Invalid DN auth " ++ authz ++ ": DN missing or empty"))
        else (DNAuth dn, None)
    end
  else if String.eqb (Py.strip authz) "PUBLIC" then (PublicAuth, None)
  else (NullAuth, Some ("Unknown authz list entry " ++ authz)).

Definition parse_authz (authz : Yaml) : result (AuthMethod * option string) :=
  match authz with
  | YDict d => _parse_authz_dict d
  | YStr s => Ok (_parse_authz_str s)
  | _ => Ok (NullAuth, Some ("Unknown authz list entry " ++ py_str authz))
  end.

Definition err_text (err : option string) : string :=
  match err with Some s => s | None => "None" end.

(** The body of [StashCache.parse_authz_list]; unlike the other copy it does
    not stop at a public entry. *)
Fixpoint parse_authz_items (path : string) (items : list Yaml)
    (authz_list : list AuthMethod) (errors : list string)
  : result (list AuthMethod * list string) :=
  match items with
  | [] => Ok (authz_list, errors)
  | authz :: rest =>
      '(parsed_authz, err) <- parse_authz authz ;;
      if err_truthy err then
        parse_authz_items path rest authz_list
          (Py.set_add ("Namespace " ++ path ++ ": " ++ err_text err) errors)
      else parse_authz_items path rest (authz_list ++ [parsed_authz])%list errors
  end.

Definition parse_authz_list (errors : list string) (path : string)
    (unparsed_authz_list : Yaml) : result (list AuthMethod * list string) :=
  items <- py_iter unparsed_authz_list ;;
  parse_authz_items path items [] errors.

Record StashCache : Type := mkStashCache {
  sc_vo_name : string;
  namespaces : list (string * Namespace);
  errors : list string
}.

Definition add_error (self : StashCache) (e : string) : StashCache :=
  mkStashCache (sc_vo_name self) (namespaces self) (Py.set_add e (errors self)).

Definition as_key (y : Yaml) : result string :=
  match y with
  | YList _ | YDict _ => Raise TypeError
  | _ => as_str y
  end.

(** The [CredentialGeneration] block of a namespace entry, built from
    [cg.get(...)]: [cg] has to be a dict. *)
Definition read_credential_generation (cg : Yaml) : result CredentialGeneration :=
  s <- py_get cg "Strategy" (YStr "") ;;
  i <- py_get cg "Issuer" (YStr "") ;;
  m <- py_get cg "MaxScopeDepth" YNone ;;
  v <- py_get cg "VaultServer" YNone ;;
  b <- py_get cg "BasePath" YNone ;;
  vi <- py_get cg "VaultIssuer" YNone ;;
  Ok (mkCredentialGeneration s i m v b vi).

(** One turn of the loop of [load_new_yaml].  [self.errors] is a [set], and
    [self.errors += {...}] is [set.__iadd__], which does not exist: the
    statement raises [TypeError] whenever it is reached. *)
Definition load_new_entry (idx : nat) (ns_data : Yaml) (self : StashCache)
  : result StashCache :=
  has_path <- py_contains ns_data "Path" ;;
  if negb has_path then
    Ok (add_error self ("Namespace #" ++ Py.str_of_nat idx ++ ": No Path"))
  else
    path_v <- py_getitem ns_data "Path" ;;
    path <- as_key path_v ;;
    match Py.dict_get (namespaces self) path with
    | Some orig =>
        let orig_vo_name := vo_name orig in
        Ok (add_error self ("Namespace #" ++ Py.str_of_nat idx ++ ": Redefining "
                            ++ path ++ "; original was defined in " ++ orig_vo_name))
    | None =>
        unparsed <- py_get ns_data "Authorizations" (YList []) ;;
        '(authz_list, errors') <- parse_authz_list (errors self) path unparsed ;;
        has_cg <- py_contains ns_data "CredentialGeneration" ;;
        credential_generation <-
          (if has_cg then
             cg <- py_getitem ns_data "CredentialGeneration" ;;
             credential_generation <- read_credential_generation cg ;;
             cg_errors <- validate credential_generation ;;
             match cg_errors with
             | _ :: _ => Raise TypeError
             | [] => Ok (Some credential_generation)
             end
           else Ok None) ;;
        origins_v <- py_get ns_data "AllowedOrigins" (YList []) ;;
        origins <- as_str_list origins_v ;;
        caches_v <- py_get ns_data "AllowedCaches" (YList []) ;;
        caches <- as_str_list caches_v ;;
        wb <- py_get ns_data "Writeback" YNone ;;
        dl <- py_get ns_data "DirList" YNone ;;
        Ok (mkStashCache (sc_vo_name self)
              (Py.dict_set (namespaces self) path
                 (mkNamespace path (sc_vo_name self) origins caches authz_list wb dl
                    credential_generation))
              errors')
    end.

Fixpoint load_new_entries (idx : nat) (entries : list Yaml) (self : StashCache)
  : result StashCache :=
  match entries with
  | [] => Ok self
  | ns_data :: rest =>
      self' <- load_new_entry idx ns_data self ;;
      load_new_entries (S idx) rest self'
  end.

Definition load_new_yaml (self : StashCache) (yaml_data : Yaml) : result StashCache :=
  nss <- py_getitem yaml_data "Namespaces" ;;
  entries <- py_iter nss ;;
  load_new_entries 0 entries self.

(** *** Notions used to state the properties *)

Definition authz_item_ok (authz : Yaml) : bool :=
  match parse_authz authz with Ok _ => true | Raise _ => false end.

(** The [CredentialGeneration] block of an entry is absent, or is a dict
    that passes [validate] without an error. *)
Definition credential_generation_ok (d : list (string * Yaml)) : bool :=
  match Py.dict_get d "CredentialGeneration" with
  | None => true
  | Some cg =>
      match read_credential_generation cg with
      | Ok c => match validate c with Ok [] => true | _ => false end
      | Raise _ => false
      end
  end.

(** A well-typed entry, as for the other copy, whose [CredentialGeneration]
    block raises no objection. *)
Definition wf_entry (ns_data : Yaml) : bool :=
  match ns_data with
  | YDict d =>
      match Py.dict_get d "Path" with
      | None => true
      | Some (YStr _) =>
          match py_iter (get_default d "Authorizations" (YList [])) with
          | Ok items => forallb authz_item_ok items
          | Raise _ => false
          end
          && credential_generation_ok d
          && str_list_ok (get_default d "AllowedOrigins" (YList []))
          && str_list_ok (get_default d "AllowedCaches" (YList []))
      | Some _ => false
      end
  | _ => false
  end.

Definition declared (vo p : string) (ns_data : Yaml) (namespace : Namespace) : Prop :=
  exists d errs errs',
    ns_data = YDict d
    /\ path namespace = p
    /\ vo_name namespace = vo
    /\ parse_authz_list errs p (get_default d "Authorizations" (YList []))
       = Ok (authz_list namespace, errs')
    /\ as_str_list (get_default d "AllowedOrigins" (YList []))
       = Ok (allowed_origins namespace)
    /\ as_str_list (get_default d "AllowedCaches" (YList []))
       = Ok (allowed_caches namespace)
    /\ writeback namespace = get_default d "Writeback" YNone
    /\ dirlist namespace = get_default d "DirList" YNone
    /\ match Py.dict_get d "CredentialGeneration" with
       | None => credential_generation namespace = None
       | Some cg =>
           exists c, read_credential_generation cg = Ok c
                     /\ validate c = Ok []
                     /\ credential_generation namespace = Some c
       end.

End WithExternals.

End DataFederation.

(* ================================================================== *)
(** ** [stashcache.py]: the policy predicates and the generators *)

Module Stashcache.

Import VosData.

Section WithExternals.
Context {ext : Externals}.

(** Modelled from the spec: the class [GlobalData] of [webapp.models], which
    is not part of the sources.  The generators read a snapshot of the node
    registry, of the per-VO namespace registries and of the externally
    fetched LIGO DN list. *)
Record GlobalData : Type := mkGlobalData {
  get_topology : Topology;
  get_vos_data : VOsData;
  get_ligo_dn_list : list string
}.

Definition _log_or_raise (suppress_errors : bool) (an_exception : exn) : result unit :=
  if suppress_errors then Ok tt else Raise an_exception.

Definition _resource_has_cache (resource : Resource) : bool :=
  Py.mem XROOTD_CACHE_SERVER (service_names resource).

(** An optional string that passes [if fqdn:] (or [if dn:]): present and
    not empty. *)
Definition given (fqdn : option string) : option string :=
  match fqdn with
  | Some f => if String.eqb f "" then None else Some f
  | None => None
  end.

Definition _get_resource_with_service (fqdn : option string) (service_name : string)
    (topology : Topology) (suppress_errors : bool) : result (option Resource) :=
  match given fqdn with
  | Some f =>
      match safe_get_resource_by_fqdn topology f with
      | None =>
          _ <- _log_or_raise suppress_errors (ResourceNotRegistered f) ;;
          Ok None
      | Some resource =>
          if negb (Py.mem service_name (service_names resource)) then
            _ <- _log_or_raise suppress_errors
                   (ResourceMissingService resource service_name) ;;
            Ok None
          else Ok (Some resource)
      end
  | None => Ok None
  end.

Definition _get_cache_resource (fqdn : option string) (topology : Topology)
    (suppress_errors : bool) : result (option Resource) :=
  _get_resource_with_service fqdn XROOTD_CACHE_SERVER topology suppress_errors.

Definition _get_origin_resource (fqdn : option string) (topology : Topology)
    (suppress_errors : bool) : result (option Resource) :=
  _get_resource_with_service fqdn XROOTD_ORIGIN_SERVER topology suppress_errors.

Definition resource_allows_namespace (resource : Resource) (namespace : option Namespace)
  : bool :=
  let allowed_vos := AllowedVOs resource in
  if Py.mem ANY allowed_vos then true
  else
    match namespace with
    | Some namespace =>
        if Py.mem ANY_PUBLIC allowed_vos && is_public namespace then true
        else if Py.mem (vo_name namespace) allowed_vos then true
        else false
    | None => false
    end.

Definition namespace_allows_origin_resource (namespace : Namespace)
    (origin : option Resource) : bool :=
  match origin with
  | Some origin => Py.mem (name origin) (allowed_origins namespace)
  | None => false
  end.

Definition namespace_allows_cache_resource (namespace : Namespace)
    (cache : option Resource) : bool :=
  if Py.mem ANY (allowed_caches namespace) then true
  else
    match cache with
    | Some cache => Py.mem (name cache) (allowed_caches namespace)
    | None => false
    end.

Definition get_supported_caches_for_namespace (namespace : Namespace)
    (topology : Topology) : list Resource :=
  let resource_groups := get_resource_group_list topology in
  let all_caches :=
    flat_map (fun group => filter _resource_has_cache (resources group))
             resource_groups in
  filter (fun cache =>
            namespace_allows_cache_resource namespace (Some cache)
            && resource_allows_namespace cache (Some namespace))
         all_caches.

(** *** The cache authfile *)

(** [d[k].add(x)] on a [defaultdict(set)]. *)
Definition defaultdict_add (d : list (string * list string)) (k x : string)
  : list (string * list string) :=
  match Py.dict_get d k with
  | Some s => Py.dict_set d k (Py.set_add x s)
  | None => Py.dict_set d k [x]
  end.

(** The local variables that the loops of [generate_cache_authfile] update. *)
Record authfile_acc : Type := mkAcc {
  warnings : string;
  id_to_dir : list (string * list string);
  id_to_str : list (string * string);
  ligo_authz_list : list AuthMethod
}.

(** [fetch_ligo_authz_list_if_needed]: the list after the call ([parse_authz]
    of a [str] is [_parse_authz_str]). *)
Definition fetch_ligo_authz_list_if_needed (global_data : GlobalData)
    (ligo_authz_list : list AuthMethod) : list AuthMethod :=
  match ligo_authz_list with
  | [] => map (fun dn => fst (_parse_authz_str ("DN:" ++ dn)))
              (get_ligo_dn_list global_data)
  | _ => ligo_authz_list
  end.

(** The loop over the (extended) authz list of one namespace. *)
Fixpoint add_authz_entries (dirname : string) (extended_authz_list : list AuthMethod)
    (acc : authfile_acc) : result authfile_acc :=
  match extended_authz_list with
  | [] => Ok acc
  | authz :: rest =>
      if used_in_authfile authz then
        authfile_id <- get_authfile_id authz ;;
        add_authz_entries dirname rest
          (mkAcc (warnings acc)
                 (defaultdict_add (id_to_dir acc) authfile_id dirname)
                 (Py.dict_set (id_to_str acc) authfile_id (str authz))
                 (ligo_authz_list acc))
      else add_authz_entries dirname rest acc
  end.

Definition set_authz_list (namespace : Namespace) (l : list AuthMethod) : Namespace :=
  mkNamespace (path namespace) (vo_name namespace) (allowed_origins namespace)
              (allowed_caches namespace) l (writeback namespace) (dirlist namespace).

(** The body of the inner loop for one [(dirname, namespace)] item: the
    namespace object after the turn and the updated locals.
    [extended_authz_list] is another name of [namespace.authz_list], and [+=]
    on a list extends it in place. *)
Definition visit_namespace (global_data : GlobalData) (resource : option Resource)
    (legacy : bool) (dirname : string) (namespace : Namespace) (acc : authfile_acc)
  : Namespace * result authfile_acc :=
  if negb (namespace_allows_cache_resource namespace resource) then (namespace, Ok acc)
  else if match resource with
          | Some r => negb (resource_allows_namespace r (Some namespace))
          | None => false
          end then (namespace, Ok acc)
  else if is_public namespace then (namespace, Ok acc)
  else
    let '(namespace, acc) :=
      if String.eqb dirname "/user/ligo" then
        if legacy then
          let ligo := fetch_ligo_authz_list_if_needed global_data (ligo_authz_list acc) in
          (set_authz_list namespace (authz_list namespace ++ ligo)%list,
           mkAcc (warnings acc) (id_to_dir acc) (id_to_str acc) ligo)
        else
          (namespace,
           mkAcc (warnings acc ++ "# LIGO DNs unavailable" ++ LF)
                 (id_to_dir acc) (id_to_str acc) (ligo_authz_list acc))
      else (namespace, acc) in
    (namespace, add_authz_entries dirname (authz_list namespace) acc).

Fixpoint visit_namespaces (global_data : GlobalData) (resource : option Resource)
    (legacy : bool) (items : list (string * Namespace)) (acc : authfile_acc)
  : list (string * Namespace) * result authfile_acc :=
  match items with
  | [] => ([], Ok acc)
  | (dirname, namespace) :: rest =>
      let '(namespace', r) :=
        visit_namespace global_data resource legacy dirname namespace acc in
      match r with
      | Ok acc' =>
          let '(rest', r') := visit_namespaces global_data resource legacy rest acc' in
          ((dirname, namespace') :: rest', r')
      | Raise e => ((dirname, namespace') :: rest, Raise e)
      end
  end.

Definition set_namespaces (sc : StashCache) (nss : list (string * Namespace))
  : StashCache :=
  mkStashCache (sc_vo_name sc) nss (errors sc).

Fixpoint visit_stashcaches (global_data : GlobalData) (resource : option Resource)
    (legacy : bool) (items : list (string * StashCache)) (acc : authfile_acc)
  : list (string * StashCache) * result authfile_acc :=
  match items with
  | [] => ([], Ok acc)
  | (vo, stashcache_obj) :: rest =>
      let '(nss', r) :=
        visit_namespaces global_data resource legacy (namespaces stashcache_obj) acc in
      match r with
      | Ok acc' =>
          let '(rest', r') := visit_stashcaches global_data resource legacy rest acc' in
          ((vo, set_namespaces stashcache_obj nss') :: rest', r')
      | Raise e => ((vo, set_namespaces stashcache_obj nss') :: rest, Raise e)
      end
  end.

Definition set_stashcaches (global_data : GlobalData)
    (scs : list (string * StashCache)) : GlobalData :=
  mkGlobalData (get_topology global_data)
               (mkVOsData (vos (get_vos_data global_data)) scs)
               (get_ligo_dn_list global_data).

(** [" ".join(f"{p} <perm>" for p in sorted(paths))] *)
Definition paths_acl (perm : string) (paths : list string) : string :=
  Py.join " " (map (fun p => p ++ " " ++ perm) (Py.sorted paths)).

(** The final loop over [id_to_dir]: the text appended to [authfile]. *)
Fixpoint render_cache_ids (ids : list (string * list string))
    (id_to_str : list (string * string)) : result string :=
  match ids with
  | [] => Ok ""
  | (authfile_id, dirs) :: rest =>
      match Py.dict_get id_to_str authfile_id with
      | None => Raise KeyError
      | Some s =>
          tail <- render_cache_ids rest id_to_str ;;
          Ok ("# " ++ s ++ LF ++ authfile_id ++ " " ++ paths_acl "rl" dirs ++ LF ++ tail)
      end
  end.

(** The loops of [generate_cache_authfile], from empty locals. *)
Definition collect_cache_authfile (global_data : GlobalData)
    (resource : option Resource) (legacy : bool)
  : list (string * StashCache) * result authfile_acc :=
  visit_stashcaches global_data resource legacy
    (stashcache_by_vo_name (get_vos_data global_data)) (mkAcc "" [] [] []).

(** What follows the loops: the test of [id_to_dir] and the rendering. *)
Definition finish_cache_authfile (acc : authfile_acc) : result string :=
  match id_to_dir acc with
  | [] => Raise (DataError "Cache does not support any protected namespaces")
  | _ =>
      authfile <- render_cache_ids (id_to_dir acc) (id_to_str acc) ;;
      Ok (warnings acc ++ authfile)
  end.

(** [generate_cache_authfile]: the snapshot after the call, and the text
    returned or the exception raised. *)
Definition generate_cache_authfile (global_data : GlobalData) (fqdn : option string)
    (legacy suppress_errors : bool) : GlobalData * result string :=
  let topology := get_topology global_data in
  let run (resource : option Resource) :=
    let '(scs, r) := collect_cache_authfile global_data resource legacy in
    (set_stashcaches global_data scs, acc <- r ;; finish_cache_authfile acc) in
  match given fqdn with
  | Some _ =>
      match _get_cache_resource fqdn topology suppress_errors with
      | Raise e => (global_data, Raise e)
      | Ok None => (global_data, Ok "")
      | Ok (Some resource) => run (Some resource)
      end
  | None => run None
  end.

(** *** The public cache authfile *)

(** The body of the inner loop of [generate_public_cache_authfile]. *)
Definition visit_public_namespace (resource : option Resource)
    (public_dirs : list string) (item : string * Namespace) : list string :=
  let '(dirname, namespace) := item in
  if negb (namespace_allows_cache_resource namespace resource) then public_dirs
  else if match resource with
          | Some r => negb (resource_allows_namespace r (Some namespace))
          | None => false
          end then public_dirs
  else if is_public namespace then Py.set_add dirname public_dirs
  else public_dirs.

Definition collect_public_dirs_from (resource : option Resource)
    (scs : list (string * StashCache)) (public_dirs : list string) : list string :=
  fold_left
    (fun public_dirs vo_sc =>
       fold_left (visit_public_namespace resource) (namespaces (snd vo_sc)) public_dirs)
    scs public_dirs.

Definition collect_public_dirs (resource : option Resource)
    (scs : list (string * StashCache)) : list string :=
  collect_public_dirs_from resource scs [].

Definition BACKSLASH : string := String (ascii_of_nat 92) EmptyString.

Definition generate_public_cache_authfile (global_data : GlobalData)
    (fqdn : option string) (legacy suppress_errors : bool) : result string :=
  let authfile := "u * /user/ligo -rl " ++ BACKSLASH ++ LF in
  let topology := get_topology global_data in
  let run (resource : option Resource) :=
    let public_dirs :=
      collect_public_dirs resource
        (stashcache_by_vo_name (get_vos_data global_data)) in
    match public_dirs with
    | [] => Raise (DataError "Cache does not support any public namespaces")
    | _ =>
        let authfile :=
          fold_left (fun authfile dirname =>
                       authfile ++ "    " ++ dirname ++ " rl " ++ BACKSLASH ++ LF)
                    (Py.sorted public_dirs) authfile in
        let authfile :=
          if Py.endswith authfile (" " ++ BACKSLASH ++ LF)
          then Py.chop 3 authfile ++ LF else authfile in
        Ok authfile
    end in
  match given fqdn with
  | Some _ =>
      resource <- _get_cache_resource fqdn topology suppress_errors ;;
      match resource with
      | None => Ok ""
      | Some _ => run resource
      end
  | None => run None
  end.

(** *** The SciTokens configuration *)

Definition dummy_auth : AuthMethod :=
  SciTokenAuth "https://scitokens.org/nonexistent" "/no-issuers-found" None false.

(** The loops shared by the two SciTokens generators; [gate] is the pair of
    tests that follows [is_public] in each of them.  The state is the list
    of collected entries and the set [allowed_vos]. *)
Definition add_scitokens_entry (vo_name : string)
    (st : list AuthMethod * list string) (authz : AuthMethod)
  : list AuthMethod * list string :=
  if used_in_scitokens_conf authz
  then ((fst st ++ [authz])%list, Py.set_add vo_name (snd st))
  else st.

Definition visit_scitokens_namespace (gate : Namespace -> bool) (vo_name : string)
    (st : list AuthMethod * list string) (item : string * Namespace)
  : list AuthMethod * list string :=
  let namespace := snd item in
  if is_public namespace then st
  else if negb (gate namespace) then st
  else fold_left (add_scitokens_entry vo_name) (authz_list namespace) st.

Definition collect_scitokens_from (gate : Namespace -> bool)
    (scs : list (string * StashCache)) (st : list AuthMethod * list string)
  : list AuthMethod * list string :=
  fold_left
    (fun st vo_sc =>
       fold_left (visit_scitokens_namespace gate (fst vo_sc))
                 (namespaces (snd vo_sc)) st)
    scs st.

Definition collect_scitokens (gate : Namespace -> bool)
    (scs : list (string * StashCache)) : list AuthMethod * list string :=
  collect_scitokens_from gate scs ([], []).

Fixpoint conf_blocks (service_name : string) (l : list AuthMethod)
  : result (list string) :=
  match l with
  | [] => Ok []
  | a :: rest =>
      b <- get_scitokens_conf_block a service_name ;;
      bs <- conf_blocks service_name rest ;;
      Ok (b :: bs)
  end.

(** From the collected entries to the text: the dummy issuer, the set of
    blocks, the template, [rstrip] and the final newline. *)
Definition render_scitokens (service_name : string)
    (collected : list AuthMethod * list string) : result string :=
  let '(authz_list, allowed_vos) := collected in
  let authz_list :=
    match authz_list with
    | [] => [dummy_auth]
    | _ => authz_list
    end in
  blocks <- conf_blocks service_name authz_list ;;
  let issuer_blocks := Py.to_set blocks in
  let issuer_blocks_str := Py.join LF (Py.sorted issuer_blocks) in
  let allowed_vos_str := Py.join ", " (Py.sorted allowed_vos) in
  Ok (Py.rstrip ("[Global]" ++ LF ++ "audience = " ++ allowed_vos_str ++ LF
                 ++ LF ++ issuer_blocks_str ++ LF) ++ LF).

Definition generate_cache_scitokens (global_data : GlobalData) (fqdn : option string)
    (suppress_errors : bool) : result string :=
  let topology := get_topology global_data in
  let vos_data := get_vos_data global_data in
  cache_resource <- _get_cache_resource fqdn topology suppress_errors ;;
  match cache_resource with
  | None => Ok ""
  | Some cache_resource =>
      render_scitokens XROOTD_CACHE_SERVER
        (collect_scitokens
           (fun namespace =>
              namespace_allows_cache_resource namespace (Some cache_resource)
              && resource_allows_namespace cache_resource (Some namespace))
           (stashcache_by_vo_name vos_data))
  end.

Definition generate_origin_scitokens (global_data : GlobalData) (fqdn : option string)
    (suppress_errors : bool) : result string :=
  let topology := get_topology global_data in
  let vos_data := get_vos_data global_data in
  origin_resource <- _get_origin_resource fqdn topology suppress_errors ;;
  match origin_resource with
  | None => Ok ""
  | Some origin_resource =>
      render_scitokens XROOTD_ORIGIN_SERVER
        (collect_scitokens
           (fun namespace =>
              namespace_allows_origin_resource namespace (Some origin_resource)
              && resource_allows_namespace origin_resource (Some namespace))
           (stashcache_by_vo_name vos_data))
  end.

(** *** The origin authfile *)

(** The local variables that the loops of [generate_origin_authfile] update. *)
Record origin_acc : Type := mkOriginAcc {
  public_paths : list string;
  id_to_paths : list (string * list string);
  o_id_to_str : list (string * string);
  o_warnings : list string
}.

(** The two warnings of the origin authfile. *)
Definition no_dn_warning (resource : Resource) (vo_name path : string) : string :=
  "# WARNING: Resource " ++ name resource ++ " was skipped for VO " ++ vo_name
  ++ ", namespace " ++ path ++ " because the resource does not provide a DN.".

Definition no_cache_warning (path : string) : string :=
  "# WARNING: No working cache / namespace combinations found for " ++ path.

(** The loop over [allowed_resources]: the DN entries and the warnings
    ([if dn:] fails on a missing and on an empty DN). *)
Fixpoint resources_to_authz (vo_name path : string) (allowed_resources : list Resource)
    (authz_list : list AuthMethod) (warnings : list string)
  : list AuthMethod * list string :=
  match allowed_resources with
  | [] => (authz_list, warnings)
  | resource :: rest =>
      match given (DN resource) with
      | Some dn =>
          resources_to_authz vo_name path rest (authz_list ++ [DNAuth dn])%list warnings
      | None =>
          resources_to_authz vo_name path rest authz_list
            (warnings ++ [no_dn_warning resource vo_name path])%list
      end
  end.

Fixpoint add_origin_entries (path : string) (authz_list : list AuthMethod)
    (acc : origin_acc) : result origin_acc :=
  match authz_list with
  | [] => Ok acc
  | authz :: rest =>
      if used_in_authfile authz then
        authfile_id <- get_authfile_id authz ;;
        add_origin_entries path rest
          (mkOriginAcc (public_paths acc)
                       (defaultdict_add (id_to_paths acc) authfile_id path)
                       (Py.dict_set (o_id_to_str acc) authfile_id (str authz))
                       (o_warnings acc))
      else add_origin_entries path rest acc
  end.

(** The body of the inner loop for one [(path, namespace)] item. *)
Definition visit_origin_namespace (topology : Topology)
    (origin_resource : option Resource) (public_origin : bool)
    (vo_name path : string) (namespace : Namespace) (acc : origin_acc)
  : result origin_acc :=
  match origin_resource with
  | None => Ok acc
  | Some origin =>
      if negb (namespace_allows_origin_resource namespace origin_resource) then Ok acc
      else if negb (resource_allows_namespace origin (Some namespace)) then Ok acc
      else if is_public namespace then
        Ok (mkOriginAcc (Py.set_add path (public_paths acc)) (id_to_paths acc)
                        (o_id_to_str acc) (o_warnings acc))
      else if public_origin then Ok acc
      else
        let allowed_resources := [origin] in
        let allowed_caches := get_supported_caches_for_namespace namespace topology in
        let '(allowed_resources, warnings) :=
          match allowed_caches with
          | _ :: _ => ((allowed_resources ++ allowed_caches)%list, o_warnings acc)
          | [] =>
              (allowed_resources,
               (o_warnings acc ++ [no_cache_warning path])%list)
          end in
        let '(authz_list, warnings) :=
          resources_to_authz vo_name path allowed_resources [] warnings in
        add_origin_entries path authz_list
          (mkOriginAcc (public_paths acc) (id_to_paths acc) (o_id_to_str acc) warnings)
  end.

Fixpoint visit_origin_namespaces (topology : Topology)
    (origin_resource : option Resource) (public_origin : bool) (vo_name : string)
    (items : list (string * Namespace)) (acc : origin_acc) : result origin_acc :=
  match items with
  | [] => Ok acc
  | (path, namespace) :: rest =>
      acc' <- visit_origin_namespace topology origin_resource public_origin
                vo_name path namespace acc ;;
      visit_origin_namespaces topology origin_resource public_origin vo_name rest acc'
  end.

Fixpoint visit_origin_stashcaches (topology : Topology)
    (origin_resource : option Resource) (public_origin : bool)
    (items : list (string * StashCache)) (acc : origin_acc) : result origin_acc :=
  match items with
  | [] => Ok acc
  | (vo_name, stashcache_obj) :: rest =>
      acc' <- visit_origin_namespaces topology origin_resource public_origin vo_name
                (namespaces stashcache_obj) acc ;;
      visit_origin_stashcaches topology origin_resource public_origin rest acc'
  end.

(** The comment and identity line of each entry of [id_to_paths]. *)
Fixpoint identity_lines (ids : list (string * list string))
    (id_to_str : list (string * string)) : result (list string) :=
  match ids with
  | [] => Ok []
  | (authfile_id, paths) :: rest =>
      match Py.dict_get id_to_str authfile_id with
      | None => Raise KeyError
      | Some s =>
          tail <- identity_lines rest id_to_str ;;
          Ok (("# " ++ s) :: (authfile_id ++ " " ++ paths_acl "lr" paths) :: tail)
      end
  end.

(** The lines appended last: the public paths. *)
Definition public_line (public_paths : list string) : string :=
  "u * " ++ paths_acl "lr" public_paths.

Definition public_block (public_origin : bool) (public_paths : list string)
  : list string :=
  if public_origin && match public_paths with [] => false | _ => true end
  then [""; public_line public_paths]
  else [].

Definition generate_origin_authfile (global_data : GlobalData) (fqdn : option string)
    (suppress_errors public_origin : bool) : result string :=
  let topology := get_topology global_data in
  let vos_data := get_vos_data global_data in
  let run (origin_resource : option Resource) :=
    acc <- visit_origin_stashcaches topology origin_resource public_origin
             (stashcache_by_vo_name vos_data) (mkOriginAcc [] [] [] []) ;;
    match id_to_paths acc, public_paths acc with
    | [], [] => Raise (DataError "Origin does not support any namespaces")
    | _, _ =>
        id_lines <- identity_lines (id_to_paths acc) (o_id_to_str acc) ;;
        let authfile_lines :=
          (o_warnings acc ++ id_lines
           ++ public_block public_origin (public_paths acc))%list in
        Ok (Py.join LF authfile_lines ++ LF)
    end in
  match given fqdn with
  | Some _ =>
      origin_resource <- _get_origin_resource fqdn topology suppress_errors ;;
      match origin_resource with
      | None => Ok ""
      | Some _ => run origin_resource
      end
  | None => run None
  end.

(** *** Notions used to state the properties *)

(** The two tests that open the loop body of the cache generators, against an
    optional target: the namespace allows the cache, and the cache, when
    there is one, allows the namespace. *)
Definition cache_gate (resource : option Resource) (namespace : Namespace) : bool :=
  namespace_allows_cache_resource namespace resource
  && match resource with
     | Some r => resource_allows_namespace r (Some namespace)
     | None => true
     end.

(** The target that the loops of a cache generator run against: none when no
    fqdn is given, the node found when the lookup succeeds. *)
Definition cache_target (global_data : GlobalData) (fqdn : option string)
    (suppress_errors : bool) (resource : option Resource) : Prop :=
  match given fqdn with
  | None => resource = None
  | Some _ =>
      exists r, _get_cache_resource fqdn (get_topology global_data) suppress_errors
                = Ok (Some r) /\ resource = Some r
  end.

Definition origin_target (global_data : GlobalData) (fqdn : option string)
    (suppress_errors : bool) (resource : option Resource) : Prop :=
  match given fqdn with
  | None => resource = None
  | Some _ =>
      exists r, _get_origin_resource fqdn (get_topology global_data) suppress_errors
                = Ok (Some r) /\ resource = Some r
  end.

(** The entries that [fetch_ligo_authz_list_if_needed] builds. *)
Definition ligo_entries (global_data : GlobalData) : list AuthMethod :=
  map (fun dn => fst (_parse_authz_str ("DN:" ++ dn))) (get_ligo_dn_list global_data).

(** The list that the loop body of [generate_cache_authfile] iterates over
    for a namespace that passed the tests. *)
Definition extended_authz_list (global_data : GlobalData) (legacy : bool)
    (dirname : string) (namespace : Namespace) : list AuthMethod :=
  if String.eqb dirname "/user/ligo" && legacy
  then (authz_list namespace ++ ligo_entries global_data)%list
  else authz_list namespace.

(** [dirname] is in the set that [id_to_dir] keeps for [authfile_id]. *)
Definition in_id_to_dir (d : list (string * list string)) (authfile_id dirname : string)
  : Prop :=
  exists dirs, Py.dict_get d authfile_id = Some dirs /\ In dirname dirs.

(** The placeholder issuer block, as a cache and as an origin render it. *)
Definition placeholder_block : string :=
  "[Issuer https://scitokens.org/nonexistent]" ++ LF
  ++ "issuer = https://scitokens.org/nonexistent" ++ LF
  ++ "base_path = /no-issuers-found" ++ LF.

Definition placeholder_conf (origin : bool) : string :=
  "[Global]" ++ LF ++ "audience = " ++ LF ++ LF ++ placeholder_block
  ++ (if origin then "map_subject = False" ++ LF else "").

(** The call-scoped list of LIGO entries is either not fetched yet or the
    fetched one. *)
Definition ligo_fetched (global_data : GlobalData) (acc : authfile_acc) : Prop :=
  ligo_authz_list acc = [] \/ ligo_authz_list acc = ligo_entries global_data.

(** The entries of [l] that reach the authfile under [authfile_id]. *)
Definition contributes (l : list AuthMethod) (authfile_id : string) : Prop :=
  exists a, In a l /\ used_in_authfile a = true /\ get_authfile_id a = Ok authfile_id.

(** A namespace that adds to the cache authfile: it passes the gate and is
    not public; what it adds comes from its extended list. *)
Definition namespace_contributes (global_data : GlobalData)
    (resource : option Resource) (legacy : bool) (dirname : string)
    (namespace : Namespace) (authfile_id : string) : Prop :=
  cache_gate resource namespace = true
  /\ is_public namespace = false
  /\ contributes (extended_authz_list global_data legacy dirname namespace) authfile_id.

End WithExternals.

End Stashcache.

(* ================================================================== *)
(** ** Concrete data used by the examples below *)

Module Fixtures.

Import VosData Stashcache.

(** A first-match lookup by [fqdn] over the groups, in order. *)
Definition first_by_fqdn (topology : Topology) (f : string) : option Resource :=
  find (fun r => String.eqb (fqdn r) f)
       (flat_map resources (get_resource_group_list topology)).

(** [is_null(x, key)] for one key: a missing key or an empty value. *)
Definition key_is_null (y : Yaml) (keys : list string) : bool :=
  match keys, y with
  | [k], YDict d =>
      match Py.dict_get d k with
      | Some v => negb (truthy v)
      | None => true
      end
  | _, _ => true
  end.

(** (scheme, netloc) of the URLs [https://<netloc>]; a host that opens a
    bracket is refused. *)
Definition https_only (s : string) : option (string * string) :=
  if String.prefix "https://[" s then None
  else if String.prefix "https://" s then Some ("https", Py.drop 8 s)
  else Some ("", "").

(** Texts of decimal digits. *)
Definition all_digits (s : string) : bool :=
  negb (String.eqb s "")
  && forallb (fun c => Nat.leb 48 (nat_of_ascii c) && Nat.leb (nat_of_ascii c) 57)
             (list_ascii_of_string s).

#[export] Instance externals : Externals := {|
  generate_dn_hash := Some (fun dn => "hash(" ++ dn ++ ")");
  py_repr := fun _ => "{...}";
  is_null := key_is_null;
  urlparse := https_only;
  py_int_accepts := all_digits;
  XROOTD_CACHE_SERVER := "XRootD cache server";
  XROOTD_ORIGIN_SERVER := "XRootD origin server";
  safe_get_resource_by_fqdn := first_by_fqdn
|}.

Definition cache1 : Resource :=
  mkResource "CACHE1" "cache1.example.org" ["XRootD cache server"] [ANY]
             (Some "/DC=org/CN=cache1").

Definition origin1 : Resource :=
  mkResource "ORIGIN1" "origin1.example.org" ["XRootD origin server"] [ANY]
             (Some "/DC=org/CN=origin1").

Definition topology1 : Topology :=
  mkTopology [mkResourceGroup [cache1; origin1]].

(** A namespace whose Public entry comes second. *)
Definition ns_public_second : Namespace :=
  mkNamespace "/mixed" "OSG" [] [ANY] [DNAuth "/CN=a"; PublicAuth] YNone YNone.

Definition ns_public : Namespace :=
  mkNamespace "/public" "OSG" ["ORIGIN1"] [ANY] [PublicAuth] YNone YNone.

(** A protected namespace that names one cache and not [ANY]. *)
Definition ns_protected : Namespace :=
  mkNamespace "/protected" "OSG" ["ORIGIN1"] ["CACHE1"] [FQANAuth "/osg"] YNone YNone.

Definition ns_ligo : Namespace :=
  mkNamespace "/user/ligo" "LIGO" [] [ANY] [FQANAuth "/ligo"] YNone YNone.

Definition registry (items : list (string * StashCache)) (dns : list string)
  : GlobalData :=
  mkGlobalData topology1 (mkVOsData [] items) dns.

Definition gd_empty : GlobalData := registry [] [].

Definition gd_protected : GlobalData :=
  registry [("OSG", mkStashCache "OSG" [("/protected", ns_protected)] [])] [].

Definition gd_public : GlobalData :=
  registry [("OSG", mkStashCache "OSG" [("/public", ns_public)] [])] [].

Definition gd_ligo : GlobalData :=
  registry [("LIGO", mkStashCache "LIGO" [("/user/ligo", ns_ligo)] [])]
           ["/DC=org/CN=alice"].

(** A protected namespace with a SciTokens issuer, open to any cache. *)
Definition ns_token : Namespace :=
  mkNamespace "/token" "OSG" ["ORIGIN1"] [ANY]
              [SciTokenAuth "https://issuer.example.org" "/token" None false]
              YNone YNone.

Definition gd_token : GlobalData :=
  registry [("OSG", mkStashCache "OSG" [("/token", ns_token)] [])] [].

(** A VO document with a well-formed public namespace and a namespace whose
    only authorization item does not parse. *)
Definition vo_doc_bad_authz : Yaml :=
  YDict [("DataFederations",
          YDict [("StashCache",
                  YDict [("Namespaces",
                          YList [YDict [("Path", YStr "/good");
                                        ("Authorizations", YList [YStr "PUBLIC"])];
                                 YDict [("Path", YStr "/bad");
                                        ("Authorizations", YList [YStr "BOGUS"])]])])])].

(** A list-shape document that declares [/a] twice. *)
Definition entries_duplicate : list Yaml :=
  [YDict [("Path", YStr "/a"); ("Authorizations", YList [YStr "PUBLIC"]);
          ("AllowedCaches", YList [YStr "ANY"])];
   YDict [("Path", YStr "/a"); ("Authorizations", YList [YStr "FQAN:/other"])]].

(** [/a] declared twice, the first time with [Authorizations:] left
    empty (a null). *)
Definition entries_duplicate_null : list Yaml :=
  [YDict [("Path", YStr "/a"); ("Authorizations", YNone)];
   YDict [("Path", YStr "/a"); ("Authorizations", YList [YStr "PUBLIC"])]].

(** A list-shape document whose namespace carries a [CredentialGeneration]
    block with an unknown strategy. *)
Definition doc_bad_credential_generation : Yaml :=
  YDict [("Namespaces",
          YList [YDict [("Path", YStr "/cg");
                        ("CredentialGeneration",
                         YDict [("Strategy", YStr "Bogus");
                                ("Issuer", YStr "https://issuer.example.org")])]])].

End Fixtures.

(* ================================================================== *)
(** ** More of [webapp/data_federation.py]: the map shape and the constructor *)

Module DataFederationInit.

Import DataFederation.

Section WithExternals.
Context {ext : Externals}.

(** One turn of the loop of [load_old_yaml]. *)
Definition load_old_entry (yaml_data : Yaml) (path : string) (unparsed : Yaml)
    (self : StashCache) : result StashCache :=
  '(authz_list, errors') <- parse_authz_list (errors self) path unparsed ;;
  let self := mkStashCache (sc_vo_name self) (namespaces self) errors' in
  match Py.dict_get (namespaces self) path with
  | Some orig =>
      let orig_vo_name := vo_name orig in
      Ok (add_error self ("Redefining " ++ path ++ "; original was defined in "
                          ++ orig_vo_name))
  | None =>
      origins_v <- py_get yaml_data "AllowedOrigins" (YList []) ;;
      origins <- as_str_list origins_v ;;
      caches_v <- py_get yaml_data "AllowedCaches" (YList []) ;;
      caches <- as_str_list caches_v ;;
      Ok (mkStashCache (sc_vo_name self)
            (Py.dict_set (namespaces self) path
               (mkNamespace path (sc_vo_name self) origins caches authz_list
                  YNone YNone None))
            (errors self))
  end.

Fixpoint load_old_entries (yaml_data : Yaml) (items : list (string * Yaml))
    (self : StashCache) : result StashCache :=
  match items with
  | [] => Ok self
  | (path, unparsed) :: rest =>
      self' <- load_old_entry yaml_data path unparsed self ;;
      load_old_entries yaml_data rest self'
  end.

Definition load_old_yaml (self : StashCache) (yaml_data : Yaml) : result StashCache :=
  nss <- py_getitem yaml_data "Namespaces" ;;
  match nss with
  | YDict items => load_old_entries yaml_data items self
  | _ => Raise AttributeError
  end.

Definition load_yaml (self : StashCache) (yaml_data : Yaml) : result StashCache :=
  if is_null yaml_data ["Namespaces"] then Ok self
  else
    nss <- py_getitem yaml_data "Namespaces" ;;
    match nss with
    | YList _ => load_new_yaml self yaml_data
    | _ => load_old_yaml self yaml_data
    end.

(** [StashCache(vo_name, yaml_data)] *)
Definition new_StashCache (vo_name : string) (yaml_data : Yaml) : result StashCache :=
  load_yaml (mkStashCache vo_name [] []) yaml_data.

End WithExternals.

End DataFederationInit.

(* ================================================================== *)
(** ** Notions used to state the further properties *)

(** A text made of ASCII characters only.  On such a text [Py.strip] is
    Python's [str.strip]: the whitespace that [str.strip] removes beyond
    [Py.is_space] lies outside ASCII. *)
Definition ascii_only (s : string) : bool :=
  forallb (fun c => Nat.ltb (nat_of_ascii c) 128) (list_ascii_of_string s).

(** The answer of a parse is the null method with a non-empty error string,
    or another method without an error string. *)
Definition parse_answer_ok (r : AuthMethod * option string) : Prop :=
  (fst r = NullAuth /\ exists msg, snd r = Some msg /\ msg <> "")
  \/ (fst r <> NullAuth /\ snd r = None).

(** Every key of a namespace registry is the path of the namespace stored
    under it, and every namespace carries the VO name [vo]. *)
Definition keyed_by_path (NS : Type) (ns_path ns_vo : NS -> string) (vo : string)
    (nss : list (string * NS)) : Prop :=
  forall p ns, Py.dict_get nss p = Some ns -> ns_path ns = p /\ ns_vo ns = vo.



(** What a map-shape document [top] with the entry [p: v] under
    [Namespaces] declares for [p]: the authorizations of [v], the allowed
    lists of the document itself, and nothing else. *)
Definition vos_declared_old {ext : Externals} (top : list (string * Yaml))
    (vo p : string) (v : Yaml) (namespace : VosData.Namespace) : Prop :=
  VosData.path namespace = p
  /\ VosData.vo_name namespace = vo
  /\ (exists errs errs',
        VosData.parse_authz_list errs p v = Ok (VosData.authz_list namespace, errs'))
  /\ as_str_list (get_default top "AllowedOrigins" (YList []))
     = Ok (VosData.allowed_origins namespace)
  /\ as_str_list (get_default top "AllowedCaches" (YList []))
     = Ok (VosData.allowed_caches namespace)
  /\ VosData.writeback namespace = YNone
  /\ VosData.dirlist namespace = YNone.

Definition df_declared_old {ext : Externals} (top : list (string * Yaml))
    (vo p : string) (v : Yaml) (namespace : DataFederation.Namespace) : Prop :=
  DataFederation.path namespace = p
  /\ DataFederation.vo_name namespace = vo
  /\ (exists errs errs',
        DataFederation.parse_authz_list errs p v
        = Ok (DataFederation.authz_list namespace, errs'))
  /\ as_str_list (get_default top "AllowedOrigins" (YList []))
     = Ok (DataFederation.allowed_origins namespace)
  /\ as_str_list (get_default top "AllowedCaches" (YList []))
     = Ok (DataFederation.allowed_caches namespace)
  /\ DataFederation.writeback namespace = YNone
  /\ DataFederation.dirlist namespace = YNone
  /\ DataFederation.credential_generation namespace = None.

(** What a call of [generate_cache_authfile] may do to an entry of a
    namespace registry: nothing, or, with [legacy] and under the key
    [/user/ligo], append to the [authz_list] of the namespace. *)
Definition ligo_extended (legacy : bool) (before after : string * VosData.Namespace)
  : Prop :=
  fst after = fst before
  /\ (snd after = snd before
      \/ (fst before = "/user/ligo" /\ legacy = true
          /\ exists l,
               snd after
               = Stashcache.set_authz_list (snd before)
                   (VosData.authz_list (snd before) ++ l)%list)).

Definition registry_extended (legacy : bool) (before after : string * VosData.StashCache)
  : Prop :=
  fst after = fst before
  /\ VosData.sc_vo_name (snd after) = VosData.sc_vo_name (snd before)
  /\ VosData.errors (snd after) = VosData.errors (snd before)
  /\ Forall2 (ligo_extended legacy) (VosData.namespaces (snd before))
             (VosData.namespaces (snd after)).

(** Every identity that has paths also has a printed form: what the
    rendering loops of the authfile generators rely on when they read
    [id_to_str[authfile_id]]. *)
Definition covers (id_to_str : list (string * string))
    (ids : list (string * list string)) : Prop :=
  forall authfile_id paths,
    In (authfile_id, paths) ids ->
    exists s, Py.dict_get id_to_str authfile_id = Some s.

(** [e] is what the lookup of [fqdn] raises for a node that is not
    registered or lacks the service. *)
Definition lookup_error {ext : Externals} (topology : Topology)
    (fqdn : option string) (service_name : string) (e : exn) : Prop :=
  exists f, fqdn = Some f /\ f <> ""
    /\ ((safe_get_resource_by_fqdn topology f = None /\ e = ResourceNotRegistered f)
        \/ exists r, safe_get_resource_by_fqdn topology f = Some r
                     /\ Py.mem service_name (service_names r) = false
                     /\ e = ResourceMissingService r service_name).

Module Accepts.

Import DataFederation.

Section WithExternals.
Context {ext : Externals}.

(** The tests of [CredentialGeneration.validate], read as what a block has
    to satisfy for no error to be added. *)
Definition strategy_ok (c : CredentialGeneration) : bool :=
  in_strs (strategy c) STRATEGIES.

Definition issuer_ok (c : CredentialGeneration) : bool :=
  match cg_issuer c with
  | YStr s =>
      match urlparse s with
      | Some (scheme, netloc) =>
          negb (String.eqb s "") && negb (String.eqb netloc "")
          && String.eqb scheme "https"
      | None => false
      end
  | _ => false
  end.

(** What makes [validate] end in an exception: an issuer text that
    [urlparse] refuses, or else a depth that is a non-empty text. *)
Definition escapes (c : CredentialGeneration) (e : exn) : Prop :=
  (exists s, cg_issuer c = YStr s /\ s <> "" /\ urlparse s = None /\ e = ValueError)
  \/ ((forall s, cg_issuer c = YStr s -> s <> "" -> urlparse s <> None)
      /\ exists s, max_scope_depth c = YStr s /\ s <> ""
                   /\ e = if py_int_accepts s then TypeError else ValueError).

Definition base_path_ok (c : CredentialGeneration) : bool :=
  negb (truthy (cg_base_path c)) || is_str (cg_base_path c).

(** A depth that is falsy, [True], or a positive integer. *)
Definition max_scope_depth_ok (c : CredentialGeneration) : bool :=
  negb (truthy (max_scope_depth c))
  || match max_scope_depth c with
     | YInt z => Z.leb 0 z
     | YBool _ => true
     | _ => false
     end.

Definition vault_server_ok (c : CredentialGeneration) : bool :=
  Bool.eqb (truthy (vault_server c)) (eq_str (strategy c) STRATEGY_VAULT).

Definition vault_issuer_ok (c : CredentialGeneration) : bool :=
  negb (truthy (vault_issuer c)) || eq_str (strategy c) STRATEGY_VAULT.

Definition accepted (c : CredentialGeneration) : bool :=
  strategy_ok c && issuer_ok c && base_path_ok c && max_scope_depth_ok c
  && vault_server_ok c && vault_issuer_ok c.

End WithExternals.

End Accepts.

(* ================================================================== *)
(** ** Properties *)

(** *** Dicts and sets *)

Lemma mem_In (x : string) (l : list string) : Py.mem x l = true <-> In x l.
Proof.
  unfold Py.mem. rewrite existsb_exists. split.
  - intros [y [Hin Heq]]. apply String.eqb_eq in Heq. now subst.
  - intros Hin. exists x. split; [assumption | apply String.eqb_refl].
Qed.

Lemma in_set_add (x y : string) (s : list string) :
  In y (Py.set_add x s) <-> In y s \/ y = x.
Proof.
  unfold Py.set_add. destruct (Py.mem x s) eqn:Hm.
  - apply mem_In in Hm. split; [tauto | intros [?| ->]; assumption].
  - rewrite in_app_iff. simpl. intuition congruence.
Qed.

Lemma dict_get_set_eq (V : Type) (d : list (string * V)) k v :
  Py.dict_get (Py.dict_set d k v) k = Some v.
Proof.
  induction d as [|[k' v'] d IH]; simpl.
  - now rewrite String.eqb_refl.
  - destruct (String.eqb k k') eqn:E; simpl; rewrite E; [reflexivity | assumption].
Qed.

Lemma dict_get_set_neq (V : Type) (d : list (string * V)) k k0 v :
  k0 <> k -> Py.dict_get (Py.dict_set d k v) k0 = Py.dict_get d k0.
Proof.
  intros Hne. induction d as [|[k' v'] d IH]; simpl.
  - apply String.eqb_neq in Hne. now rewrite Hne.
  - destruct (String.eqb k k') eqn:E; simpl.
    + apply String.eqb_eq in E. subst k'.
      apply String.eqb_neq in Hne. now rewrite Hne.
    + now rewrite IH.
Qed.

(** *** Public namespaces *)

Lemma existsb_filter_public (l : list AuthMethod) :
  existsb (fun _ => true) (filter is_public_auth l) = true
  <-> In PublicAuth l.
Proof.
  induction l as [|a l IH]; simpl.
  - split; [discriminate | tauto].
  - destruct a; simpl; try (rewrite IH; split; [tauto | intros [E|?]; [discriminate E | assumption]]).
    split; auto.
Qed.

Lemma is_public_auth_true (a : AuthMethod) :
  is_public_auth a = true <-> a = PublicAuth.
Proof. destruct a; simpl; split; congruence. Qed.

(** What the parser of [vos_data.py] returns: the one-element list of a
    public entry, or a list without any. *)
Lemma vos_parse_authz_items_shape {ext : Externals} path items acc errs l errs' :
  VosData.parse_authz_items path items acc errs = Ok (l, errs') ->
  ~ In PublicAuth acc ->
  l = [PublicAuth] \/ ~ In PublicAuth l.
Proof.
  revert acc errs. induction items as [|authz rest IH]; simpl; intros acc errs E Hacc.
  - inversion E; subst. now right.
  - destruct (VosData.parse_authz authz) as [[parsed err]|e]; simpl in E; [|discriminate].
    destruct (err_truthy err).
    + eapply IH; eauto.
    + destruct (is_public_auth parsed) eqn:Hp.
      * apply is_public_auth_true in Hp. subst. inversion E. now left.
      * eapply IH; eauto. intros Hin. apply in_app_or in Hin.
        destruct Hin as [Hin|[Hin|[]]]; [tauto|]. subst. discriminate.
Qed.

(** C1 (as amended).  [data_federation.Namespace.is_public] holds exactly
    when some entry of [authz_list] is the Public variant.
    [vos_data.Namespace.is_public], which [stashcache.py] imports, holds
    exactly when the first entry is the Public variant.  The two agree on
    every list that the parser of [vos_data.py] builds, since that parser
    answers with the single public entry as soon as it meets one. *)
Theorem is_public_any_or_first :
  (forall ns : DataFederation.Namespace,
      DataFederation.is_public ns = true
      <-> In PublicAuth (DataFederation.authz_list ns))
  /\ (forall ns : VosData.Namespace,
         VosData.is_public ns = true
         <-> exists rest, VosData.authz_list ns = PublicAuth :: rest)
  /\ (forall (E : Externals) errs path unparsed l errs' ns,
         VosData.parse_authz_list errs path unparsed = Ok (l, errs') ->
         VosData.authz_list ns = l ->
         (VosData.is_public ns = true <-> In PublicAuth l)).
Proof.
  split; [|split].
  - intros ns. apply existsb_filter_public.
  - intros [p v ao ac l w d]; unfold VosData.is_public; simpl.
    destruct l as [|a l]; [split; [discriminate | intros [r Hr]; discriminate Hr]|].
    rewrite is_public_auth_true. split.
    + intros ->. now exists l.
    + intros [r Hr]. congruence.
  - intros E errs path unparsed l errs' ns Hparse Hl.
    unfold VosData.parse_authz_list in Hparse.
    destruct (py_iter unparsed) as [items|e]; simpl in Hparse; [|discriminate].
    apply vos_parse_authz_items_shape in Hparse; [|simpl; tauto].
    unfold VosData.is_public. rewrite Hl.
    destruct Hparse as [-> | Hno].
    + simpl. tauto.
    + destruct l as [|a l]; [simpl; split; [discriminate | tauto]|].
      rewrite is_public_auth_true. split.
      * intros ->. now left.
      * intros Hin. tauto.
Qed.

(** The parser of [vos_data.py] on the items [DN:/CN=a] and [PUBLIC]: the
    namespace built from its answer is public. *)
Lemma is_public_any_or_first_witness :
  VosData.is_public
    (VosData.mkNamespace "/mixed" "OSG" [] [] [PublicAuth] YNone YNone) = true
  <-> In PublicAuth [PublicAuth].
Proof.
  destruct is_public_any_or_first as (_ & _ & H3).
  apply (H3 Fixtures.externals [] "/mixed"
            (YList [YStr "DN:/CN=a"; YStr "PUBLIC"]) [PublicAuth] []).
  - reflexivity.
  - reflexivity.
Defined.

(** C1 (as stated) fails for the namespace class of [vos_data.py]: a Public
    entry in second position does not make the namespace public. *)
Lemma is_public_ignores_later_entries :
  ~ (VosData.is_public Fixtures.ns_public_second = true
     <-> exists a, In a (VosData.authz_list Fixtures.ns_public_second)
                   /\ a = PublicAuth).
Proof.
  intros [_ Hback].
  assert (Hfalse : VosData.is_public Fixtures.ns_public_second = true).
  { apply Hback. exists PublicAuth. split; [simpl; tauto | reflexivity]. }
  discriminate Hfalse.
Qed.

(** *** The bidirectional gate *)

(** C2.  A node is in [get_supported_caches_for_namespace(ns, R)] exactly
    when it is a resource of some group of [R], offers the cache service,
    the namespace allows it as a cache, and it allows the namespace. *)
Theorem supported_caches_iff {ext : Externals} (n : Resource) (ns : VosData.Namespace)
    (R : Topology) :
  In n (Stashcache.get_supported_caches_for_namespace ns R)
  <-> (exists g, In g (get_resource_group_list R) /\ In n (resources g))
      /\ Stashcache._resource_has_cache n = true
      /\ Stashcache.namespace_allows_cache_resource ns (Some n) = true
      /\ Stashcache.resource_allows_namespace n (Some ns) = true.
Proof.
  unfold Stashcache.get_supported_caches_for_namespace.
  rewrite filter_In, in_flat_map, andb_true_iff.
  split.
  - intros [[g [Hg Hn]] [Ha Hb]]. apply filter_In in Hn. destruct Hn as [Hn Hc].
    repeat split; eauto.
  - intros [[g [Hg Hn]] [Hc [Ha Hb]]]. split; [|tauto].
    exists g. split; [assumption|]. apply filter_In. tauto.
Qed.

(** *** The node lookup *)

Section Lookup.
Context {ext : Externals}.
Import VosData Stashcache.

(** What [_get_resource_with_service] can raise. *)
Lemma lookup_raises fqdn service_name topology suppress_errors e :
  _get_resource_with_service fqdn service_name topology suppress_errors = Raise e ->
  suppress_errors = false
  /\ exists f, fqdn = Some f /\ f <> ""
     /\ ((safe_get_resource_by_fqdn topology f = None /\ e = ResourceNotRegistered f)
         \/ exists r, safe_get_resource_by_fqdn topology f = Some r
                      /\ Py.mem service_name (service_names r) = false
                      /\ e = ResourceMissingService r service_name).
Proof.
  unfold _get_resource_with_service, given, _log_or_raise.
  destruct fqdn as [f|]; [|discriminate].
  destruct (String.eqb f "") eqn:Hf; [discriminate|].
  apply String.eqb_neq in Hf.
  destruct (safe_get_resource_by_fqdn topology f) as [r|] eqn:Hlook.
  - destruct (Py.mem service_name (service_names r)) eqn:Hm; simpl; [discriminate|].
    destruct suppress_errors; simpl; [discriminate|].
    intros Hr. inversion Hr; subst. split; [reflexivity|].
    exists f. repeat split; auto. right. exists r. auto.
  - destruct suppress_errors; simpl; [discriminate|].
    intros Hr. inversion Hr; subst. split; [reflexivity|].
    exists f. repeat split; auto.
Qed.

Lemma lookup_without_fqdn fqdn service_name topology suppress_errors :
  fqdn = None \/ fqdn = Some "" ->
  _get_resource_with_service fqdn service_name topology suppress_errors = Ok None.
Proof. intros [-> | ->]; reflexivity. Qed.

Lemma given_some f : f <> "" -> given (Some f) = Some f.
Proof.
  intros Hf. unfold given. destruct (String.eqb_spec f "") as [->|_]; [now elim Hf|].
  reflexivity.
Qed.

(** The lookup of a non-empty fqdn, read off the registry of nodes. *)
Lemma lookup_unregistered f service_name topology suppress_errors :
  f <> "" ->
  safe_get_resource_by_fqdn topology f = None ->
  _get_resource_with_service (Some f) service_name topology suppress_errors
  = if suppress_errors then Ok None else Raise (ResourceNotRegistered f).
Proof.
  intros Hf Hnone. unfold _get_resource_with_service.
  rewrite (given_some Hf), Hnone. now destruct suppress_errors.
Qed.

Lemma lookup_missing_service f r service_name topology suppress_errors :
  f <> "" ->
  safe_get_resource_by_fqdn topology f = Some r ->
  Py.mem service_name (service_names r) = false ->
  _get_resource_with_service (Some f) service_name topology suppress_errors
  = if suppress_errors then Ok None
    else Raise (ResourceMissingService r service_name).
Proof.
  intros Hf Hr Hsvc. unfold _get_resource_with_service.
  rewrite (given_some Hf), Hr, Hsvc. now destruct suppress_errors.
Qed.

Lemma lookup_found f r service_name topology suppress_errors :
  f <> "" ->
  safe_get_resource_by_fqdn topology f = Some r ->
  Py.mem service_name (service_names r) = true ->
  _get_resource_with_service (Some f) service_name topology suppress_errors
  = Ok (Some r).
Proof.
  intros Hf Hr Hsvc. unfold _get_resource_with_service.
  now rewrite (given_some Hf), Hr, Hsvc.
Qed.

End Lookup.

(** *** Empty artifacts *)

Section CacheLoops.
Context {ext : Externals}.
Import VosData Stashcache.

Variable global_data : GlobalData.
Variable resource : option Resource.
Variable legacy : bool.

Lemma visit_namespace_skipped dirname namespace acc :
  (cache_gate resource namespace = true -> is_public namespace = true) ->
  visit_namespace global_data resource legacy dirname namespace acc
  = (namespace, Ok acc).
Proof.
  unfold cache_gate, visit_namespace. intros Hskip.
  destruct (namespace_allows_cache_resource namespace resource); simpl; [|reflexivity].
  destruct resource as [r|].
  - destruct (resource_allows_namespace r (Some namespace)); simpl; [|reflexivity].
    simpl in Hskip. now rewrite Hskip.
  - simpl in Hskip. now rewrite Hskip.
Qed.

Lemma visit_namespaces_skipped items acc :
  (forall dirname namespace, In (dirname, namespace) items ->
     cache_gate resource namespace = true -> is_public namespace = true) ->
  visit_namespaces global_data resource legacy items acc = (items, Ok acc).
Proof.
  induction items as [|[dirname namespace] rest IH]; simpl; intros Hskip; [reflexivity|].
  rewrite visit_namespace_skipped by (apply (Hskip dirname); now left).
  rewrite IH by (intros d n Hin; apply (Hskip d); now right).
  reflexivity.
Qed.

Lemma visit_stashcaches_skipped items acc :
  (forall vo sc dirname namespace, In (vo, sc) items ->
     In (dirname, namespace) (namespaces sc) ->
     cache_gate resource namespace = true -> is_public namespace = true) ->
  visit_stashcaches global_data resource legacy items acc = (items, Ok acc).
Proof.
  induction items as [|[vo sc] rest IH]; simpl; intros Hskip; [reflexivity|].
  rewrite visit_namespaces_skipped by (intros d n; apply (Hskip vo sc); now left).
  rewrite IH by (intros v s d n Hin; apply (Hskip v s d n); now right).
  destruct sc; reflexivity.
Qed.

Lemma visit_public_namespaces_none items dirs :
  (forall dirname namespace, In (dirname, namespace) items ->
     cache_gate resource namespace = true -> is_public namespace = false) ->
  fold_left (visit_public_namespace resource) items dirs = dirs.
Proof.
  revert dirs. induction items as [|[d n] rest IH]; simpl; intros dirs Hn; [reflexivity|].
  assert (Hg := Hn d n (or_introl eq_refl)). unfold cache_gate in Hg.
  assert (Hrest : forall d0 n0, In (d0, n0) rest ->
                    cache_gate resource n0 = true -> is_public n0 = false)
    by (intros d0 n0 Hin; apply (Hn d0 n0); now right).
  destruct (namespace_allows_cache_resource n resource); simpl; [|now apply IH].
  destruct resource as [r|]; simpl in *.
  - destruct (resource_allows_namespace r (Some n)); simpl; [|now apply IH].
    rewrite Hg by reflexivity. now apply IH.
  - rewrite Hg by reflexivity. now apply IH.
Qed.

Lemma collect_public_dirs_none items dirs :
  (forall vo sc dirname namespace, In (vo, sc) items ->
     In (dirname, namespace) (namespaces sc) ->
     cache_gate resource namespace = true -> is_public namespace = false) ->
  collect_public_dirs_from resource items dirs = dirs.
Proof.
  unfold collect_public_dirs_from. revert dirs.
  induction items as [|[vo sc] rest IH]; simpl; intros dirs Hnone; [reflexivity|].
  rewrite visit_public_namespaces_none by (intros d n; apply (Hnone vo sc); now left).
  apply IH. intros v s d n Hin. apply (Hnone v s d n). now right.
Qed.

End CacheLoops.

(** C3 (as amended).  Once the node lookup is behind (no fqdn given, or the
    node found with its cache service), a cache authfile without any
    qualifying protected namespace and a public cache authfile without any
    qualifying public namespace end in [DataError], whatever the value of
    [suppress_errors].  The flag only decides how a failed lookup ends: the
    two generators pass on the exception that the lookup raises, and return
    the empty text when the lookup reports no node.  Read off the registry
    of nodes: for a non-empty fqdn that no node has, or whose node lacks the
    cache service, the two generators raise [ResourceNotRegistered], or
    [ResourceMissingService], when the flag is off and return the empty text
    when it is on; a node found with the cache service is the target. *)
Theorem empty_cache_artifact_raises {ext : Externals}
    (global_data : Stashcache.GlobalData) (fqdn : option string)
    (legacy suppress_errors : bool) :
  (forall resource,
      Stashcache.cache_target global_data fqdn suppress_errors resource ->
      ((forall vo sc dirname namespace,
           In (vo, sc) (VosData.stashcache_by_vo_name
                          (Stashcache.get_vos_data global_data)) ->
           In (dirname, namespace) (VosData.namespaces sc) ->
           Stashcache.cache_gate resource namespace = true ->
           VosData.is_public namespace = true) ->
       snd (Stashcache.generate_cache_authfile global_data fqdn legacy suppress_errors)
       = Raise (DataError "Cache does not support any protected namespaces"))
      /\ ((forall vo sc dirname namespace,
              In (vo, sc) (VosData.stashcache_by_vo_name
                             (Stashcache.get_vos_data global_data)) ->
              In (dirname, namespace) (VosData.namespaces sc) ->
              Stashcache.cache_gate resource namespace = true ->
              VosData.is_public namespace = false) ->
          Stashcache.generate_public_cache_authfile global_data fqdn legacy
            suppress_errors
          = Raise (DataError "Cache does not support any public namespaces")))
  /\ (forall f e,
         Stashcache.given fqdn = Some f ->
         Stashcache._get_cache_resource fqdn (Stashcache.get_topology global_data)
           suppress_errors = Raise e ->
         suppress_errors = false
         /\ snd (Stashcache.generate_cache_authfile global_data fqdn legacy
                   suppress_errors) = Raise e
         /\ Stashcache.generate_public_cache_authfile global_data fqdn legacy
              suppress_errors = Raise e)
  /\ (forall f,
         Stashcache.given fqdn = Some f ->
         Stashcache._get_cache_resource fqdn (Stashcache.get_topology global_data)
           suppress_errors = Ok None ->
         snd (Stashcache.generate_cache_authfile global_data fqdn legacy
                suppress_errors) = Ok ""
         /\ Stashcache.generate_public_cache_authfile global_data fqdn legacy
              suppress_errors = Ok "")
  /\ (forall f,
         fqdn = Some f -> f <> "" ->
         (safe_get_resource_by_fqdn (Stashcache.get_topology global_data) f = None ->
          (suppress_errors = false ->
           snd (Stashcache.generate_cache_authfile global_data fqdn legacy
                  suppress_errors) = Raise (ResourceNotRegistered f)
           /\ Stashcache.generate_public_cache_authfile global_data fqdn legacy
                suppress_errors = Raise (ResourceNotRegistered f))
          /\ (suppress_errors = true ->
              snd (Stashcache.generate_cache_authfile global_data fqdn legacy
                     suppress_errors) = Ok ""
              /\ Stashcache.generate_public_cache_authfile global_data fqdn legacy
                   suppress_errors = Ok ""))
         /\ (forall r,
               safe_get_resource_by_fqdn (Stashcache.get_topology global_data) f
               = Some r ->
               Py.mem XROOTD_CACHE_SERVER (service_names r) = false ->
               (suppress_errors = false ->
                snd (Stashcache.generate_cache_authfile global_data fqdn legacy
                       suppress_errors)
                = Raise (ResourceMissingService r XROOTD_CACHE_SERVER)
                /\ Stashcache.generate_public_cache_authfile global_data fqdn legacy
                     suppress_errors
                   = Raise (ResourceMissingService r XROOTD_CACHE_SERVER))
               /\ (suppress_errors = true ->
                   snd (Stashcache.generate_cache_authfile global_data fqdn legacy
                          suppress_errors) = Ok ""
                   /\ Stashcache.generate_public_cache_authfile global_data fqdn
                        legacy suppress_errors = Ok ""))
         /\ (forall r,
               safe_get_resource_by_fqdn (Stashcache.get_topology global_data) f
               = Some r ->
               Py.mem XROOTD_CACHE_SERVER (service_names r) = true ->
               Stashcache.cache_target global_data fqdn suppress_errors (Some r))).
Proof.
  unfold Stashcache.cache_target, Stashcache.generate_cache_authfile,
    Stashcache.generate_public_cache_authfile, Stashcache.collect_cache_authfile,
    Stashcache.collect_public_dirs.
  split; [|split; [|split]].
  - intros resource Htarget. split; intros Hnone.
    + destruct (Stashcache.given fqdn) as [f|].
      * destruct Htarget as [r [-> ->]].
        now rewrite visit_stashcaches_skipped.
      * subst resource. now rewrite visit_stashcaches_skipped.
    + destruct (Stashcache.given fqdn) as [f|].
      * destruct Htarget as [r [-> ->]]. simpl.
        now rewrite collect_public_dirs_none.
      * subst resource. now rewrite collect_public_dirs_none.
  - intros f e -> Hlook. rewrite Hlook. split; [|split; reflexivity].
    apply lookup_raises in Hlook. tauto.
  - intros f -> Hlook. rewrite Hlook. split; reflexivity.
  - intros f -> Hf. unfold Stashcache._get_cache_resource.
    rewrite (given_some Hf). split; [|split].
    + intros Hnone.
      rewrite (@lookup_unregistered ext f XROOTD_CACHE_SERVER
                 (Stashcache.get_topology global_data) suppress_errors Hf Hnone).
      split; intros ->; split; reflexivity.
    + intros r Hr Hsvc.
      rewrite (@lookup_missing_service ext f r XROOTD_CACHE_SERVER
                 (Stashcache.get_topology global_data) suppress_errors Hf Hr Hsvc).
      split; intros ->; split; reflexivity.
    + intros r Hr Hsvc. exists r. split; [|reflexivity].
      exact (@lookup_found ext f r XROOTD_CACHE_SERVER
               (Stashcache.get_topology global_data) suppress_errors Hf Hr Hsvc).
Qed.

(** On an empty registry, without a target and with errors suppressed; and
    for an fqdn that no node has, with errors not suppressed. *)
Lemma empty_cache_artifact_raises_witness :
  snd (Stashcache.generate_cache_authfile (ext := Fixtures.externals)
         Fixtures.gd_empty None true true)
  = Raise (DataError "Cache does not support any protected namespaces")
  /\ Stashcache.generate_public_cache_authfile (ext := Fixtures.externals)
       Fixtures.gd_empty None true true
     = Raise (DataError "Cache does not support any public namespaces")
  /\ snd (Stashcache.generate_cache_authfile (ext := Fixtures.externals)
            Fixtures.gd_empty (Some "nowhere.example.org") true false)
     = Raise (ResourceNotRegistered "nowhere.example.org").
Proof.
  destruct (@empty_cache_artifact_raises Fixtures.externals Fixtures.gd_empty
              None true true) as [Htarget _].
  destruct (Htarget None eq_refl) as [H1 H2].
  split; [|split].
  - apply H1. simpl. intros vo sc dirname namespace [].
  - apply H2. simpl. intros vo sc dirname namespace [].
  - destruct (@empty_cache_artifact_raises Fixtures.externals Fixtures.gd_empty
                (Some "nowhere.example.org") true false) as (_ & _ & _ & Hlookup).
    destruct (Hlookup "nowhere.example.org" eq_refl) as [Hnone _];
      [discriminate|].
    apply Hnone; reflexivity.
Defined.

(** C3 (as stated) fails: with [suppress_errors] true and nothing to
    protect, no text is returned. *)
Lemma suppressed_empty_cache_authfile_raises :
  ~ (exists text,
        snd (Stashcache.generate_cache_authfile (ext := Fixtures.externals)
               Fixtures.gd_empty None true true)
        = Ok text).
Proof. intros [text Htext]. discriminate Htext. Qed.

(** *** Who contributes to the cache authfile *)

Lemma in_defaultdict_add (d : list (string * list string)) (k x authfile_id dirname : string) :
  Stashcache.in_id_to_dir (Stashcache.defaultdict_add d k x) authfile_id dirname
  <-> Stashcache.in_id_to_dir d authfile_id dirname \/ (authfile_id = k /\ dirname = x).
Proof.
  unfold Stashcache.in_id_to_dir, Stashcache.defaultdict_add.
  destruct (string_dec authfile_id k) as [->|Hne].
  - destruct (Py.dict_get d k) as [s|] eqn:Hget; rewrite dict_get_set_eq.
    + split.
      * intros [dirs [Hd Hin]]. inversion Hd; subst dirs.
        apply in_set_add in Hin. destruct Hin; [left; eauto | right; auto].
      * intros [[dirs [Hd Hin]] | [_ ->]]; eexists; split; try reflexivity;
          apply in_set_add; [left; congruence | now right].
    + split.
      * intros [dirs [Hd Hin]]. inversion Hd; subst dirs.
        destruct Hin as [<-|[]]. now right.
      * intros [[dirs [Hd _]] | [_ ->]]; [discriminate|].
        eexists; split; [reflexivity | now left].
  - destruct (Py.dict_get d k) as [s|]; rewrite dict_get_set_neq by assumption;
      split; try tauto; intros [?|[? _]]; tauto.
Qed.

Section CacheContributions.
Context {ext : Externals}.
Import VosData Stashcache.

Variable global_data : GlobalData.
Variable resource : option Resource.
Variable legacy : bool.
Variable h : string -> string.
Hypothesis hash_available : generate_dn_hash = Some h.

Lemma fetch_ligo_entries acc :
  ligo_fetched global_data acc ->
  fetch_ligo_authz_list_if_needed global_data (ligo_authz_list acc)
  = ligo_entries global_data.
Proof.
  unfold ligo_fetched, fetch_ligo_authz_list_if_needed.
  intros [-> | ->]; [reflexivity|].
  destruct (ligo_entries global_data) eqn:E; [exact E | reflexivity].
Qed.

Lemma get_authfile_id_returns (a : AuthMethod) :
  exists authfile_id, get_authfile_id a = Ok authfile_id.
Proof. destruct a; simpl; try rewrite hash_available; eauto. Qed.

Lemma add_authz_entries_spec dirname l acc :
  exists acc',
    add_authz_entries dirname l acc = Ok acc'
    /\ ligo_authz_list acc' = ligo_authz_list acc
    /\ forall authfile_id d,
         in_id_to_dir (id_to_dir acc') authfile_id d
         <-> in_id_to_dir (id_to_dir acc) authfile_id d
             \/ (d = dirname /\ contributes l authfile_id).
Proof.
  revert acc. induction l as [|a l IH]; intros acc; simpl.
  - exists acc. repeat split; auto.
    + intros [?|[_ [a [[] _]]]]. assumption.
  - destruct (used_in_authfile a) eqn:Hu.
    + destruct (get_authfile_id_returns a) as [k Hk]. rewrite Hk. simpl.
      destruct (IH (mkAcc (warnings acc) (defaultdict_add (id_to_dir acc) k dirname)
                          (Py.dict_set (id_to_str acc) k (str a)) (ligo_authz_list acc)))
        as [acc' [Hrun [Hligo Hdir]]].
      exists acc'. split; [assumption|]. split; [assumption|].
      intros authfile_id d. rewrite Hdir. simpl. rewrite in_defaultdict_add.
      unfold contributes. split.
      * intros [[?|[-> ->]]|[-> [b [Hb Hb']]]]; auto.
        -- right. split; [reflexivity|]. exists a. simpl. auto.
        -- right. split; [reflexivity|]. exists b. simpl. auto.
      * intros [?|[-> [b [[<-|Hb] [Hb1 Hb2]]]]]; auto.
        -- left. right. split; [congruence | reflexivity].
        -- right. split; [reflexivity|]. exists b. auto.
    + destruct (IH acc) as [acc' [Hrun [Hligo Hdir]]].
      exists acc'. split; [assumption|]. split; [assumption|].
      intros authfile_id d. rewrite Hdir. unfold contributes. split.
      * intros [?|[-> [b [Hb Hb']]]]; auto.
        right. split; [reflexivity|]. exists b. simpl. auto.
      * intros [?|[-> [b [[<-|Hb] [Hb1 Hb2]]]]]; auto.
        -- congruence.
        -- right. split; [reflexivity|]. exists b. auto.
Qed.

Lemma visit_namespace_spec dirname namespace acc :
  ligo_fetched global_data acc ->
  exists namespace' acc',
    visit_namespace global_data resource legacy dirname namespace acc
    = (namespace', Ok acc')
    /\ ligo_fetched global_data acc'
    /\ forall authfile_id d,
         in_id_to_dir (id_to_dir acc') authfile_id d
         <-> in_id_to_dir (id_to_dir acc) authfile_id d
             \/ (d = dirname /\ namespace_contributes global_data resource legacy dirname namespace authfile_id).
Proof.
  intros Hfetched.
  destruct (cache_gate resource namespace && negb (is_public namespace)) eqn:Hq.
  - apply andb_true_iff in Hq. destruct Hq as [Hgate Hpub].
    apply negb_true_iff in Hpub.
    assert (Hvisit : visit_namespace global_data resource legacy dirname namespace acc
                     = (let '(namespace0, acc0) :=
                          if String.eqb dirname "/user/ligo" then
                            if legacy then
                              let ligo := fetch_ligo_authz_list_if_needed global_data
                                            (ligo_authz_list acc) in
                              (set_authz_list namespace (authz_list namespace ++ ligo)%list,
                               mkAcc (warnings acc) (id_to_dir acc) (id_to_str acc) ligo)
                            else
                              (namespace,
                               mkAcc (warnings acc ++ "# LIGO DNs unavailable" ++ LF)
                                     (id_to_dir acc) (id_to_str acc) (ligo_authz_list acc))
                          else (namespace, acc) in
                        (namespace0, add_authz_entries dirname (authz_list namespace0) acc0))).
    { unfold visit_namespace. unfold cache_gate in Hgate.
      apply andb_true_iff in Hgate. destruct Hgate as [Ha Hb].
      rewrite Ha, Hpub. simpl. destruct resource; [rewrite Hb|]; reflexivity. }
    rewrite Hvisit. clear Hvisit.
    unfold namespace_contributes, extended_authz_list.
    destruct (String.eqb dirname "/user/ligo"); [destruct legacy|];
      cbn -[String.append].
    + rewrite (fetch_ligo_entries Hfetched).
      destruct (add_authz_entries_spec dirname
                  (authz_list namespace ++ ligo_entries global_data)%list
                  (mkAcc (warnings acc) (id_to_dir acc) (id_to_str acc)
                         (ligo_entries global_data))) as [acc' [Hrun [Hligo Hdir]]].
      eexists. exists acc'. split; [now rewrite Hrun|]. split.
      * right. exact Hligo.
      * intros authfile_id d. rewrite Hdir. simpl. tauto.
    + destruct (add_authz_entries_spec dirname (authz_list namespace)
                  (mkAcc (warnings acc ++ "# LIGO DNs unavailable" ++ LF)
                         (id_to_dir acc) (id_to_str acc) (ligo_authz_list acc)))
        as [acc' [Hrun [Hligo Hdir]]].
      eexists. exists acc'. split; [now rewrite Hrun|]. split.
      * unfold ligo_fetched in *. now rewrite Hligo.
      * intros authfile_id d. rewrite Hdir. simpl. tauto.
    + destruct (add_authz_entries_spec dirname (authz_list namespace) acc)
        as [acc' [Hrun [Hligo Hdir]]].
      eexists. exists acc'. split; [now rewrite Hrun|]. split.
      * unfold ligo_fetched in *. now rewrite Hligo.
      * intros authfile_id d. rewrite Hdir. tauto.
  - exists namespace, acc. split; [|split; [assumption|]].
    + apply visit_namespace_skipped. intros Hg. rewrite Hg in Hq. simpl in Hq.
      now apply negb_false_iff in Hq.
    + intros authfile_id d. unfold namespace_contributes. split; [tauto|].
      intros [?|[_ [Hg [Hp _]]]]; [assumption|].
      rewrite Hg, Hp in Hq. discriminate.
Qed.

Lemma visit_namespaces_spec items acc :
  ligo_fetched global_data acc ->
  exists items' acc',
    visit_namespaces global_data resource legacy items acc = (items', Ok acc')
    /\ ligo_fetched global_data acc'
    /\ forall authfile_id d,
         in_id_to_dir (id_to_dir acc') authfile_id d
         <-> in_id_to_dir (id_to_dir acc) authfile_id d
             \/ exists namespace, In (d, namespace) items
                                  /\ namespace_contributes global_data resource legacy d namespace authfile_id.
Proof.
  revert acc. induction items as [|[dirname namespace] rest IH]; intros acc Hf; simpl.
  - exists [], acc. repeat split; auto. intros [?|[? [[] _]]]. assumption.
  - destruct (visit_namespace_spec dirname namespace Hf) as [ns' [acc1 [Hv [Hf1 Hd1]]]].
    rewrite Hv.
    destruct (IH acc1 Hf1) as [rest' [acc2 [Hv2 [Hf2 Hd2]]]]. rewrite Hv2.
    eexists. exists acc2. split; [reflexivity|]. split; [assumption|].
    intros authfile_id d. rewrite Hd2, Hd1. split.
    + intros [[?|[-> Hc]]|[n [Hin Hc]]]; eauto.
    + intros [?|[n [[Heq|Hin] Hc]]]; eauto.
      inversion Heq; subst. auto.
Qed.

Lemma visit_stashcaches_spec items acc :
  ligo_fetched global_data acc ->
  exists items' acc',
    visit_stashcaches global_data resource legacy items acc = (items', Ok acc')
    /\ ligo_fetched global_data acc'
    /\ forall authfile_id d,
         in_id_to_dir (id_to_dir acc') authfile_id d
         <-> in_id_to_dir (id_to_dir acc) authfile_id d
             \/ exists vo sc namespace,
                  In (vo, sc) items /\ In (d, namespace) (namespaces sc)
                  /\ namespace_contributes global_data resource legacy d namespace authfile_id.
Proof.
  revert acc. induction items as [|[vo sc] rest IH]; intros acc Hf; simpl.
  - exists [], acc. repeat split; auto. intros [?|[? [? [? [[] _]]]]]. assumption.
  - destruct (visit_namespaces_spec (namespaces sc) Hf) as [nss' [acc1 [Hv [Hf1 Hd1]]]].
    rewrite Hv.
    destruct (IH acc1 Hf1) as [rest' [acc2 [Hv2 [Hf2 Hd2]]]]. rewrite Hv2.
    eexists. exists acc2. split; [reflexivity|]. split; [assumption|].
    intros authfile_id d. rewrite Hd2, Hd1. split.
    + intros [[?|[n [Hin Hc]]]|[v [s [n [Hin [Hin' Hc]]]]]]; eauto 10.
    + intros [?|[v [s [n [[Heq|Hin] [Hin' Hc]]]]]]; eauto 10.
      inversion Heq; subst. eauto.
Qed.

End CacheContributions.

(** C4 (as amended).  Without a target node (and with the DN hash at hand)
    the loops of [generate_cache_authfile] end normally, and a path is
    recorded under an authfile identity exactly when some non-public
    namespace of that path whose [allowed_caches] contains [ANY] has, in its
    extended list, an entry used in authfiles with that identity.  A
    namespace whose [allowed_caches] lacks [ANY] adds nothing. *)
Theorem cache_authfile_without_target {ext : Externals}
    (global_data : Stashcache.GlobalData) (fqdn : option string)
    (legacy suppress_errors : bool) (h : string -> string) :
  generate_dn_hash = Some h ->
  Stashcache.given fqdn = None ->
  exists scs acc,
    Stashcache.collect_cache_authfile global_data None legacy = (scs, Ok acc)
    /\ Stashcache.generate_cache_authfile global_data fqdn legacy suppress_errors
       = (Stashcache.set_stashcaches global_data scs,
          Stashcache.finish_cache_authfile acc)
    /\ forall authfile_id dirname,
         Stashcache.in_id_to_dir (Stashcache.id_to_dir acc) authfile_id dirname
         <-> exists vo sc namespace,
               In (vo, sc) (VosData.stashcache_by_vo_name
                              (Stashcache.get_vos_data global_data))
               /\ In (dirname, namespace) (VosData.namespaces sc)
               /\ Py.mem ANY (VosData.allowed_caches namespace) = true
               /\ VosData.is_public namespace = false
               /\ Stashcache.contributes
                    (Stashcache.extended_authz_list global_data legacy dirname namespace)
                    authfile_id.
Proof.
  intros Hh Hfqdn.
  destruct (@visit_stashcaches_spec ext global_data None legacy h Hh
              (VosData.stashcache_by_vo_name (Stashcache.get_vos_data global_data))
              (Stashcache.mkAcc "" [] [] []) (or_introl eq_refl))
    as [scs [acc [Hrun [_ Hdir]]]].
  exists scs, acc. split; [exact Hrun|]. split.
  - unfold Stashcache.generate_cache_authfile. rewrite Hfqdn.
    unfold Stashcache.collect_cache_authfile. now rewrite Hrun.
  - intros authfile_id dirname. rewrite Hdir.
    unfold Stashcache.namespace_contributes, Stashcache.cache_gate,
      Stashcache.namespace_allows_cache_resource.
    split.
    + intros [[dirs [Hget _]] | [vo [sc [ns [Hin [Hin' [Hg [Hp Hc]]]]]]]];
        [discriminate Hget|].
      exists vo, sc, ns. repeat split; auto.
      destruct (Py.mem ANY (VosData.allowed_caches ns)); [reflexivity | discriminate Hg].
    + intros [vo [sc [ns [Hin [Hin' [Hany [Hp Hc]]]]]]].
      right. exists vo, sc, ns. rewrite Hany. auto.
Qed.

(** With the namespace [/user/ligo] open to [ANY] cache and one LIGO DN. *)
Lemma cache_authfile_without_target_witness :
  exists scs acc,
    Stashcache.collect_cache_authfile (ext := Fixtures.externals)
      Fixtures.gd_ligo None true = (scs, Ok acc)
    /\ Stashcache.in_id_to_dir (Stashcache.id_to_dir acc)
         "u hash(/DC=org/CN=alice)" "/user/ligo".
Proof.
  destruct (@cache_authfile_without_target Fixtures.externals Fixtures.gd_ligo None
              true true (fun dn => "hash(" ++ dn ++ ")") eq_refl eq_refl)
    as [scs [acc [Hrun [_ Hdir]]]].
  exists scs, acc. split; [exact Hrun|].
  apply Hdir. exists "LIGO", (VosData.mkStashCache "LIGO" [("/user/ligo", Fixtures.ns_ligo)] []),
    Fixtures.ns_ligo.
  split; [simpl; tauto|]. split; [simpl; tauto|]. split; [reflexivity|].
  split; [reflexivity|].
  exists (DNAuth "/DC=org/CN=alice"). split; [simpl; tauto|]. split; reflexivity.
Defined.

(** C4 (as stated) fails: a protected namespace that names one cache, and
    not [ANY], adds nothing when no target is given; here the call even
    ends in [DataError]. *)
Lemma named_cache_namespace_left_out :
  snd (Stashcache.generate_cache_authfile (ext := Fixtures.externals)
         Fixtures.gd_protected None true true)
  = Raise (DataError "Cache does not support any protected namespaces")
  /\ ~ (exists scs acc,
           Stashcache.collect_cache_authfile (ext := Fixtures.externals)
             Fixtures.gd_protected None true = (scs, Ok acc)
           /\ Stashcache.in_id_to_dir (Stashcache.id_to_dir acc) "g /osg" "/protected").
Proof.
  split; [reflexivity|].
  intros [scs [acc [Hrun [dirs [Hget _]]]]].
  vm_compute in Hrun. inversion Hrun; subst. discriminate Hget.
Qed.

(** *** The snapshot after a call *)

(** C5 fails on the code.  A call with [legacy] true on a registry holding
    [/user/ligo] leaves the LIGO entries in that namespace's [authz_list];
    a later call with [legacy] false then answers differently than on the
    original snapshot. *)
Theorem cache_authfile_extends_ligo_authz_list :
  let before := Fixtures.gd_ligo in
  let after :=
    fst (Stashcache.generate_cache_authfile (ext := Fixtures.externals)
           before None true true) in
  VosData.stashcache_by_vo_name (Stashcache.get_vos_data after)
  = [("LIGO",
      VosData.mkStashCache "LIGO"
        [("/user/ligo",
          VosData.mkNamespace "/user/ligo" "LIGO" [] [ANY]
            [FQANAuth "/ligo"; DNAuth "/DC=org/CN=alice"] YNone YNone)] [])]
  /\ after <> before
  /\ snd (Stashcache.generate_cache_authfile (ext := Fixtures.externals)
            before None false true)
     = Ok ("# LIGO DNs unavailable" ++ LF
           ++ "# FQAN: /ligo" ++ LF ++ "g /ligo /user/ligo rl" ++ LF)
  /\ snd (Stashcache.generate_cache_authfile (ext := Fixtures.externals)
            after None false true)
     = Ok ("# LIGO DNs unavailable" ++ LF
           ++ "# FQAN: /ligo" ++ LF ++ "g /ligo /user/ligo rl" ++ LF
           ++ "# DN: /DC=org/CN=alice" ++ LF
           ++ "u hash(/DC=org/CN=alice) /user/ligo rl" ++ LF).
Proof.
  cbv zeta. split; [reflexivity|]. split; [|split; reflexivity].
  intros Heq. apply (f_equal (fun g => VosData.stashcache_by_vo_name
                                         (Stashcache.get_vos_data g))) in Heq.
  vm_compute in Heq. discriminate Heq.
Qed.

(** *** Sorting *)

Lemma insert_sorted_perm (x : string) (l : list string) :
  Permutation (x :: l) (Py.insert_sorted x l).
Proof.
  induction l as [|y l IH]; simpl; [reflexivity|].
  destruct (String.leb x y); [reflexivity|].
  rewrite perm_swap. now apply perm_skip.
Qed.

Lemma sorted_perm (l : list string) : Permutation l (Py.sorted l).
Proof.
  induction l as [|x l IH]; simpl; [reflexivity|].
  rewrite <- insert_sorted_perm. now apply perm_skip.
Qed.

Lemma insert_sorted_sorted (x : string) (l : list string) :
  Sorted (fun a b => String.leb a b = true) l ->
  Sorted (fun a b => String.leb a b = true) (Py.insert_sorted x l).
Proof.
  induction l as [|y l IH]; simpl; intros Hs.
  - repeat constructor.
  - destruct (String.leb x y) eqn:Hxy.
    + constructor; [assumption|]. now constructor.
    + inversion Hs as [|? ? Hl Hhd]; subst.
      constructor; [now apply IH|].
      assert (Hyx : String.leb y x = true)
        by (destruct (String.leb_total x y) as [Ht|Ht]; congruence).
      destruct l as [|z l]; simpl.
      * now constructor.
      * destruct (String.leb x z); constructor; [assumption|].
        now inversion Hhd.
Qed.

Lemma sorted_sorted (l : list string) :
  Sorted (fun a b => String.leb a b = true) (Py.sorted l).
Proof.
  induction l as [|x l IH]; simpl; [constructor|]. now apply insert_sorted_sorted.
Qed.

(** *** The SciTokens configuration *)

Section SciTokens.
Context {ext : Externals}.
Import VosData Stashcache.

Lemma conf_blocks_return (service_name : string) (l : list AuthMethod) :
  Py.mem service_name [XROOTD_CACHE_SERVER; XROOTD_ORIGIN_SERVER] = true ->
  exists blocks, conf_blocks service_name l = Ok blocks.
Proof.
  intros Hsvc. induction l as [|a l [bs IH]]; cbn [conf_blocks]; [eauto|].
  assert (Hblock : exists b, get_scitokens_conf_block a service_name = Ok b).
  { unfold get_scitokens_conf_block. destruct a; eauto. rewrite Hsvc. simpl. eauto. }
  destruct Hblock as [b Hb]. rewrite Hb, IH. simpl. eauto.
Qed.

Lemma render_scitokens_returns (service_name : string) collected :
  Py.mem service_name [XROOTD_CACHE_SERVER; XROOTD_ORIGIN_SERVER] = true ->
  exists text, render_scitokens service_name collected = Ok text.
Proof.
  intros Hsvc. unfold render_scitokens. destruct collected as [l vos].
  destruct (conf_blocks_return service_name
              (match l with [] => [dummy_auth] | _ => l end) Hsvc)
    as [bs Hbs].
  rewrite Hbs. unfold bind. eauto.
Qed.

Lemma cache_service_known :
  Py.mem XROOTD_CACHE_SERVER [XROOTD_CACHE_SERVER; XROOTD_ORIGIN_SERVER] = true.
Proof. unfold Py.mem. simpl. now rewrite String.eqb_refl. Qed.

Lemma origin_service_known :
  Py.mem XROOTD_ORIGIN_SERVER [XROOTD_CACHE_SERVER; XROOTD_ORIGIN_SERVER] = true.
Proof. unfold Py.mem. simpl. rewrite String.eqb_refl. apply orb_true_r. Qed.

Lemma add_scitokens_entries_none vo_name l st :
  (forall a, In a l -> used_in_scitokens_conf a = false) ->
  fold_left (add_scitokens_entry vo_name) l st = st.
Proof.
  revert st. induction l as [|a l IH]; simpl; intros st Hl; [reflexivity|].
  unfold add_scitokens_entry at 2. rewrite (Hl a) by now left.
  apply IH. intros b Hb. apply Hl. now right.
Qed.

Lemma visit_scitokens_namespaces_none gate vo_name items st :
  (forall p namespace, In (p, namespace) items ->
     is_public namespace = false -> gate namespace = true ->
     forall a, In a (authz_list namespace) -> used_in_scitokens_conf a = false) ->
  fold_left (visit_scitokens_namespace gate vo_name) items st = st.
Proof.
  revert st. induction items as [|[p n] rest IH]; simpl; intros st Hn; [reflexivity|].
  assert (Hrest : fold_left (visit_scitokens_namespace gate vo_name) rest st = st)
    by (apply IH; intros q m Hin; apply (Hn q m); now right).
  unfold visit_scitokens_namespace at 2. simpl.
  destruct (is_public n) eqn:Hp; [exact Hrest|].
  destruct (gate n) eqn:Hg; simpl; [|exact Hrest].
  rewrite add_scitokens_entries_none; [exact Hrest|].
  apply (Hn p n); auto; now left.
Qed.

Lemma collect_scitokens_none gate items st :
  (forall vo sc p namespace, In (vo, sc) items -> In (p, namespace) (namespaces sc) ->
     is_public namespace = false -> gate namespace = true ->
     forall a, In a (authz_list namespace) -> used_in_scitokens_conf a = false) ->
  collect_scitokens_from gate items st = st.
Proof.
  unfold collect_scitokens_from. revert st.
  induction items as [|[vo sc] rest IH]; simpl; intros st Hn; [reflexivity|].
  rewrite visit_scitokens_namespaces_none
    by (intros p n Hin; apply (Hn vo sc p n); auto; now left).
  apply IH. intros v s p n Hin. apply (Hn v s p n). now right.
Qed.

Lemma render_placeholder_cache :
  XROOTD_CACHE_SERVER <> XROOTD_ORIGIN_SERVER ->
  render_scitokens XROOTD_CACHE_SERVER ([], []) = Ok (placeholder_conf false).
Proof.
  intros Hne. apply String.eqb_neq in Hne.
  unfold render_scitokens, conf_blocks, dummy_auth, get_scitokens_conf_block.
  rewrite cache_service_known, Hne. reflexivity.
Qed.

Lemma render_placeholder_origin :
  render_scitokens XROOTD_ORIGIN_SERVER ([], []) = Ok (placeholder_conf true).
Proof.
  unfold render_scitokens, conf_blocks, dummy_auth, get_scitokens_conf_block.
  rewrite origin_service_known, String.eqb_refl. reflexivity.
Qed.

Lemma fold_set_add_In (l : list string) : forall s y,
  In y (fold_left (fun s x => Py.set_add x s) l s) <-> In y s \/ In y l.
Proof.
  induction l as [|x l IH]; intros s y; cbn [fold_left].
  - split; [now left | intros [?|[]]; assumption].
  - rewrite IH, in_set_add. cbn [In]. intuition congruence.
Qed.

Lemma to_set_In (l : list string) (y : string) : In y (Py.to_set l) <-> In y l.
Proof.
  unfold Py.to_set. rewrite fold_set_add_In. cbn [In]. tauto.
Qed.

(** Only entries used in the SciTokens configuration are collected. *)
Lemma add_scitokens_entries_used vo_name l : forall st,
  (forall a, In a (fst st) -> used_in_scitokens_conf a = true) ->
  forall a, In a (fst (fold_left (add_scitokens_entry vo_name) l st)) ->
            used_in_scitokens_conf a = true.
Proof.
  induction l as [|x l IH]; intros st Hst; cbn [fold_left]; [exact Hst|].
  apply IH. unfold add_scitokens_entry.
  destruct (used_in_scitokens_conf x) eqn:Hx; [|exact Hst].
  cbn [fst]. intros a Ha. apply in_app_iff in Ha.
  destruct Ha as [Ha|[<-|[]]]; [now apply Hst | exact Hx].
Qed.

Lemma visit_scitokens_namespaces_used gate vo_name items : forall st,
  (forall a, In a (fst st) -> used_in_scitokens_conf a = true) ->
  forall a, In a (fst (fold_left (visit_scitokens_namespace gate vo_name) items st)) ->
            used_in_scitokens_conf a = true.
Proof.
  induction items as [|[p n] rest IH]; intros st Hst; cbn [fold_left]; [exact Hst|].
  apply IH. unfold visit_scitokens_namespace. cbn [snd].
  destruct (is_public n); [exact Hst|].
  destruct (negb (gate n)); [exact Hst|].
  now apply add_scitokens_entries_used.
Qed.

Lemma collect_scitokens_used gate items : forall st,
  (forall a, In a (fst st) -> used_in_scitokens_conf a = true) ->
  forall a, In a (fst (collect_scitokens_from gate items st)) ->
            used_in_scitokens_conf a = true.
Proof.
  unfold collect_scitokens_from.
  induction items as [|[vo sc] rest IH]; intros st Hst; cbn [fold_left]; [exact Hst|].
  apply IH. now apply visit_scitokens_namespaces_used.
Qed.

(** The block of an entry used in the configuration is an issuer block. *)
Lemma conf_block_issuer (service_name : string) (a : AuthMethod) :
  Py.mem service_name [XROOTD_CACHE_SERVER; XROOTD_ORIGIN_SERVER] = true ->
  used_in_scitokens_conf a = true ->
  exists b, get_scitokens_conf_block a service_name = Ok b
            /\ Py.startswith b "[Issuer " = true.
Proof.
  intros Hsvc Hused. destruct a as [| | | |issuer base_path restricted map_subject];
    try discriminate Hused.
  unfold get_scitokens_conf_block. rewrite Hsvc. cbn [negb].
  eexists. split; [reflexivity|].
  destruct restricted as [s|]; [destruct (negb (s =? ""))|];
    destruct (service_name =? XROOTD_ORIGIN_SERVER);
    unfold Py.startswith; cbn;
    match goal with |- String.prefix _ ?z = true => now destruct z end.
Qed.

Lemma conf_blocks_issuer (service_name : string) (l : list AuthMethod) :
  Py.mem service_name [XROOTD_CACHE_SERVER; XROOTD_ORIGIN_SERVER] = true ->
  (forall a, In a l -> used_in_scitokens_conf a = true) ->
  exists blocks,
    conf_blocks service_name l = Ok blocks
    /\ (l <> [] -> blocks <> [])
    /\ forall b, In b blocks -> Py.startswith b "[Issuer " = true.
Proof.
  intros Hsvc. induction l as [|a l IH]; intros Hused; cbn [conf_blocks].
  - exists []. split; [reflexivity|]. split; [intros H; now elim H | intros b []].
  - destruct (@conf_block_issuer service_name a Hsvc (Hused a (or_introl eq_refl)))
      as [b [Hb Hpre]].
    destruct IH as [bs [Hbs [_ Hall]]]; [intros x Hx; apply Hused; now right|].
    rewrite Hb, Hbs. cbn [bind]. exists (b :: bs). split; [reflexivity|].
    split; [discriminate|]. intros x [<-|Hx]; [exact Hpre | now apply Hall].
Qed.

(** What is rendered from collected entries: at least one issuer block. *)
Lemma render_scitokens_blocks (service_name : string)
    (collected : list AuthMethod * list string) :
  Py.mem service_name [XROOTD_CACHE_SERVER; XROOTD_ORIGIN_SERVER] = true ->
  (forall a, In a (fst collected) -> used_in_scitokens_conf a = true) ->
  exists issuer_blocks,
    render_scitokens service_name collected
    = Ok (Py.rstrip ("[Global]" ++ LF ++ "audience = "
                     ++ Py.join ", " (Py.sorted (snd collected)) ++ LF ++ LF
                     ++ Py.join LF issuer_blocks ++ LF) ++ LF)
    /\ issuer_blocks <> []
    /\ forall b, In b issuer_blocks -> Py.startswith b "[Issuer " = true.
Proof.
  intros Hsvc Hused. destruct collected as [l vos]. cbn [fst snd] in *.
  unfold render_scitokens.
  destruct (@conf_blocks_issuer service_name
              (match l with [] => [dummy_auth] | _ => l end) Hsvc)
    as [blocks [Hblocks [Hne Hall]]].
  { destruct l as [|a l]; [|exact Hused]. intros a [<-|[]]. reflexivity. }
  rewrite Hblocks. unfold bind.
  exists (Py.sorted (Py.to_set blocks)). split; [reflexivity|]. split.
  - assert (Hb : blocks <> []) by (apply Hne; destruct l; discriminate).
    destruct blocks as [|b bs]; [now elim Hb|].
    assert (Hin : In b (Py.sorted (Py.to_set (b :: bs)))).
    { eapply Permutation_in; [apply sorted_perm|]. apply to_set_In. now left. }
    intros Hnil. rewrite Hnil in Hin. exact Hin.
  - intros b Hb. apply Hall. apply to_set_In.
    eapply Permutation_in; [apply Permutation_sym, sorted_perm | exact Hb].
Qed.

End SciTokens.

(** C6 (as amended).  When the node lookup succeeds and no qualifying
    non-public namespace carries an entry used in the SciTokens
    configuration, the cache generator and the origin generator return the
    empty audience line followed by exactly the placeholder issuer block
    (with its [map_subject] line for an origin).  Whenever the lookup
    succeeds (a non-empty fqdn whose node has the required service) the text
    is the template filled with an audience line and a list of issuer blocks
    that is never empty, each of them opening with [[Issuer ...]].  With a
    missing or empty fqdn the text is empty; and with errors suppressed so is
    the text for an fqdn that no node has or whose node lacks the service. *)
Theorem scitokens_placeholder_block {ext : Externals}
    (global_data : Stashcache.GlobalData) (fqdn : option string)
    (suppress_errors : bool) (r : Resource) :
  XROOTD_CACHE_SERVER <> XROOTD_ORIGIN_SERVER ->
  (Stashcache._get_cache_resource fqdn (Stashcache.get_topology global_data)
     suppress_errors = Ok (Some r) ->
   (forall vo sc p namespace,
       In (vo, sc) (VosData.stashcache_by_vo_name (Stashcache.get_vos_data global_data)) ->
       In (p, namespace) (VosData.namespaces sc) ->
       VosData.is_public namespace = false ->
       Stashcache.namespace_allows_cache_resource namespace (Some r)
       && Stashcache.resource_allows_namespace r (Some namespace) = true ->
       forall a, In a (VosData.authz_list namespace) -> used_in_scitokens_conf a = false) ->
   Stashcache.generate_cache_scitokens global_data fqdn suppress_errors
   = Ok (Stashcache.placeholder_conf false))
  /\ (Stashcache._get_origin_resource fqdn (Stashcache.get_topology global_data)
        suppress_errors = Ok (Some r) ->
      (forall vo sc p namespace,
          In (vo, sc) (VosData.stashcache_by_vo_name (Stashcache.get_vos_data global_data)) ->
          In (p, namespace) (VosData.namespaces sc) ->
          VosData.is_public namespace = false ->
          Stashcache.namespace_allows_origin_resource namespace (Some r)
          && Stashcache.resource_allows_namespace r (Some namespace) = true ->
          forall a, In a (VosData.authz_list namespace) -> used_in_scitokens_conf a = false) ->
      Stashcache.generate_origin_scitokens global_data fqdn suppress_errors
      = Ok (Stashcache.placeholder_conf true))
  /\ (forall f node,
         fqdn = Some f -> f <> "" ->
         safe_get_resource_by_fqdn (Stashcache.get_topology global_data) f
         = Some node ->
         (Py.mem XROOTD_CACHE_SERVER (service_names node) = true ->
          exists allowed_vos issuer_blocks,
            Stashcache.generate_cache_scitokens global_data fqdn suppress_errors
            = Ok (Py.rstrip ("[Global]" ++ LF ++ "audience = "
                             ++ Py.join ", " (Py.sorted allowed_vos) ++ LF ++ LF
                             ++ Py.join LF issuer_blocks ++ LF) ++ LF)
            /\ issuer_blocks <> []
            /\ forall b, In b issuer_blocks -> Py.startswith b "[Issuer " = true)
         /\ (Py.mem XROOTD_ORIGIN_SERVER (service_names node) = true ->
             exists allowed_vos issuer_blocks,
               Stashcache.generate_origin_scitokens global_data fqdn suppress_errors
               = Ok (Py.rstrip ("[Global]" ++ LF ++ "audience = "
                                ++ Py.join ", " (Py.sorted allowed_vos) ++ LF ++ LF
                                ++ Py.join LF issuer_blocks ++ LF) ++ LF)
               /\ issuer_blocks <> []
               /\ forall b, In b issuer_blocks -> Py.startswith b "[Issuer " = true))
  /\ (fqdn = None \/ fqdn = Some "" ->
      Stashcache.generate_cache_scitokens global_data fqdn suppress_errors = Ok ""
      /\ Stashcache.generate_origin_scitokens global_data fqdn suppress_errors = Ok "")
  /\ (forall f,
         fqdn = Some f -> f <> "" -> suppress_errors = true ->
         (safe_get_resource_by_fqdn (Stashcache.get_topology global_data) f = None ->
          Stashcache.generate_cache_scitokens global_data fqdn suppress_errors = Ok ""
          /\ Stashcache.generate_origin_scitokens global_data fqdn suppress_errors
             = Ok "")
         /\ (forall node,
               safe_get_resource_by_fqdn (Stashcache.get_topology global_data) f
               = Some node ->
               (Py.mem XROOTD_CACHE_SERVER (service_names node) = false ->
                Stashcache.generate_cache_scitokens global_data fqdn suppress_errors
                = Ok "")
               /\ (Py.mem XROOTD_ORIGIN_SERVER (service_names node) = false ->
                   Stashcache.generate_origin_scitokens global_data fqdn
                     suppress_errors = Ok ""))).
Proof.
  intros Hne. split; [|split; [|split; [|split]]].
  - intros Hlook Hnone.
    unfold Stashcache.generate_cache_scitokens. rewrite Hlook. simpl.
    unfold Stashcache.collect_scitokens. rewrite collect_scitokens_none by exact Hnone.
    now apply render_placeholder_cache.
  - intros Hlook Hnone.
    unfold Stashcache.generate_origin_scitokens. rewrite Hlook. simpl.
    unfold Stashcache.collect_scitokens. rewrite collect_scitokens_none by exact Hnone.
    apply render_placeholder_origin.
  - intros f node -> Hf Hnode. split; intros Hsvc.
    + unfold Stashcache.generate_cache_scitokens, Stashcache._get_cache_resource.
      rewrite (@lookup_found ext f node XROOTD_CACHE_SERVER
                 (Stashcache.get_topology global_data) suppress_errors Hf Hnode Hsvc).
      unfold bind.
      match goal with
      | |- context [Stashcache.render_scitokens _ ?c] =>
          destruct (@render_scitokens_blocks ext XROOTD_CACHE_SERVER c
                      cache_service_known) as [blocks [Htext Hblocks]];
          [ apply collect_scitokens_used; intros a []
          | exists (snd c), blocks; split; [exact Htext | exact Hblocks] ]
      end.
    + unfold Stashcache.generate_origin_scitokens, Stashcache._get_origin_resource.
      rewrite (@lookup_found ext f node XROOTD_ORIGIN_SERVER
                 (Stashcache.get_topology global_data) suppress_errors Hf Hnode Hsvc).
      unfold bind.
      match goal with
      | |- context [Stashcache.render_scitokens _ ?c] =>
          destruct (@render_scitokens_blocks ext XROOTD_ORIGIN_SERVER c
                      origin_service_known) as [blocks [Htext Hblocks]];
          [ apply collect_scitokens_used; intros a []
          | exists (snd c), blocks; split; [exact Htext | exact Hblocks] ]
      end.
  - intros Hfqdn.
    unfold Stashcache.generate_cache_scitokens, Stashcache.generate_origin_scitokens,
      Stashcache._get_cache_resource, Stashcache._get_origin_resource.
    now rewrite !lookup_without_fqdn by exact Hfqdn.
  - intros f -> Hf ->.
    unfold Stashcache.generate_cache_scitokens, Stashcache.generate_origin_scitokens,
      Stashcache._get_cache_resource, Stashcache._get_origin_resource.
    split.
    + intros Hnone.
      now rewrite !(@lookup_unregistered ext f _ (Stashcache.get_topology global_data)
                      true Hf Hnone).
    + intros node Hnode. split; intros Hsvc.
      * now rewrite (@lookup_missing_service ext f node XROOTD_CACHE_SERVER
                       (Stashcache.get_topology global_data) true Hf Hnode Hsvc).
      * now rewrite (@lookup_missing_service ext f node XROOTD_ORIGIN_SERVER
                       (Stashcache.get_topology global_data) true Hf Hnode Hsvc).
Qed.

(** A registered cache and a registry whose only namespace is public; the
    same cache and a namespace with an issuer; and an fqdn that no node has,
    with errors suppressed. *)
Lemma scitokens_placeholder_block_witness :
  Stashcache.generate_cache_scitokens (ext := Fixtures.externals)
    Fixtures.gd_public (Some "cache1.example.org") true
  = Ok ("[Global]" ++ LF ++ "audience = " ++ LF ++ LF
        ++ "[Issuer https://scitokens.org/nonexistent]" ++ LF
        ++ "issuer = https://scitokens.org/nonexistent" ++ LF
        ++ "base_path = /no-issuers-found" ++ LF)
  /\ (exists allowed_vos issuer_blocks,
        Stashcache.generate_cache_scitokens (ext := Fixtures.externals)
          Fixtures.gd_token (Some "cache1.example.org") true
        = Ok (Py.rstrip ("[Global]" ++ LF ++ "audience = "
                         ++ Py.join ", " (Py.sorted allowed_vos) ++ LF ++ LF
                         ++ Py.join LF issuer_blocks ++ LF) ++ LF)
        /\ issuer_blocks <> []
        /\ forall b, In b issuer_blocks -> Py.startswith b "[Issuer " = true)
  /\ Stashcache.generate_cache_scitokens (ext := Fixtures.externals)
       Fixtures.gd_empty (Some "nowhere.example.org") true = Ok "".
Proof.
  split; [|split].
  - destruct (@scitokens_placeholder_block Fixtures.externals Fixtures.gd_public
                (Some "cache1.example.org") true Fixtures.cache1) as [Hcache _].
    + simpl. discriminate.
    + apply Hcache; [reflexivity|].
      simpl. intros vo sc p namespace [Heq|[]] Hin Hpub.
      inversion Heq; subst. simpl in Hin. destruct Hin as [Heq'|[]].
      inversion Heq'; subst. discriminate Hpub.
  - destruct (@scitokens_placeholder_block Fixtures.externals Fixtures.gd_token
                (Some "cache1.example.org") true Fixtures.cache1)
      as (_ & _ & Hblocks & _).
    + simpl. discriminate.
    + destruct (Hblocks "cache1.example.org" Fixtures.cache1 eq_refl) as [Hcache _].
      * discriminate.
      * reflexivity.
      * apply Hcache. reflexivity.
  - destruct (@scitokens_placeholder_block Fixtures.externals Fixtures.gd_empty
                (Some "nowhere.example.org") true Fixtures.cache1)
      as (_ & _ & _ & _ & Hfail).
    + simpl. discriminate.
    + destruct (Hfail "nowhere.example.org" eq_refl) as [Hnone _].
      * discriminate.
      * reflexivity.
      * apply Hnone. reflexivity.
Defined.

(** C6 (as stated) fails: without an fqdn the generator returns the empty
    text, which holds no issuer block at all. *)
Lemma scitokens_without_fqdn_is_empty :
  Stashcache.generate_cache_scitokens (ext := Fixtures.externals)
    Fixtures.gd_empty None true = Ok ""
  /\ ~ (exists text,
           Stashcache.generate_cache_scitokens (ext := Fixtures.externals)
             Fixtures.gd_empty None true = Ok text
           /\ Py.contains Stashcache.placeholder_block text = true).
Proof.
  split; [reflexivity|].
  intros [text [Htext Hblock]]. inversion Htext; subst. discriminate Hblock.
Qed.

(** C10.  With a missing or empty fqdn the two SciTokens generators return
    the empty text, whatever the registry and the suppress flag.  When one of
    them raises, errors are not suppressed, the fqdn is not empty, and the
    exception is the lookup error of an unregistered node or of a node
    without the required service. *)
Theorem scitokens_raise_only_lookup_errors {ext : Externals}
    (global_data : Stashcache.GlobalData) (fqdn : option string)
    (suppress_errors : bool) :
  (fqdn = None \/ fqdn = Some "" ->
   Stashcache.generate_cache_scitokens global_data fqdn suppress_errors = Ok ""
   /\ Stashcache.generate_origin_scitokens global_data fqdn suppress_errors = Ok "")
  /\ (forall e service_name,
         (service_name = XROOTD_CACHE_SERVER
          /\ Stashcache.generate_cache_scitokens global_data fqdn suppress_errors
             = Raise e)
         \/ (service_name = XROOTD_ORIGIN_SERVER
             /\ Stashcache.generate_origin_scitokens global_data fqdn suppress_errors
                = Raise e) ->
         suppress_errors = false
         /\ exists f, fqdn = Some f /\ f <> ""
            /\ ((safe_get_resource_by_fqdn (Stashcache.get_topology global_data) f = None
                 /\ e = ResourceNotRegistered f)
                \/ exists r,
                     safe_get_resource_by_fqdn (Stashcache.get_topology global_data) f
                     = Some r
                     /\ Py.mem service_name (service_names r) = false
                     /\ e = ResourceMissingService r service_name)).
Proof.
  split.
  - intros Hfqdn.
    unfold Stashcache.generate_cache_scitokens, Stashcache.generate_origin_scitokens,
      Stashcache._get_cache_resource, Stashcache._get_origin_resource.
    now rewrite !lookup_without_fqdn by exact Hfqdn.
  - intros e service_name [[-> Hraise] | [-> Hraise]].
    + unfold Stashcache.generate_cache_scitokens, Stashcache._get_cache_resource in Hraise.
      destruct (Stashcache._get_resource_with_service fqdn XROOTD_CACHE_SERVER
                  (Stashcache.get_topology global_data) suppress_errors)
        as [[r|]|e'] eqn:Hlook; unfold bind in Hraise.
      * destruct (render_scitokens_returns XROOTD_CACHE_SERVER
                    (Stashcache.collect_scitokens
                       (fun namespace =>
                          Stashcache.namespace_allows_cache_resource namespace (Some r)
                          && Stashcache.resource_allows_namespace r (Some namespace))
                       (VosData.stashcache_by_vo_name (Stashcache.get_vos_data global_data)))
                    cache_service_known) as [text Htext].
        rewrite Htext in Hraise. discriminate.
      * discriminate.
      * inversion Hraise; subst. now apply lookup_raises in Hlook.
    + unfold Stashcache.generate_origin_scitokens, Stashcache._get_origin_resource in Hraise.
      destruct (Stashcache._get_resource_with_service fqdn XROOTD_ORIGIN_SERVER
                  (Stashcache.get_topology global_data) suppress_errors)
        as [[r|]|e'] eqn:Hlook; unfold bind in Hraise.
      * destruct (render_scitokens_returns XROOTD_ORIGIN_SERVER
                    (Stashcache.collect_scitokens
                       (fun namespace =>
                          Stashcache.namespace_allows_origin_resource namespace (Some r)
                          && Stashcache.resource_allows_namespace r (Some namespace))
                       (VosData.stashcache_by_vo_name (Stashcache.get_vos_data global_data)))
                    origin_service_known) as [text Htext].
        rewrite Htext in Hraise. discriminate.
      * discriminate.
      * inversion Hraise; subst. now apply lookup_raises in Hlook.
Qed.

(** An empty fqdn, and the origin generator asked about a cache node. *)
Lemma scitokens_raise_only_lookup_errors_witness :
  (Stashcache.generate_cache_scitokens (ext := Fixtures.externals)
     Fixtures.gd_public (Some "") false = Ok ""
   /\ Stashcache.generate_origin_scitokens (ext := Fixtures.externals)
        Fixtures.gd_public (Some "") false = Ok "")
  /\ exists r,
       Fixtures.first_by_fqdn Fixtures.topology1 "cache1.example.org" = Some r
       /\ Py.mem "XRootD origin server" (service_names r) = false.
Proof.
  split.
  - apply (@scitokens_raise_only_lookup_errors Fixtures.externals Fixtures.gd_public
             (Some "") false). now right.
  - destruct (@scitokens_raise_only_lookup_errors Fixtures.externals Fixtures.gd_public
                (Some "cache1.example.org") false) as [_ Hraise].
    destruct (Hraise (ResourceMissingService Fixtures.cache1 "XRootD origin server")
                "XRootD origin server") as [_ [f [Hf [_ [[Hnone _]|[r [Hr [Hm _]]]]]]]].
    + right. split; reflexivity.
    + inversion Hf; subst. discriminate Hnone.
    + inversion Hf; subst. exists r. split; assumption.
Defined.

(** *** The origin authfile *)

Section PublicOrigin.
Context {ext : Externals}.
Import VosData Stashcache.

Variable topology : Topology.
Variable origin_resource : option Resource.

(** In [public_origin] mode a turn of the loop can only add a public path. *)
Lemma visit_origin_namespace_public vo_name path namespace acc :
  exists acc',
    visit_origin_namespace topology origin_resource true vo_name path namespace acc
    = Ok acc'
    /\ id_to_paths acc' = id_to_paths acc
    /\ o_id_to_str acc' = o_id_to_str acc
    /\ o_warnings acc' = o_warnings acc.
Proof.
  unfold visit_origin_namespace.
  destruct origin_resource as [origin|]; [|eauto].
  destruct (namespace_allows_origin_resource namespace (Some origin)); simpl; [|eauto].
  destruct (resource_allows_namespace origin (Some namespace)); simpl; [|eauto].
  destruct (is_public namespace); eauto.
Qed.

Lemma visit_origin_namespaces_public vo_name items acc :
  exists acc',
    visit_origin_namespaces topology origin_resource true vo_name items acc = Ok acc'
    /\ id_to_paths acc' = id_to_paths acc
    /\ o_id_to_str acc' = o_id_to_str acc
    /\ o_warnings acc' = o_warnings acc.
Proof.
  revert acc. induction items as [|[path namespace] rest IH]; intros acc; simpl; [eauto|].
  destruct (visit_origin_namespace_public vo_name path namespace acc)
    as [acc1 [Hv [H1 [H2 H3]]]].
  rewrite Hv. simpl. destruct (IH acc1) as [acc2 [Hv2 [H4 [H5 H6]]]].
  exists acc2. repeat split; congruence.
Qed.

Lemma visit_origin_stashcaches_public items acc :
  exists acc',
    visit_origin_stashcaches topology origin_resource true items acc = Ok acc'
    /\ id_to_paths acc' = id_to_paths acc
    /\ o_id_to_str acc' = o_id_to_str acc
    /\ o_warnings acc' = o_warnings acc.
Proof.
  revert acc. induction items as [|[vo sc] rest IH]; intros acc; simpl; [eauto|].
  destruct (visit_origin_namespaces_public vo (namespaces sc) acc)
    as [acc1 [Hv [H1 [H2 H3]]]].
  rewrite Hv. simpl. destruct (IH acc1) as [acc2 [Hv2 [H4 [H5 H6]]]].
  exists acc2. repeat split; congruence.
Qed.

End PublicOrigin.

(** C7.  In [public_origin] mode, once the node lookup is behind, the loops
    of [generate_origin_authfile] end normally.  With a non-empty set of
    public paths the text is made of the warnings, then the comment and
    identity line of every DN identity, then an empty line and the [u *]
    line, which lists the sorted public paths with the token [lr] and is the
    last line.  With an empty set there is no [u *] line and no empty line:
    the call ends in [DataError].  A failed lookup ends the call before any
    line is made: with the exception of the lookup, or with the empty text. *)
Theorem origin_public_paths_last {ext : Externals}
    (global_data : Stashcache.GlobalData) (fqdn : option string)
    (suppress_errors : bool) :
  (forall resource,
      Stashcache.origin_target global_data fqdn suppress_errors resource ->
      exists acc,
        Stashcache.visit_origin_stashcaches (Stashcache.get_topology global_data)
          resource true
          (VosData.stashcache_by_vo_name (Stashcache.get_vos_data global_data))
          (Stashcache.mkOriginAcc [] [] [] []) = Ok acc
        /\ Sorted (fun a b => String.leb a b = true)
                  (Py.sorted (Stashcache.public_paths acc))
        /\ Permutation (Stashcache.public_paths acc)
                       (Py.sorted (Stashcache.public_paths acc))
        /\ match Stashcache.public_paths acc with
           | [] =>
               Stashcache.generate_origin_authfile global_data fqdn suppress_errors
                 true
               = Raise (DataError "Origin does not support any namespaces")
           | _ :: _ =>
               exists id_lines,
                 Stashcache.identity_lines (Stashcache.id_to_paths acc)
                   (Stashcache.o_id_to_str acc) = Ok id_lines
                 /\ Stashcache.generate_origin_authfile global_data fqdn
                      suppress_errors true
                    = Ok (Py.join LF
                            (Stashcache.o_warnings acc ++ id_lines
                             ++ [""; Stashcache.public_line
                                       (Stashcache.public_paths acc)])%list
                          ++ LF)
                 /\ Stashcache.public_line (Stashcache.public_paths acc)
                    = "u * " ++ Py.join " "
                                  (map (fun p => p ++ " lr")
                                       (Py.sorted (Stashcache.public_paths acc)))
           end)
  /\ (forall f e,
         Stashcache.given fqdn = Some f ->
         Stashcache._get_origin_resource fqdn (Stashcache.get_topology global_data)
           suppress_errors = Raise e ->
         Stashcache.generate_origin_authfile global_data fqdn suppress_errors true
         = Raise e)
  /\ (forall f,
         Stashcache.given fqdn = Some f ->
         Stashcache._get_origin_resource fqdn (Stashcache.get_topology global_data)
           suppress_errors = Ok None ->
         Stashcache.generate_origin_authfile global_data fqdn suppress_errors true
         = Ok "").
Proof.
  split; [|split].
  - intros resource Htarget.
    destruct (visit_origin_stashcaches_public (Stashcache.get_topology global_data)
                resource
                (VosData.stashcache_by_vo_name (Stashcache.get_vos_data global_data))
                (Stashcache.mkOriginAcc [] [] [] []))
      as [acc [Hrun [Hids [Hstr Hwarn]]]].
    simpl in Hids, Hstr, Hwarn.
    exists acc. split; [exact Hrun|]. split; [apply sorted_sorted|].
    split; [apply sorted_perm|].
    assert (Hgen : Stashcache.generate_origin_authfile global_data fqdn
                     suppress_errors true
                   = match Stashcache.id_to_paths acc, Stashcache.public_paths acc with
                     | [], [] => Raise (DataError "Origin does not support any namespaces")
                     | _, _ =>
                         id_lines <- Stashcache.identity_lines
                                       (Stashcache.id_to_paths acc)
                                       (Stashcache.o_id_to_str acc) ;;
                         Ok (Py.join LF
                               (Stashcache.o_warnings acc ++ id_lines
                                ++ Stashcache.public_block true
                                     (Stashcache.public_paths acc))%list ++ LF)
                     end).
    { unfold Stashcache.generate_origin_authfile, Stashcache.origin_target in *.
      destruct (Stashcache.given fqdn) as [f|].
      - destruct Htarget as [r [-> ->]]. unfold bind at 1. now rewrite Hrun.
      - subst resource. now rewrite Hrun. }
    rewrite Hgen, Hids. destruct (Stashcache.public_paths acc) as [|p pp]; [reflexivity|].
    exists []. repeat split.
  - intros f e Hf Hlook. unfold Stashcache.generate_origin_authfile.
    now rewrite Hf, Hlook.
  - intros f Hf Hlook. unfold Stashcache.generate_origin_authfile.
    now rewrite Hf, Hlook.
Qed.

(** The registered origin and a registry whose only namespace is public. *)
Lemma origin_public_paths_last_witness :
  Stashcache.generate_origin_authfile (ext := Fixtures.externals)
    Fixtures.gd_public (Some "origin1.example.org") false true
  = Ok (LF ++ "u * /public lr" ++ LF).
Proof.
  destruct (@origin_public_paths_last Fixtures.externals Fixtures.gd_public
              (Some "origin1.example.org") false) as [Htarget _].
  destruct (Htarget (Some Fixtures.origin1)) as [acc [Hrun [_ [_ Hgen]]]].
  - simpl. exists Fixtures.origin1. split; reflexivity.
  - vm_compute in Hrun. inversion Hrun; subst acc.
    destruct Hgen as [id_lines [Hlines [Hgen _]]].
    vm_compute in Hlines. inversion Hlines; subst id_lines.
    rewrite Hgen. reflexivity.
Defined.

(** *** Loading a list-shape document *)

Section LoadLoop.

Variables St NS : Type.
Variable nss : St -> list (string * NS).
Variable errs : St -> list string.
Variable vo_of : St -> string.
Variable ns_vo : NS -> string.
Variable wf : Yaml -> bool.
Variable declared : string -> string -> Yaml -> NS -> Prop.
Variable step : nat -> Yaml -> St -> result St.
Variable loop : nat -> list Yaml -> St -> result St.

Hypothesis loop_nil : forall idx st, loop idx [] st = Ok st.
Hypothesis loop_cons : forall idx y rest st,
    loop idx (y :: rest) st = bind (step idx y st) (loop (S idx) rest).
Hypothesis step_returns : forall idx y st,
    wf y = true -> exists st', step idx y st = Ok st'.
Hypothesis step_ok : forall idx y st st',
    step idx y st = Ok st' ->
    step_outcome nss errs vo_of ns_vo declared idx y st st'.

Lemma step_keeps idx y st st' p ns :
  step_outcome nss errs vo_of ns_vo declared idx y st st' ->
  Py.dict_get (nss st) p = Some ns -> Py.dict_get (nss st') p = Some ns.
Proof.
  intros [_ [_ Hout]] Hp. destruct (entry_path y) as [q|]; [|now rewrite Hout].
  destruct (Py.dict_get (nss st) q) as [orig|] eqn:Hq.
  - destruct Hout as [-> _]. assumption.
  - destruct Hout as [ns' [_ [_ ->]]]. rewrite dict_get_set_neq; [assumption|].
    intros ->. congruence.
Qed.

Lemma step_leaves_absent idx y st st' p :
  step_outcome nss errs vo_of ns_vo declared idx y st st' ->
  Py.dict_get (nss st) p = None -> entry_path y <> Some p ->
  Py.dict_get (nss st') p = None.
Proof.
  intros [_ [_ Hout]] Hp Hy. destruct (entry_path y) as [q|]; [|now rewrite Hout].
  destruct (Py.dict_get (nss st) q) as [orig|] eqn:Hq.
  - destruct Hout as [-> _]. assumption.
  - destruct Hout as [ns' [_ [_ ->]]]. rewrite dict_get_set_neq; [assumption|].
    intros ->. now apply Hy.
Qed.

(** The loop returns on well-typed entries. *)
Lemma loop_returns entries : forall idx st,
  forallb wf entries = true -> exists st', loop idx entries st = Ok st'.
Proof.
  induction entries as [|y rest IH]; intros idx st Hwf.
  - exists st. apply loop_nil.
  - simpl in Hwf. apply andb_true_iff in Hwf. destruct Hwf as [Hy Hrest].
    destruct (step_returns idx st Hy) as [st1 Hstep].
    destruct (IH (S idx) st1 Hrest) as [st2 Hloop].
    exists st2. now rewrite loop_cons, Hstep.
Qed.

(** One turn of a loop that returned. *)
Lemma loop_cons_ok idx y rest st st' :
  loop idx (y :: rest) st = Ok st' ->
  exists st1, step idx y st = Ok st1 /\ loop (S idx) rest st1 = Ok st'.
Proof.
  rewrite loop_cons. destruct (step idx y st) as [st1|e]; [|discriminate].
  intros Hloop. now exists st1.
Qed.

(** A loop that returned kept the VO name, every error and every stored
    namespace. *)
Lemma loop_keeps entries : forall idx st st',
  loop idx entries st = Ok st' ->
  vo_of st' = vo_of st
  /\ incl (errs st) (errs st')
  /\ forall p ns, Py.dict_get (nss st) p = Some ns -> Py.dict_get (nss st') p = Some ns.
Proof.
  induction entries as [|y rest IH]; intros idx st st' Hloop.
  - rewrite loop_nil in Hloop. inversion Hloop; subst.
    repeat split; auto. apply incl_refl.
  - apply loop_cons_ok in Hloop. destruct Hloop as [st1 [Hstep Hloop]].
    apply step_ok in Hstep. destruct (IH _ _ _ Hloop) as [Hvo [Hincl Hkeep]].
    assert (Hout := Hstep). destruct Hout as [Hvo1 [Hincl1 _]].
    split; [congruence|]. split; [eapply incl_tran; eauto|].
    intros p ns Hp. apply Hkeep. eapply step_keeps; eauto.
Qed.

(** A path already present keeps its namespace, and each later entry that
    declares it again is reported with the VO of the namespace in place. *)
Lemma loop_reports_duplicate entries : forall idx st st' j yj p ns,
  loop idx entries st = Ok st' ->
  Py.dict_get (nss st) p = Some ns ->
  nth_error entries j = Some yj ->
  entry_path yj = Some p ->
  Py.dict_get (nss st') p = Some ns
  /\ In (redefining (idx + j) p (ns_vo ns)) (errs st').
Proof.
  induction entries as [|y rest IH]; intros idx st st' j yj p ns Hloop Hp Hj Hyj.
  - destruct j; discriminate.
  - apply loop_cons_ok in Hloop. destruct Hloop as [st1 [Hstep Hloop]].
    apply step_ok in Hstep.
    assert (Hp1 : Py.dict_get (nss st1) p = Some ns) by (eapply step_keeps; eauto).
    destruct j as [|j]; simpl in Hj.
    + inversion Hj; subst y.
      destruct (@loop_keeps rest (S idx) st1 st' Hloop) as [_ [Hincl Hkeep]].
      split; [now apply Hkeep|].
      destruct Hstep as [_ [_ Hout]]. rewrite Hyj, Hp in Hout.
      destruct Hout as [_ Herr]. apply Hincl. now rewrite Nat.add_0_r.
    + destruct (IH (S idx) st1 st' j yj p ns Hloop Hp1 Hj Hyj) as [Hget Herr].
      split; [assumption|]. now rewrite Nat.add_succ_r.
Qed.

(** The first declaration of a path is the one stored; a later one is
    reported. *)
Lemma loop_first_wins entries : forall idx st st' i j yi yj p,
  loop idx entries st = Ok st' ->
  Py.dict_get (nss st) p = None ->
  nth_error entries i = Some yi ->
  nth_error entries j = Some yj ->
  i < j ->
  entry_path yi = Some p ->
  entry_path yj = Some p ->
  (forall k yk, k < i -> nth_error entries k = Some yk -> entry_path yk <> Some p) ->
  exists ns,
    Py.dict_get (nss st') p = Some ns
    /\ declared (vo_of st) p yi ns
    /\ In (redefining (idx + j) p (vo_of st)) (errs st').
Proof.
  induction entries as [|y rest IH];
    intros idx st st' i j yi yj p Hloop Hp Hi Hj Hij Hyi Hyj Hfirst.
  - destruct i; discriminate.
  - apply loop_cons_ok in Hloop. destruct Hloop as [st1 [Hstep Hloop]].
    apply step_ok in Hstep.
    destruct j as [|j]; [lia|]. simpl in Hj.
    destruct i as [|i]; simpl in Hi.
    + inversion Hi; subst y.
      assert (Hout := Hstep). destruct Hout as [Hvo1 [_ Hcase]].
      rewrite Hyi, Hp in Hcase. destruct Hcase as [ns [Hdecl [Hnsvo Hnss]]].
      assert (Hp1 : Py.dict_get (nss st1) p = Some ns)
        by (rewrite Hnss; apply dict_get_set_eq).
      destruct (@loop_reports_duplicate rest (S idx) st1 st' j yj p ns Hloop Hp1 Hj Hyj)
        as [Hget Herr].
      exists ns. split; [assumption|]. split; [assumption|].
      rewrite Nat.add_succ_r. now rewrite <- Hnsvo.
    + assert (Hy0 : entry_path y <> Some p)
        by (apply (Hfirst 0); [lia | reflexivity]).
      assert (Hp1 : Py.dict_get (nss st1) p = None)
        by (eapply step_leaves_absent; eauto).
      destruct (IH (S idx) st1 st' i j yi yj p Hloop Hp1 Hi Hj) as [ns [Hget [Hdecl Herr]]];
        try assumption; try lia.
      { intros k yk Hk Hnth. apply (Hfirst (S k)); [lia | exact Hnth]. }
      destruct Hstep as [Hvo1 _].
      exists ns. split; [assumption|].
      rewrite Hvo1 in Hdecl, Herr. split; [assumption|].
      now rewrite Nat.add_succ_r.
Qed.

End LoadLoop.

Lemma incl_set_add (e : string) (l : list string) : incl l (Py.set_add e l).
Proof. intros x Hx. apply in_set_add. now left. Qed.

Section VosLoad.
Context {ext : Externals}.
Import VosData.

Lemma vos_parse_authz_items_incl path items : forall acc errs l errs',
  parse_authz_items path items acc errs = Ok (l, errs') -> incl errs errs'.
Proof.
  induction items as [|y rest IH]; intros acc errs l errs'; simpl.
  - intros Hrun. inversion Hrun; subst. apply incl_refl.
  - destruct (parse_authz y) as [[parsed err]|e]; [|discriminate]. simpl.
    destruct (err_truthy err).
    + intros Hrun. apply IH in Hrun.
      eapply incl_tran; [apply incl_set_add | eassumption].
    + destruct (is_public_auth parsed).
      * intros Hrun. inversion Hrun; subst. apply incl_refl.
      * apply IH.
Qed.

Lemma vos_parse_authz_items_return path items : forall acc errs,
  forallb authz_item_ok items = true ->
  exists l errs',
    parse_authz_items path items acc errs = Ok (l, errs') /\ incl errs errs'.
Proof.
  induction items as [|y rest IH]; intros acc errs Hok; simpl.
  - exists acc, errs. split; [reflexivity | apply incl_refl].
  - simpl in Hok. apply andb_true_iff in Hok. destruct Hok as [Hy Hrest].
    unfold authz_item_ok in Hy.
    destruct (parse_authz y) as [[parsed err]|e]; [|discriminate]. simpl.
    destruct (err_truthy err).
    + destruct (IH acc (Py.set_add ("Namespace " ++ path ++ ": " ++ err_text err) errs)
                  Hrest) as [l [errs' [Hrun Hincl]]].
      exists l, errs'. split; [assumption|].
      eapply incl_tran; [apply incl_set_add | eassumption].
    + destruct (is_public_auth parsed).
      * exists [parsed], errs. split; [reflexivity | apply incl_refl].
      * apply IH. assumption.
Qed.

Lemma vos_step_returns idx y st :
  wf_entry y = true -> exists st', load_new_entry idx y st = Ok st'.
Proof.
  unfold wf_entry, load_new_entry.
  destruct y as [| | | |l|d]; try discriminate.
  cbn [py_contains py_getitem py_get bind]. unfold Py.dict_mem.
  destruct (Py.dict_get d "Path") as [v|] eqn:Hpath; cbn [negb bind]; [|eauto].
  destruct v as [| | |p| |]; try discriminate.
  intros Hwf. apply andb_true_iff in Hwf. destruct Hwf as [Hwf Hcaches].
  apply andb_true_iff in Hwf. destruct Hwf as [Hauthz Horigins].
  cbn [as_key as_str bind].
  destruct (Py.dict_get (namespaces st) p) as [orig|]; [eauto|].
  unfold parse_authz_list.
  destruct (py_iter (get_default d "Authorizations" (YList []))) as [items|e];
    [|discriminate].
  destruct (vos_parse_authz_items_return p items [] (errors st) Hauthz)
    as [l [errs' [Hrun _]]].
  cbn [bind]. rewrite Hrun. cbn [bind].
  unfold str_list_ok in Horigins, Hcaches.
  destruct (as_str_list (get_default d "AllowedOrigins" (YList []))); [|discriminate].
  destruct (as_str_list (get_default d "AllowedCaches" (YList []))); [|discriminate].
  cbn [bind]. eauto.
Qed.

Lemma vos_no_path_outcome idx y st :
  entry_path y = None ->
  step_outcome namespaces errors sc_vo_name vo_name declared idx y st
    (add_error st ("Namespace #" ++ Py.str_of_nat idx ++ ": No Path")).
Proof.
  intros Hy. unfold step_outcome. rewrite Hy. simpl.
  split; [reflexivity|]. split; [apply incl_set_add | reflexivity].
Qed.

Lemma vos_step_ok idx y st st' :
  load_new_entry idx y st = Ok st' ->
  step_outcome namespaces errors sc_vo_name vo_name declared idx y st st'.
Proof.
  unfold load_new_entry.
  destruct y as [| | |s|l|d]; cbn [py_contains bind]; try discriminate.
  - destruct (Py.contains "Path" s); cbn [negb py_getitem bind]; [discriminate|].
    intros Hst. inversion Hst; subst. now apply vos_no_path_outcome.
  - destruct (existsb _ l); cbn [negb py_getitem bind]; [discriminate|].
    intros Hst. inversion Hst; subst. now apply vos_no_path_outcome.
  - unfold Py.dict_mem.
    destruct (Py.dict_get d "Path") as [v|] eqn:Hpath; cbn [negb py_getitem bind].
    + rewrite Hpath. cbn [bind].
      destruct v as [| | |p| |]; cbn [as_key as_str bind]; try discriminate.
      unfold step_outcome, entry_path. rewrite Hpath.
      destruct (Py.dict_get (namespaces st) p) as [orig|] eqn:Hp.
      * intros Hst. inversion Hst; subst. simpl.
        split; [reflexivity|]. split; [apply incl_set_add|]. split; [reflexivity|].
        apply in_set_add. now right.
      * cbn [py_get bind].
        destruct (parse_authz_list (errors st) p (get_default d "Authorizations" (YList [])))
          as [[l errs']|e] eqn:Hparse; cbn [bind]; [|discriminate].
        destruct (as_str_list (get_default d "AllowedOrigins" (YList []))) as [origins|e]
          eqn:Ho; cbn [bind]; [|discriminate].
        destruct (as_str_list (get_default d "AllowedCaches" (YList []))) as [caches|e]
          eqn:Hc; cbn [bind]; [|discriminate].
        intros Hst. inversion Hst; subst. simpl.
        split; [reflexivity|]. split.
        { unfold parse_authz_list in Hparse.
          destruct (py_iter (get_default d "Authorizations" (YList []))) as [items|e];
            [|discriminate].
          eapply vos_parse_authz_items_incl. exact Hparse. }
        exists (mkNamespace p (sc_vo_name st) origins caches l
                  (get_default d "Writeback" YNone) (get_default d "DirList" YNone)).
        split; [|split; reflexivity].
        exists d, (errors st), errs'. simpl. repeat split; assumption.
    + intros Hst. inversion Hst; subst. apply vos_no_path_outcome.
      unfold entry_path. now rewrite Hpath.
Qed.

End VosLoad.

Section DataFederationLoad.
Context {ext : Externals}.
Import DataFederation.

Lemma df_parse_authz_items_incl path items : forall acc errs l errs',
  parse_authz_items path items acc errs = Ok (l, errs') -> incl errs errs'.
Proof.
  induction items as [|y rest IH]; intros acc errs l errs'; simpl.
  - intros Hrun. inversion Hrun; subst. apply incl_refl.
  - destruct (parse_authz y) as [[parsed err]|e]; [|discriminate]. simpl.
    destruct (err_truthy err).
    + intros Hrun. apply IH in Hrun.
      eapply incl_tran; [apply incl_set_add | eassumption].
    + apply IH.
Qed.

Lemma df_parse_authz_items_return path items : forall acc errs,
  forallb authz_item_ok items = true ->
  exists l errs', parse_authz_items path items acc errs = Ok (l, errs').
Proof.
  induction items as [|y rest IH]; intros acc errs Hok; simpl.
  - eauto.
  - simpl in Hok. apply andb_true_iff in Hok. destruct Hok as [Hy Hrest].
    unfold authz_item_ok in Hy.
    destruct (parse_authz y) as [[parsed err]|e]; [|discriminate]. simpl.
    destruct (err_truthy err); now apply IH.
Qed.

Lemma df_step_returns idx y st :
  wf_entry y = true -> exists st', load_new_entry idx y st = Ok st'.
Proof.
  unfold wf_entry, load_new_entry.
  destruct y as [| | | |l|d]; try discriminate.
  cbn [py_contains py_getitem py_get bind]. unfold Py.dict_mem.
  destruct (Py.dict_get d "Path") as [v|] eqn:Hpath; cbn [negb bind]; [|eauto].
  destruct v as [| | |p| |]; try discriminate.
  intros Hwf. apply andb_true_iff in Hwf. destruct Hwf as [Hwf Hcaches].
  apply andb_true_iff in Hwf. destruct Hwf as [Hwf Horigins].
  apply andb_true_iff in Hwf. destruct Hwf as [Hauthz Hcg].
  cbn [as_key as_str bind].
  destruct (Py.dict_get (namespaces st) p) as [orig|]; [eauto|].
  unfold parse_authz_list.
  destruct (py_iter (get_default d "Authorizations" (YList []))) as [items|e];
    [|discriminate].
  destruct (df_parse_authz_items_return p items [] (errors st) Hauthz)
    as [l [errs' Hrun]].
  cbn [bind]. rewrite Hrun. cbn [bind].
  unfold str_list_ok in Horigins, Hcaches.
  destruct (as_str_list (get_default d "AllowedOrigins" (YList []))); [|discriminate].
  destruct (as_str_list (get_default d "AllowedCaches" (YList []))); [|discriminate].
  unfold credential_generation_ok in Hcg.
  destruct (Py.dict_get d "CredentialGeneration") as [cg|]; cbn [bind]; [|eauto].
  destruct (read_credential_generation cg) as [c|e]; [|discriminate].
  cbn [bind].
  destruct (validate c) as [[|e0 es]|e]; try discriminate.
  cbn [bind]. eauto.
Qed.

Lemma df_no_path_outcome idx y st :
  entry_path y = None ->
  step_outcome namespaces errors sc_vo_name vo_name declared idx y st
    (add_error st ("Namespace #" ++ Py.str_of_nat idx ++ ": No Path")).
Proof.
  intros Hy. unfold step_outcome. rewrite Hy. simpl.
  split; [reflexivity|]. split; [apply incl_set_add | reflexivity].
Qed.

Lemma df_step_ok idx y st st' :
  load_new_entry idx y st = Ok st' ->
  step_outcome namespaces errors sc_vo_name vo_name declared idx y st st'.
Proof.
  unfold load_new_entry.
  destruct y as [| | |s|l|d]; cbn [py_contains bind]; try discriminate.
  - destruct (Py.contains "Path" s); cbn [negb py_getitem bind]; [discriminate|].
    intros Hst. inversion Hst; subst. now apply df_no_path_outcome.
  - destruct (existsb _ l); cbn [negb py_getitem bind]; [discriminate|].
    intros Hst. inversion Hst; subst. now apply df_no_path_outcome.
  - unfold Py.dict_mem.
    destruct (Py.dict_get d "Path") as [v|] eqn:Hpath; cbn [negb py_getitem bind].
    + rewrite Hpath. cbn [bind].
      destruct v as [| | |p| |]; cbn [as_key as_str bind]; try discriminate.
      unfold step_outcome, entry_path. rewrite Hpath.
      destruct (Py.dict_get (namespaces st) p) as [orig|] eqn:Hp.
      * intros Hst. inversion Hst; subst. simpl.
        split; [reflexivity|]. split; [apply incl_set_add|]. split; [reflexivity|].
        apply in_set_add. now right.
      * cbn [py_get bind].
        destruct (parse_authz_list (errors st) p (get_default d "Authorizations" (YList [])))
          as [[l errs']|e] eqn:Hparse; cbn [bind]; [|discriminate].
        assert (Hincl : incl (errors st) errs').
        { unfold parse_authz_list in Hparse.
          destruct (py_iter (get_default d "Authorizations" (YList []))) as [items|e];
            [|discriminate].
          eapply df_parse_authz_items_incl. exact Hparse. }
        destruct (Py.dict_get d "CredentialGeneration") as [cg|] eqn:Hcgv; cbn [bind].
        -- destruct (read_credential_generation cg) as [c|e] eqn:Hread; cbn [bind];
             [|discriminate].
           destruct (validate c) as [[|e0 es]|e] eqn:Hval; cbn [bind]; try discriminate.
           destruct (as_str_list (get_default d "AllowedOrigins" (YList [])))
             as [origins|e] eqn:Ho; cbn [bind]; [|discriminate].
           destruct (as_str_list (get_default d "AllowedCaches" (YList [])))
             as [caches|e] eqn:Hc; cbn [bind]; [|discriminate].
           intros Hst. inversion Hst; subst. simpl.
           split; [reflexivity|]. split; [assumption|].
           exists (mkNamespace p (sc_vo_name st) origins caches l
                     (get_default d "Writeback" YNone) (get_default d "DirList" YNone)
                     (Some c)).
           split; [|split; reflexivity].
           exists d, (errors st), errs'. simpl. rewrite Hcgv.
           repeat split; try assumption.
           exists c. repeat split; assumption.
        -- destruct (as_str_list (get_default d "AllowedOrigins" (YList [])))
             as [origins|e] eqn:Ho; cbn [bind]; [|discriminate].
           destruct (as_str_list (get_default d "AllowedCaches" (YList [])))
             as [caches|e] eqn:Hc; cbn [bind]; [|discriminate].
           intros Hst. inversion Hst; subst. simpl.
           split; [reflexivity|]. split; [assumption|].
           exists (mkNamespace p (sc_vo_name st) origins caches l
                     (get_default d "Writeback" YNone) (get_default d "DirList" YNone)
                     None).
           split; [|split; reflexivity].
           exists d, (errors st), errs'. simpl. rewrite Hcgv.
           repeat split; assumption.
    + intros Hst. inversion Hst; subst. apply df_no_path_outcome.
      unfold entry_path. now rewrite Hpath.
Qed.

End DataFederationLoad.

(** C9 (as amended).  For both loaders and every list-shape document in
    which entry [i] is the first to declare the path [p] and a later entry
    [j] declares it again: a load that returns holds for [p] the namespace
    that entry [i] declares, and its error set holds the message of entry
    [j], which names [p] and the VO of the first declaration.  The load does
    return when the entries are well typed (for [data_federation.py]: and
    the [CredentialGeneration] blocks, if any, validate); on other documents
    it can end in an exception. *)
Theorem duplicate_path_first_wins {ext : Externals}
    (vo : string) (yaml_data : Yaml) (entries : list Yaml) (i j : nat)
    (yi yj : Yaml) (p : string) :
  py_getitem yaml_data "Namespaces" = Ok (YList entries) ->
  nth_error entries i = Some yi ->
  nth_error entries j = Some yj ->
  i < j ->
  entry_path yi = Some p ->
  entry_path yj = Some p ->
  (forall k yk, k < i -> nth_error entries k = Some yk -> entry_path yk <> Some p) ->
  ((forallb VosData.wf_entry entries = true ->
    exists st,
      VosData.load_new_yaml (VosData.mkStashCache vo [] []) yaml_data = Ok st)
   /\ (forall st,
         VosData.load_new_yaml (VosData.mkStashCache vo [] []) yaml_data = Ok st ->
         exists namespace,
           Py.dict_get (VosData.namespaces st) p = Some namespace
           /\ VosData.declared vo p yi namespace
           /\ In ("Namespace #" ++ Py.str_of_nat j ++ ": Redefining " ++ p
                  ++ "; original was defined in " ++ vo) (VosData.errors st)))
  /\ ((forallb DataFederation.wf_entry entries = true ->
       exists st,
         DataFederation.load_new_yaml (DataFederation.mkStashCache vo [] []) yaml_data
         = Ok st)
      /\ (forall st,
            DataFederation.load_new_yaml (DataFederation.mkStashCache vo [] [])
              yaml_data = Ok st ->
            exists namespace,
              Py.dict_get (DataFederation.namespaces st) p = Some namespace
              /\ DataFederation.declared vo p yi namespace
              /\ In ("Namespace #" ++ Py.str_of_nat j ++ ": Redefining " ++ p
                     ++ "; original was defined in " ++ vo)
                    (DataFederation.errors st))).
Proof.
  intros Hdoc Hi Hj Hij Hyi Hyj Hfirst.
  unfold VosData.load_new_yaml, DataFederation.load_new_yaml. rewrite Hdoc.
  cbn [bind py_iter].
  split; split.
  - intros Hwf.
    exact (@loop_returns VosData.StashCache VosData.wf_entry
             VosData.load_new_entry VosData.load_new_entries
             (fun _ _ => eq_refl) (fun _ _ _ _ => eq_refl) vos_step_returns
             entries 0 (VosData.mkStashCache vo [] []) Hwf).
  - intros st Hload.
    exact (@loop_first_wins VosData.StashCache VosData.Namespace
             VosData.namespaces VosData.errors VosData.sc_vo_name VosData.vo_name
             VosData.declared VosData.load_new_entry VosData.load_new_entries
             (fun _ _ => eq_refl) (fun _ _ _ _ => eq_refl) vos_step_ok
             entries 0 (VosData.mkStashCache vo [] []) st i j yi yj p
             Hload eq_refl Hi Hj Hij Hyi Hyj Hfirst).
  - intros Hwf.
    exact (@loop_returns DataFederation.StashCache DataFederation.wf_entry
             DataFederation.load_new_entry DataFederation.load_new_entries
             (fun _ _ => eq_refl) (fun _ _ _ _ => eq_refl) df_step_returns
             entries 0 (DataFederation.mkStashCache vo [] []) Hwf).
  - intros st Hload.
    exact (@loop_first_wins DataFederation.StashCache DataFederation.Namespace
             DataFederation.namespaces DataFederation.errors
             DataFederation.sc_vo_name DataFederation.vo_name
             DataFederation.declared
             DataFederation.load_new_entry DataFederation.load_new_entries
             (fun _ _ => eq_refl) (fun _ _ _ _ => eq_refl) df_step_ok
             entries 0 (DataFederation.mkStashCache vo [] []) st i j yi yj p
             Hload eq_refl Hi Hj Hij Hyi Hyj Hfirst).
Qed.

(** The document that declares [/a] twice, loaded for the VO [OSG]. *)
Lemma duplicate_path_first_wins_witness :
  exists st namespace,
    VosData.load_new_yaml (ext := Fixtures.externals)
      (VosData.mkStashCache "OSG" [] [])
      (YDict [("Namespaces", YList Fixtures.entries_duplicate)]) = Ok st
    /\ Py.dict_get (VosData.namespaces st) "/a" = Some namespace
    /\ VosData.authz_list namespace = [PublicAuth]
    /\ In "Namespace #1: Redefining /a; original was defined in OSG"
          (VosData.errors st).
Proof.
  destruct (@duplicate_path_first_wins Fixtures.externals "OSG"
              (YDict [("Namespaces", YList Fixtures.entries_duplicate)])
              Fixtures.entries_duplicate 0 1
              (YDict [("Path", YStr "/a"); ("Authorizations", YList [YStr "PUBLIC"]);
                      ("AllowedCaches", YList [YStr "ANY"])])
              (YDict [("Path", YStr "/a");
                      ("Authorizations", YList [YStr "FQAN:/other"])])
              "/a" eq_refl eq_refl eq_refl) as [[Hreturns Hfirst] _];
    [lia | reflexivity | reflexivity | intros k yk Hk; lia |].
  destruct (Hreturns eq_refl) as [st Hload].
  destruct (Hfirst st Hload) as [namespace [Hget [Hdecl Herr]]].
  exists st, namespace. split; [exact Hload|]. split; [exact Hget|].
  split; [|exact Herr].
  destruct Hdecl as [d [errs [errs' [Hd [_ [_ [Hauthz _]]]]]]].
  inversion Hd; subst d. vm_compute in Hauthz. now inversion Hauthz.
Defined.

(** C9 (as stated) fails: a document that declares [/a] twice, with the
    [Authorizations] of the first declaration null, makes both loaders end in
    [TypeError] at the loop over the authorizations; nothing is stored and
    no error is recorded. *)
Lemma duplicate_path_load_raises :
  nth_error Fixtures.entries_duplicate_null 0
  = Some (YDict [("Path", YStr "/a"); ("Authorizations", YNone)])
  /\ entry_path (YDict [("Path", YStr "/a"); ("Authorizations", YNone)]) = Some "/a"
  /\ nth_error Fixtures.entries_duplicate_null 1
     = Some (YDict [("Path", YStr "/a"); ("Authorizations", YList [YStr "PUBLIC"])])
  /\ entry_path (YDict [("Path", YStr "/a");
                        ("Authorizations", YList [YStr "PUBLIC"])]) = Some "/a"
  /\ VosData.load_new_yaml (ext := Fixtures.externals)
       (VosData.mkStashCache "OSG" [] [])
       (YDict [("Namespaces", YList Fixtures.entries_duplicate_null)])
     = Raise TypeError
  /\ DataFederation.load_new_yaml (ext := Fixtures.externals)
       (DataFederation.mkStashCache "OSG" [] [])
       (YDict [("Namespaces", YList Fixtures.entries_duplicate_null)])
     = Raise TypeError
  /\ ~ (exists st,
          VosData.load_new_yaml (ext := Fixtures.externals)
            (VosData.mkStashCache "OSG" [] [])
            (YDict [("Namespaces", YList Fixtures.entries_duplicate_null)]) = Ok st).
Proof.
  repeat split. intros [st Hload]. discriminate Hload.
Qed.

(** *** Load errors and the registry of VOs *)

(** In [data_federation.py] a [CredentialGeneration] block that fails
    validation does not reach the error set: the load ends in [TypeError]. *)
Example credential_generation_errors_raise :
  DataFederation.load_new_yaml (ext := Fixtures.externals)
    (DataFederation.mkStashCache "OSG" [] [])
    Fixtures.doc_bad_credential_generation
  = Raise TypeError.
Proof. reflexivity. Qed.

(** C8 (as amended).  In a load of [vos_data.py], an authorization item
    that [parse_authz] rejects adds its error string to the error set and
    nothing to the list, and the loop goes on with the next item; a list of
    items that [parse_authz] answers makes no call raise.  [VOsData.add_vo]
    then returns normally on a list-shape document of well-typed entries,
    and, for a document of either shape, registers the loaded [StashCache]
    under the VO name only when its error set is empty: after any load error
    [stashcache_by_vo_name] is as before the call, so the generators see no
    namespace of that load. *)
Theorem add_vo_registers_clean_loads_only {ext : Externals} :
  (forall path y rest acc errs a err,
      VosData.parse_authz y = Ok (a, err) ->
      err_truthy err = true ->
      VosData.parse_authz_items path (y :: rest) acc errs
      = VosData.parse_authz_items path rest acc
          (Py.set_add ("Namespace " ++ path ++ ": " ++ VosData.err_text err) errs))
  /\ (forall path items acc errs,
         forallb VosData.authz_item_ok items = true ->
         exists l errs',
           VosData.parse_authz_items path items acc errs = Ok (l, errs')
           /\ incl errs errs')
  /\ (forall (self : VosData.VOsData) vo_name vo_data df stashcache_data entries,
         py_get vo_data "DataFederations" (YDict []) = Ok df ->
         py_get df "StashCache" YNone = Ok stashcache_data ->
         truthy stashcache_data = true ->
         is_null stashcache_data ["Namespaces"] = false ->
         py_getitem stashcache_data "Namespaces" = Ok (YList entries) ->
         forallb VosData.wf_entry entries = true ->
         exists stashcache_obj,
           VosData.new_StashCache vo_name stashcache_data = Ok stashcache_obj
           /\ VosData.add_vo self vo_name vo_data
              = (VosData.mkVOsData
                   (Py.dict_set (VosData.vos self) vo_name vo_data)
                   (match VosData.errors stashcache_obj with
                    | [] => Py.dict_set (VosData.stashcache_by_vo_name self)
                                        vo_name stashcache_obj
                    | _ :: _ => VosData.stashcache_by_vo_name self
                    end),
                 Ok tt))
  /\ (forall (self : VosData.VOsData) vo_name vo_data df stashcache_data,
         py_get vo_data "DataFederations" (YDict []) = Ok df ->
         py_get df "StashCache" YNone = Ok stashcache_data ->
         truthy stashcache_data = true ->
         VosData.stashcache_by_vo_name
           (fst (VosData.add_vo self vo_name vo_data))
         = match VosData.new_StashCache vo_name stashcache_data with
           | Ok stashcache_obj =>
               match VosData.errors stashcache_obj with
               | [] => Py.dict_set (VosData.stashcache_by_vo_name self)
                                   vo_name stashcache_obj
               | _ :: _ => VosData.stashcache_by_vo_name self
               end
           | Raise _ => VosData.stashcache_by_vo_name self
           end).
Proof.
  split; [|split; [|split]]; cycle 3.
  { intros self vo_name vo_data df stashcache_data Hdf Hsc Htruthy.
    unfold VosData.add_vo. rewrite Hdf. cbn [bind]. rewrite Hsc. cbn [bind].
    rewrite Htruthy.
    destruct (VosData.new_StashCache vo_name stashcache_data) as [obj|e]; cbn [bind].
    - now destruct (VosData.errors obj).
    - reflexivity. }
  - intros path y rest acc errs a err Hparse Herr. simpl.
    rewrite Hparse. simpl. now rewrite Herr.
  - intros path items acc errs. apply vos_parse_authz_items_return.
  - intros self vo_name vo_data df stashcache_data entries
           Hdf Hsc Htruthy Hnull Hnss Hwf.
    destruct (@loop_returns VosData.StashCache VosData.wf_entry
                VosData.load_new_entry VosData.load_new_entries
                (fun _ _ => eq_refl) (fun _ _ _ _ => eq_refl) vos_step_returns
                entries 0 (VosData.mkStashCache vo_name [] []) Hwf)
      as [obj Hload].
    assert (Hnew : VosData.new_StashCache vo_name stashcache_data = Ok obj).
    { unfold VosData.new_StashCache, VosData.load_yaml. rewrite Hnull, Hnss.
      cbn [bind]. unfold VosData.load_new_yaml. rewrite Hnss. exact Hload. }
    exists obj. split; [exact Hnew|].
    unfold VosData.add_vo. rewrite Hdf. cbn [bind]. rewrite Hsc. cbn [bind].
    rewrite Htruthy, Hnew. cbn [bind].
    now destruct (VosData.errors obj).
Qed.

(** The VO document with one good namespace and one bad authorization item,
    added to an empty [VOsData]. *)
Lemma add_vo_registers_clean_loads_only_witness :
  VosData.add_vo (ext := Fixtures.externals) (VosData.mkVOsData [] []) "OSG"
    Fixtures.vo_doc_bad_authz
  = (VosData.mkVOsData [("OSG", Fixtures.vo_doc_bad_authz)] [], Ok tt).
Proof.
  destruct (@add_vo_registers_clean_loads_only Fixtures.externals)
    as [_ [_ [Hadd _]]].
  destruct (Hadd (VosData.mkVOsData [] []) "OSG" Fixtures.vo_doc_bad_authz
              (YDict [("StashCache",
                       YDict [("Namespaces",
                               YList [YDict [("Path", YStr "/good");
                                             ("Authorizations", YList [YStr "PUBLIC"])];
                                      YDict [("Path", YStr "/bad");
                                             ("Authorizations", YList [YStr "BOGUS"])]])])])
              (YDict [("Namespaces",
                       YList [YDict [("Path", YStr "/good");
                                     ("Authorizations", YList [YStr "PUBLIC"])];
                              YDict [("Path", YStr "/bad");
                                     ("Authorizations", YList [YStr "BOGUS"])]])])
              [YDict [("Path", YStr "/good"); ("Authorizations", YList [YStr "PUBLIC"])];
               YDict [("Path", YStr "/bad"); ("Authorizations", YList [YStr "BOGUS"])]]
              eq_refl eq_refl eq_refl eq_refl eq_refl eq_refl)
    as [obj [Hnew Hadd']].
  vm_compute in Hnew. inversion Hnew; subst obj. exact Hadd'.
Defined.

(** C8 (as stated) fails: one authorization item that does not parse, and
    the well-formed namespace [/good] of the same VO is not available
    either, since the VO is not registered at all. *)
Lemma bad_authz_item_drops_whole_vo :
  let loaded :=
    VosData.add_vo (ext := Fixtures.externals) (VosData.mkVOsData [] []) "OSG"
      Fixtures.vo_doc_bad_authz in
  snd loaded = Ok tt
  /\ ~ (exists sc namespace,
           Py.dict_get (VosData.stashcache_by_vo_name (fst loaded)) "OSG" = Some sc
           /\ Py.dict_get (VosData.namespaces sc) "/good" = Some namespace).
Proof.
  cbv zeta. split; [reflexivity|].
  intros [sc [namespace [Hsc _]]]. discriminate Hsc.
Qed.

(* ================================================================== *)
(** ** Further properties: the parsers *)

Lemma set_add_not_nil (x : string) (l : list string) : Py.set_add x l <> [].
Proof.
  unfold Py.set_add. destruct (Py.mem x l) eqn:Hm.
  - intros ->. discriminate Hm.
  - destruct l; discriminate.
Qed.

Lemma answer_error (msg : string) :
  msg <> "" -> parse_answer_ok (NullAuth, Some msg).
Proof. intros Hmsg. left. split; [reflexivity|]. now exists msg. Qed.

Lemma answer_method (a : AuthMethod) :
  a <> NullAuth -> parse_answer_ok (a, None).
Proof. intros Ha. right. now split. Qed.

Ltac answer_tac :=
  first [ apply answer_error; simpl; discriminate
        | apply answer_method; discriminate ].

Section VosParserFacts.
Context {ext : Externals}.
Import VosData.

Lemma vos_parse_authz_str_answer (authz : string) :
  parse_answer_ok (_parse_authz_str authz).
Proof.
  unfold _parse_authz_str.
  destruct (Py.startswith authz "FQAN:").
  - destruct (String.eqb _ ""); answer_tac.
  - destruct (Py.startswith authz "DN:").
    + destruct generate_dn_hash; [destruct (String.eqb _ "")|]; answer_tac.
    + destruct (String.eqb _ "PUBLIC"); answer_tac.
Qed.

Lemma vos_parse_authz_scitokens_answer attributes authz r :
  _parse_authz_scitokens attributes authz = Ok r -> parse_answer_ok r.
Proof.
  unfold _parse_authz_scitokens.
  match goal with |- context [if ?c then _ else _] => destruct c end.
  - intros Hr. inversion Hr; subst. answer_tac.
  - destruct (as_str (get_default attributes "Issuer" YNone)); [|discriminate].
    destruct (as_str (get_default attributes "Base Path" YNone)); [|discriminate].
    destruct (as_opt_str (get_default attributes "Restricted Path" YNone));
      [|discriminate].
    cbn [bind]. intros Hr. inversion Hr; subst. answer_tac.
Qed.

Lemma vos_parse_authz_dict_answer authz r :
  _parse_authz_dict authz = Ok r -> parse_answer_ok r.
Proof.
  unfold _parse_authz_dict. destruct authz as [|[auth_type attributes] rest];
    [discriminate|].
  destruct (String.eqb auth_type "SciTokens").
  - destruct attributes as [| | | | |[|kv attrs]];
      try (intros Hr; inversion Hr; subst; answer_tac).
    apply vos_parse_authz_scitokens_answer.
  - destruct (String.eqb auth_type "FQAN").
    + destruct (negb (truthy attributes)).
      * intros Hr; inversion Hr; subst; answer_tac.
      * destruct (as_str attributes); [|discriminate]. cbn [bind].
        intros Hr; inversion Hr; subst; answer_tac.
    + destruct (String.eqb auth_type "DN").
      * destruct generate_dn_hash.
        -- destruct (negb (truthy attributes)).
           ++ intros Hr; inversion Hr; subst; answer_tac.
           ++ destruct (as_str attributes); [|discriminate]. cbn [bind].
              intros Hr; inversion Hr; subst; answer_tac.
        -- intros Hr; inversion Hr; subst; answer_tac.
      * intros Hr; inversion Hr; subst; answer_tac.
Qed.

Lemma vos_parse_authz_answer authz r :
  parse_authz authz = Ok r -> parse_answer_ok r.
Proof.
  unfold parse_authz. destruct authz;
    try (intros Hr; inversion Hr; subst; answer_tac).
  - intros Hr. inversion Hr; subst. apply vos_parse_authz_str_answer.
  - apply vos_parse_authz_dict_answer.
Qed.

End VosParserFacts.

Section DataFederationParserFacts.
Context {ext : Externals}.
Import DataFederation.

Lemma df_parse_authz_str_answer (authz : string) :
  parse_answer_ok (_parse_authz_str authz).
Proof.
  unfold _parse_authz_str.
  destruct (Py.startswith authz "FQAN:").
  - destruct (String.eqb _ ""); answer_tac.
  - destruct (Py.startswith authz "DN:").
    + destruct generate_dn_hash; [destruct (String.eqb _ "")|]; answer_tac.
    + destruct (String.eqb _ "PUBLIC"); answer_tac.
Qed.

Lemma df_parse_authz_scitokens_answer attributes authz r :
  _parse_authz_scitokens attributes authz = Ok r -> parse_answer_ok r.
Proof.
  unfold _parse_authz_scitokens.
  match goal with |- context [if ?c then _ else _] => destruct c end.
  - intros Hr. inversion Hr; subst. answer_tac.
  - destruct (as_str (get_default attributes "Issuer" YNone)); [|discriminate].
    destruct (as_str (get_default attributes "BasePath" _)); [|discriminate].
    destruct (as_opt_str (get_default attributes "RestrictedPath" _));
      [|discriminate].
    cbn [bind]. intros Hr. inversion Hr; subst. answer_tac.
Qed.

Lemma df_parse_authz_dict_answer authz r :
  _parse_authz_dict authz = Ok r -> parse_answer_ok r.
Proof.
  unfold _parse_authz_dict. destruct authz as [|[auth_type attributes] rest];
    [discriminate|].
  destruct (String.eqb auth_type "SciTokens").
  - destruct attributes as [| | | | |[|kv attrs]];
      try (intros Hr; inversion Hr; subst; answer_tac).
    apply df_parse_authz_scitokens_answer.
  - destruct (String.eqb auth_type "FQAN").
    + destruct (negb (truthy attributes)).
      * intros Hr; inversion Hr; subst; answer_tac.
      * destruct (as_str attributes); [|discriminate]. cbn [bind].
        intros Hr; inversion Hr; subst; answer_tac.
    + destruct (String.eqb auth_type "DN").
      * destruct generate_dn_hash.
        -- destruct (negb (truthy attributes)).
           ++ intros Hr; inversion Hr; subst; answer_tac.
           ++ destruct (as_str attributes); [|discriminate]. cbn [bind].
              intros Hr; inversion Hr; subst; answer_tac.
        -- intros Hr; inversion Hr; subst; answer_tac.
      * intros Hr; inversion Hr; subst; answer_tac.
Qed.

Lemma df_parse_authz_answer authz r :
  parse_authz authz = Ok r -> parse_answer_ok r.
Proof.
  unfold parse_authz. destruct authz;
    try (intros Hr; inversion Hr; subst; answer_tac).
  - intros Hr. inversion Hr; subst. apply df_parse_authz_str_answer.
  - apply df_parse_authz_dict_answer.
Qed.

End DataFederationParserFacts.

Lemma as_str_raises y e : as_str y = Raise e -> e = IllTyped.
Proof. destruct y; cbn; congruence. Qed.

Lemma as_opt_str_raises y e : as_opt_str y = Raise e -> e = IllTyped.
Proof. destruct y; cbn; congruence. Qed.

Ltac bind_raises H :=
  repeat match type of H with
         | bind ?c _ = Raise _ =>
             let Hc := fresh "Hc" in
             destruct c eqn:Hc; cbn [bind] in H;
             [ | inversion H; subst;
                 first [ now apply as_str_raises in Hc
                       | now apply as_opt_str_raises in Hc ] ]
         end; try discriminate H.

Lemma vos_scitokens_raises {ext : Externals} attrs authz e :
  VosData._parse_authz_scitokens attrs authz = Raise e -> e = IllTyped.
Proof.
  unfold VosData._parse_authz_scitokens. cbv zeta.
  match goal with |- (if ?b then _ else _) = _ -> _ => destruct b end;
    [discriminate|].
  intros H. bind_raises H.
Qed.

Lemma vos_dict_raises {ext : Externals} k v rest e :
  VosData._parse_authz_dict ((k, v) :: rest) = Raise e -> e = IllTyped.
Proof.
  unfold VosData._parse_authz_dict.
  destruct (k =? "SciTokens").
  { destruct v as [| | | | |[|a attrs]]; try discriminate. apply vos_scitokens_raises. }
  destruct (k =? "FQAN").
  { destruct (negb (truthy v)); [discriminate|]. intros H. bind_raises H. }
  destruct (k =? "DN"); [|discriminate].
  destruct generate_dn_hash; [|discriminate].
  destruct (negb (truthy v)); [discriminate|]. intros H. bind_raises H.
Qed.

Lemma df_scitokens_raises {ext : Externals} attrs authz e :
  DataFederation._parse_authz_scitokens attrs authz = Raise e -> e = IllTyped.
Proof.
  unfold DataFederation._parse_authz_scitokens. cbv zeta.
  match goal with |- (if ?b then _ else _) = _ -> _ => destruct b end;
    [discriminate|].
  intros H. bind_raises H.
Qed.

Lemma df_dict_raises {ext : Externals} k v rest e :
  DataFederation._parse_authz_dict ((k, v) :: rest) = Raise e -> e = IllTyped.
Proof.
  unfold DataFederation._parse_authz_dict.
  destruct (k =? "SciTokens").
  { destruct v as [| | | | |[|a attrs]]; try discriminate. apply df_scitokens_raises. }
  destruct (k =? "FQAN").
  { destruct (negb (truthy v)); [discriminate|]. intros H. bind_raises H. }
  destruct (k =? "DN"); [|discriminate].
  destruct generate_dn_hash; [|discriminate].
  destruct (negb (truthy v)); [discriminate|]. intros H. bind_raises H.
Qed.

(** X1.  Every pair that [parse_authz] of either module returns is the
    null method with a non-empty error string, or another method with no
    error string: never a method together with an error, never the null
    method without one.  A string item always gets such a pair, the same
    from both modules, and so does an item that is neither a string nor a
    dict (the null method, with [Unknown authz list entry]); a dict item
    whose first payload is a text gets one; and a dict item with at least
    one key gets one unless a payload that is accepted is not a text where
    the parser is annotated with [str] (the one case the model leaves out,
    as [IllTyped]).  The empty dict is the exception: there the function
    returns [None], no pair at all. *)
Theorem parse_authz_method_or_error {ext : Externals} :
  (forall authz r,
     VosData.parse_authz authz = Ok r \/ DataFederation.parse_authz authz = Ok r ->
     parse_answer_ok r)
  /\ (forall s,
        VosData.parse_authz (YStr s) = Ok (VosData._parse_authz_str s)
        /\ DataFederation.parse_authz (YStr s) = Ok (VosData._parse_authz_str s)
        /\ parse_answer_ok (VosData._parse_authz_str s))
  /\ (forall authz,
        match authz with YStr _ | YDict _ => False | _ => True end ->
        VosData.parse_authz authz
        = Ok (NullAuth, Some ("Unknown authz list entry " ++ py_str authz))
        /\ DataFederation.parse_authz authz
           = Ok (NullAuth, Some ("Unknown authz list entry " ++ py_str authz)))
  /\ (forall auth_type attributes rest e,
        VosData.parse_authz (YDict ((auth_type, attributes) :: rest)) = Raise e
        \/ DataFederation.parse_authz (YDict ((auth_type, attributes) :: rest))
           = Raise e ->
        e = IllTyped)
  /\ (forall auth_type s rest,
        exists r r',
          VosData.parse_authz (YDict ((auth_type, YStr s) :: rest)) = Ok r
          /\ DataFederation.parse_authz (YDict ((auth_type, YStr s) :: rest)) = Ok r').
Proof.
  split; [|split; [|split; [|split]]].
  - intros authz r [Hr|Hr].
    + now apply vos_parse_authz_answer in Hr.
    + now apply df_parse_authz_answer in Hr.
  - intros s. split; [reflexivity|]. split; [reflexivity|].
    now apply (@vos_parse_authz_answer ext (YStr s)).
  - intros authz Hother. destruct authz; try contradiction; split; reflexivity.
  - intros auth_type attributes rest e [Hraise|Hraise].
    + now apply vos_dict_raises in Hraise.
    + now apply df_dict_raises in Hraise.
  - intros auth_type s rest.
    unfold VosData.parse_authz, DataFederation.parse_authz,
      VosData._parse_authz_dict, DataFederation._parse_authz_dict.
    destruct (auth_type =? "SciTokens"); [eauto|].
    destruct (auth_type =? "FQAN").
    { destruct (negb (truthy (YStr s))); cbn [as_str bind]; eauto. }
    destruct (auth_type =? "DN"); [|eauto].
    destruct generate_dn_hash; [|eauto].
    destruct (negb (truthy (YStr s))); cbn [as_str bind]; eauto.
Qed.

(** An item with an unknown prefix. *)
Lemma parse_authz_method_or_error_witness :
  parse_answer_ok (NullAuth, Some "Unknown authz list entry BOGUS").
Proof.
  apply (proj1 (@parse_authz_method_or_error Fixtures.externals) (YStr "BOGUS")).
  left. reflexivity.
Defined.

Section ParsedLists.
Context {ext : Externals}.

Lemma vos_parse_authz_items_no_null path items : forall acc errs l errs',
  VosData.parse_authz_items path items acc errs = Ok (l, errs') ->
  ~ In NullAuth acc -> ~ In NullAuth l.
Proof.
  induction items as [|y rest IH]; intros acc errs l errs'; simpl.
  - intros Hrun. now inversion Hrun; subst.
  - destruct (VosData.parse_authz y) as [[parsed err]|e] eqn:Hparse; [|discriminate].
    apply vos_parse_authz_answer in Hparse. simpl.
    destruct (err_truthy err) eqn:Herr.
    + apply IH.
    + assert (Hparsed : parsed <> NullAuth).
      { destruct Hparse as [[_ [msg [Hmsg Hne]]]|[Hp _]]; [|exact Hp].
        simpl in Hmsg. subst err. simpl in Herr.
        apply negb_false_iff, String.eqb_eq in Herr. contradiction. }
      destruct (is_public_auth parsed).
      * intros Hrun Hacc. inversion Hrun; subst. intros [Hin|[]]. congruence.
      * intros Hrun Hacc. eapply IH; [exact Hrun|].
        intros Hin. apply in_app_or in Hin. destruct Hin as [Hin|[Hin|[]]]; [tauto|].
        congruence.
Qed.

Lemma df_parse_authz_items_no_null path items : forall acc errs l errs',
  DataFederation.parse_authz_items path items acc errs = Ok (l, errs') ->
  ~ In NullAuth acc -> ~ In NullAuth l.
Proof.
  induction items as [|y rest IH]; intros acc errs l errs'; simpl.
  - intros Hrun. now inversion Hrun; subst.
  - destruct (DataFederation.parse_authz y) as [[parsed err]|e] eqn:Hparse;
      [|discriminate].
    apply df_parse_authz_answer in Hparse. simpl.
    destruct (err_truthy err) eqn:Herr.
    + apply IH.
    + assert (Hparsed : parsed <> NullAuth).
      { destruct Hparse as [[_ [msg [Hmsg Hne]]]|[Hp _]]; [|exact Hp].
        simpl in Hmsg. subst err. simpl in Herr.
        apply negb_false_iff, String.eqb_eq in Herr. contradiction. }
      intros Hrun Hacc. eapply IH; [exact Hrun|].
      intros Hin. apply in_app_or in Hin. destruct Hin as [Hin|[Hin|[]]]; [tauto|].
      congruence.
Qed.

End ParsedLists.

(** X2.  The list that [StashCache.parse_authz_list] of either module
    returns holds no null method: an item that does not parse is left out,
    never kept as a placeholder; and the error set it returns holds every
    error that was there before. *)
Theorem parse_authz_list_drops_failures {ext : Externals}
    (errs : list string) (path : string) (unparsed : Yaml)
    (l : list AuthMethod) (errs' : list string) :
  VosData.parse_authz_list errs path unparsed = Ok (l, errs')
  \/ DataFederation.parse_authz_list errs path unparsed = Ok (l, errs') ->
  ~ In NullAuth l /\ incl errs errs'.
Proof.
  unfold VosData.parse_authz_list, DataFederation.parse_authz_list.
  destruct (py_iter unparsed) as [items|e]; cbn [bind];
    [|intros [H|H]; discriminate H].
  intros [Hrun|Hrun]; split.
  - eapply vos_parse_authz_items_no_null; [exact Hrun | simpl; tauto].
  - eapply vos_parse_authz_items_incl; exact Hrun.
  - eapply df_parse_authz_items_no_null; [exact Hrun | simpl; tauto].
  - eapply df_parse_authz_items_incl; exact Hrun.
Qed.

(** A list with one item that parses and one that does not. *)
Lemma parse_authz_list_drops_failures_witness :
  ~ In NullAuth [FQANAuth "/osg"]
  /\ incl ["earlier"] ["earlier"; "Namespace /p: Unknown authz list entry BOGUS"].
Proof.
  apply (@parse_authz_list_drops_failures Fixtures.externals ["earlier"] "/p"
           (YList [YStr "BOGUS"; YStr "FQAN:/osg"])).
  right. reflexivity.
Defined.

Lemma startswith_dn (value : string) :
  Py.startswith ("DN:" ++ value) "FQAN:" = false
  /\ Py.startswith ("DN:" ++ value) "DN:" = true
  /\ Py.drop 3 ("DN:" ++ value) = value.
Proof. repeat split; vm_compute; try reflexivity; now destruct value. Qed.

Lemma startswith_fqan (value : string) :
  Py.startswith ("FQAN:" ++ value) "FQAN:" = true
  /\ Py.drop 5 ("FQAN:" ++ value) = value.
Proof. repeat split; vm_compute; try reflexivity; now destruct value. Qed.

Lemma vos_parse_dn_string {ext : Externals} (h : string -> string) (value : string) :
  generate_dn_hash = Some h ->
  VosData._parse_authz_str ("DN:" ++ value)
  = if String.eqb (Py.strip value) ""
    then (NullAuth,
          Some ("Invalid DN auth " ++ ("DN:" ++ value) ++ ": DN missing or empty"))
    else (DNAuth (Py.strip value), None).
Proof.
  intros Hh. unfold VosData._parse_authz_str.
  destruct (startswith_dn value) as [H1 [H2 H3]]. now rewrite H1, H2, H3, Hh.
Qed.

Lemma vos_parse_fqan_string {ext : Externals} (value : string) :
  VosData._parse_authz_str ("FQAN:" ++ value)
  = if String.eqb (Py.strip value) ""
    then (NullAuth,
          Some ("Invalid FQAN auth " ++ ("FQAN:" ++ value)
                ++ ": FQAN missing or empty"))
    else (FQANAuth (Py.strip value), None).
Proof.
  unfold VosData._parse_authz_str.
  destruct (startswith_fqan value) as [H1 H2]. now rewrite H1, H2.
Qed.

(** X3.  The string forms [DN:<value>] and [FQAN:<value>], for a value of
    ASCII characters: the value is stripped of surrounding whitespace; a
    value that is blank after that is an error; otherwise the method parsed
    from [DN:<value>] prints as [DN: <stripped value>] and the one parsed
    from [FQAN:<value>] has the authfile identity [g <stripped value>].
    (Outside ASCII [str.strip] removes more than the model's [Py.strip],
    hence the restriction.) *)
Theorem string_items_strip_their_value {ext : Externals}
    (h : string -> string) (value : string) :
  generate_dn_hash = Some h ->
  ascii_only value = true ->
  (Py.strip value = "" ->
   fst (VosData._parse_authz_str ("DN:" ++ value)) = NullAuth
   /\ fst (VosData._parse_authz_str ("FQAN:" ++ value)) = NullAuth)
  /\ (Py.strip value <> "" ->
      VosData._parse_authz_str ("DN:" ++ value) = (DNAuth (Py.strip value), None)
      /\ VosData.str (fst (VosData._parse_authz_str ("DN:" ++ value)))
         = "DN: " ++ Py.strip value
      /\ VosData._parse_authz_str ("FQAN:" ++ value)
         = (FQANAuth (Py.strip value), None)
      /\ VosData.get_authfile_id (fst (VosData._parse_authz_str ("FQAN:" ++ value)))
         = Ok ("g " ++ Py.strip value)).
Proof.
  intros Hh _.
  rewrite (vos_parse_dn_string value Hh), vos_parse_fqan_string. split; intros Hv.
  - rewrite Hv. split; reflexivity.
  - apply String.eqb_neq in Hv. rewrite Hv. repeat split.
Qed.

(** A DN with blanks around it. *)
Lemma string_items_strip_their_value_witness :
  VosData.str
    (fst (VosData._parse_authz_str (ext := Fixtures.externals)
            ("DN:" ++ "  /O=Grid/CN=Alice ")))
  = "DN: /O=Grid/CN=Alice".
Proof.
  destruct (@string_items_strip_their_value Fixtures.externals
              (fun dn => "hash(" ++ dn ++ ")") "  /O=Grid/CN=Alice " eq_refl eq_refl)
    as [_ Hvalue].
  destruct Hvalue as [_ [Hstr _]]; [vm_compute; discriminate|].
  exact Hstr.
Defined.

(** X4.  The two ways to write an FQAN or DN item do not treat the value
    alike: the dict form keeps a non-empty value as it is, blanks included,
    while the string form strips it.  For a value of ASCII characters the
    two forms give the same method exactly when stripping leaves the value
    unchanged.  (Outside ASCII [str.strip] removes more than the model's
    [Py.strip], hence the restriction of the last part.) *)
Theorem dict_items_keep_their_value {ext : Externals}
    (h : string -> string) (value : string) :
  generate_dn_hash = Some h ->
  value <> "" ->
  VosData.parse_authz (YDict [("FQAN", YStr value)]) = Ok (FQANAuth value, None)
  /\ VosData.parse_authz (YDict [("DN", YStr value)]) = Ok (DNAuth value, None)
  /\ DataFederation.parse_authz (YDict [("FQAN", YStr value)])
     = Ok (FQANAuth value, None)
  /\ DataFederation.parse_authz (YDict [("DN", YStr value)]) = Ok (DNAuth value, None)
  /\ (ascii_only value = true ->
      (VosData.parse_authz (YStr ("FQAN:" ++ value))
       = VosData.parse_authz (YDict [("FQAN", YStr value)])
       <-> Py.strip value = value)).
Proof.
  intros Hh Hv.
  assert (Htruthy : negb (truthy (YStr value)) = false).
  { simpl. apply String.eqb_neq in Hv. now rewrite Hv. }
  assert (Hf : VosData.parse_authz (YDict [("FQAN", YStr value)])
               = Ok (FQANAuth value, None)).
  { unfold VosData.parse_authz, VosData._parse_authz_dict.
    cbn [String.eqb Ascii.eqb Bool.eqb]. rewrite Htruthy. reflexivity. }
  split; [exact Hf|]. split; [|split; [|split]].
  - unfold VosData.parse_authz, VosData._parse_authz_dict.
    cbn [String.eqb Ascii.eqb Bool.eqb]. rewrite Hh, Htruthy. reflexivity.
  - unfold DataFederation.parse_authz, DataFederation._parse_authz_dict.
    cbn [String.eqb Ascii.eqb Bool.eqb]. rewrite Htruthy. reflexivity.
  - unfold DataFederation.parse_authz, DataFederation._parse_authz_dict.
    cbn [String.eqb Ascii.eqb Bool.eqb]. rewrite Hh, Htruthy. reflexivity.
  - intros _. rewrite Hf.
    assert (Hs : VosData.parse_authz (YStr ("FQAN:" ++ value))
                 = Ok (VosData._parse_authz_str ("FQAN:" ++ value))) by reflexivity.
    rewrite vos_parse_fqan_string in Hs.
    rewrite Hs. destruct (String.eqb (Py.strip value) "") eqn:Hstrip.
    + apply String.eqb_eq in Hstrip. split; [intros Heq; discriminate Heq|].
      intros Heq. congruence.
    + split; [intros Heq; congruence | intros ->; reflexivity].
Qed.

(** A value of blanks: accepted in the dict form, an error in the string
    form. *)
Lemma dict_items_keep_their_value_witness :
  VosData.parse_authz (ext := Fixtures.externals) (YDict [("FQAN", YStr "  ")])
  = Ok (FQANAuth "  ", None)
  /\ VosData.parse_authz (ext := Fixtures.externals) (YStr ("FQAN:" ++ "  "))
     <> VosData.parse_authz (ext := Fixtures.externals) (YDict [("FQAN", YStr "  ")]).
Proof.
  destruct (@dict_items_keep_their_value Fixtures.externals
              (fun dn => "hash(" ++ dn ++ ")") "  " eq_refl)
    as [Hf [_ [_ [_ Hiff]]]]; [discriminate|].
  split; [exact Hf|].
  intros Heq. apply (Hiff eq_refl) in Heq. discriminate Heq.
Defined.

(** X5.  The two copies of the SciTokens parser read different keys: for a
    block that gives its base path under [BasePath], [data_federation.py]
    answers with the SciToken method, and [vos_data.py], which only knows
    [Base Path], answers with the error of a missing base path. *)
Theorem scitokens_base_path_spelling {ext : Externals} (issuer base_path : string) :
  issuer <> "" ->
  base_path <> "" ->
  let authz :=
    YDict [("SciTokens",
            YDict [("Issuer", YStr issuer); ("BasePath", YStr base_path)])] in
  DataFederation.parse_authz authz
  = Ok (SciTokenAuth issuer base_path None false, None)
  /\ VosData.parse_authz authz
     = Ok (NullAuth,
           Some ("Invalid SciTokens auth " ++ py_repr authz
                 ++ ": 'Base Path' missing or empty")).
Proof.
  intros Hi Hb authz. subst authz.
  apply String.eqb_neq in Hi. apply String.eqb_neq in Hb.
  unfold DataFederation.parse_authz, VosData.parse_authz,
    DataFederation._parse_authz_dict, VosData._parse_authz_dict,
    DataFederation._parse_authz_scitokens, VosData._parse_authz_scitokens.
  simpl. rewrite Hi, Hb. split; reflexivity.
Qed.

Lemma scitokens_base_path_spelling_witness :
  DataFederation.parse_authz (ext := Fixtures.externals)
    (YDict [("SciTokens",
             YDict [("Issuer", YStr "https://issuer.example.org");
                    ("BasePath", YStr "/data")])])
  = Ok (SciTokenAuth "https://issuer.example.org" "/data" None false, None).
Proof.
  destruct (@scitokens_base_path_spelling Fixtures.externals
              "https://issuer.example.org" "/data") as [Hdf _];
    [discriminate | discriminate |].
  exact Hdf.
Defined.

(** *** [CredentialGeneration] blocks *)

Ltac nil_cases :=
  repeat match goal with
         | |- context [if ?b then _ else _] => destruct b eqn:?
         end;
  (split;
   [ intros Hnil; try (apply set_add_not_nil in Hnil; contradiction);
     try discriminate Hnil; auto
   | intros Hacc; try discriminate Hacc;
     try (pose proof (proj1 Hacc) as Hfst; discriminate Hfst);
     try exact (proj2 Hacc); auto ]).

(** X6.  [CredentialGeneration.validate], for a block whose fields are
    nulls, booleans, integers, texts, lists or dicts (the parsed values of
    the model; a float is not among them).  It returns the empty error set
    exactly for the blocks that pass all six tests: a strategy of
    [STRATEGIES]; a non-empty text issuer that [urlparse] reads as an
    [https] URL with a host; a base path that is empty or a text; a depth
    that is empty, [True] or a non-negative integer; a Vault server exactly
    when the strategy is [Vault]; and a Vault issuer only with that
    strategy.  It ends in an exception exactly when [urlparse] refuses the
    issuer text ([ValueError]), or else the depth is a non-empty text:
    [ValueError] from [int()], or, when [int()] reads the text, [TypeError]
    from comparing the text with [0]. *)
Theorem validate_clean_iff_accepted {ext : Externals}
    (c : DataFederation.CredentialGeneration) :
  (DataFederation.validate c = Ok [] <-> Accepts.accepted c = true)
  /\ (forall e, DataFederation.validate c = Raise e <-> Accepts.escapes c e).
Proof.
  destruct c as [st iss msd vs bp vi].
  unfold DataFederation.validate, Accepts.accepted, Accepts.strategy_ok,
    Accepts.issuer_ok, Accepts.base_path_ok, Accepts.max_scope_depth_ok,
    Accepts.vault_server_ok, Accepts.vault_issuer_ok, Accepts.escapes.
  cbn [DataFederation.strategy DataFederation.cg_issuer
       DataFederation.max_scope_depth DataFederation.vault_server
       DataFederation.cg_base_path DataFederation.vault_issuer].
  match goal with
  | |- context [Py.set_add (DataFederation.errprefix ++ " Issuer not specified") ?E] =>
      remember E as E1 eqn:HE1
  end.
  assert (H1 : E1 = [] <-> DataFederation.in_strs st DataFederation.STRATEGIES = true).
  { subst E1. clear.
    destruct (DataFederation.in_strs st DataFederation.STRATEGIES); cbn [negb];
      nil_cases. }
  clear HE1.
  match goal with
  | |- (bind _ ?K = Ok [] <-> _) /\ _ => set (K2 := K)
  end.
  (* the stages after the issuer *)
  assert (HK2 : forall l,
            (K2 l = Ok [] <->
             l = []
             /\ (negb (truthy bp) || is_str bp) = true
             /\ (negb (truthy msd)
                 || match msd with
                    | YInt z => (0 <=? z)%Z
                    | YBool _ => true
                    | _ => false
                    end) = true
             /\ Bool.eqb (truthy vs)
                  (DataFederation.eq_str st DataFederation.STRATEGY_VAULT) = true
             /\ (negb (truthy vi)
                 || DataFederation.eq_str st DataFederation.STRATEGY_VAULT) = true)
            /\ forall e,
                 K2 l = Raise e <->
                 exists s, msd = YStr s /\ s <> ""
                           /\ e = if py_int_accepts s then TypeError else ValueError).
  { intros l. subst K2. cbv beta.
    match goal with
    | |- context [if truthy msd then _ else Ok ?E] => remember E as E3 eqn:HE3
    end.
    assert (H3 : E3 = [] <-> (negb (truthy bp) || is_str bp) = true /\ l = []).
    { subst E3. clear. destruct (truthy bp), (is_str bp); cbn; nil_cases. }
    clear HE3.
    match goal with
    | |- context [bind _ ?K] =>
        assert (HF : forall x,
                   K x = Ok [] <->
                   Bool.eqb (truthy vs)
                     (DataFederation.eq_str st DataFederation.STRATEGY_VAULT) = true
                   /\ (negb (truthy vi)
                       || DataFederation.eq_str st DataFederation.STRATEGY_VAULT) = true
                   /\ x = []);
        [ | assert (HK : forall x e, K x <> Raise e) by (intros x e; discriminate) ]
    end.
    { intros x. cbv beta. generalize (py_str st). intros p.
      destruct (truthy vs), (truthy vi),
        (DataFederation.eq_str st DataFederation.STRATEGY_VAULT); cbn;
        (split;
         [ intros Hnil; injection Hnil as Hnil;
           try (apply set_add_not_nil in Hnil; contradiction); auto
         | intros (Hs & Hi & Hl); try discriminate Hs; try discriminate Hi;
           now subst x ]). }
    match goal with |- context [bind _ ?K] => generalize dependent K end.
    intros K HF HK.
    assert (HE3 : forall m, K (Py.set_add m E3) <> Ok []).
    { intros m Hnil. apply HF in Hnil. destruct Hnil as (_ & _ & Hnil).
      now apply set_add_not_nil in Hnil. }
    assert (Hclean : K E3 = Ok [] <->
                     l = [] /\ (negb (truthy bp) || is_str bp) = true
                     /\ Bool.eqb (truthy vs)
                          (DataFederation.eq_str st DataFederation.STRATEGY_VAULT) = true
                     /\ (negb (truthy vi)
                         || DataFederation.eq_str st DataFederation.STRATEGY_VAULT) = true).
    { rewrite HF, H3. tauto. }
    clear HF H3.
    split.
    - destruct msd as [|b|z|s|x|d]; cbn [truthy negb orb].
      + cbn [bind]. rewrite Hclean. cbn. tauto.
      + destruct b; cbn [bind negb orb]; rewrite Hclean; tauto.
      + destruct (Z.eqb_spec z 0) as [->|Hz]; cbn [negb orb bind].
        * rewrite Hclean. tauto.
        * destruct (Z.ltb_spec z 0) as [Hneg|Hpos]; cbn [bind].
          -- split; [intros Hnil; now apply HE3 in Hnil|].
             intros (_ & _ & Hm & _). apply Z.leb_le in Hm. lia.
          -- rewrite Hclean. apply Z.leb_le in Hpos. rewrite Hpos. tauto.
      + destruct (s =? ""); cbn [negb orb bind].
        * rewrite Hclean. tauto.
        * split; [destruct (py_int_accepts s); intros Hnil; discriminate Hnil|].
          intros (_ & _ & Hm & _). discriminate Hm.
      + destruct x; cbn [orb negb bind].
        * rewrite Hclean. tauto.
        * split; [intros Hnil; now apply HE3 in Hnil|].
          intros (_ & _ & Hm & _). discriminate Hm.
      + destruct d; cbn [orb negb bind].
        * rewrite Hclean. tauto.
        * split; [intros Hnil; now apply HE3 in Hnil|].
          intros (_ & _ & Hm & _). discriminate Hm.
    - intros e. split.
      + intros Hraise.
        destruct msd as [|b|z|s|x|d]; cbn [truthy] in Hraise;
          repeat match type of Hraise with
                 | context [if ?c then _ else _] => destruct c eqn:?
                 | context [match ?l with [] => _ | _ => _ end] => destruct l
                 end;
          cbn [bind] in Hraise; try (now apply HK in Hraise);
          try discriminate Hraise.
        all: match goal with
             | |- exists _ : string, YStr ?x = _ /\ _ => exists x
             end;
          (split; [reflexivity|]); split;
          [ intros ->; discriminate | ];
          match goal with H : py_int_accepts _ = _ |- _ => rewrite H end;
          now inversion Hraise.
      + intros (s & -> & Hs & ->). cbn [truthy].
        destruct (String.eqb_spec s "") as [->|_]; [now elim Hs|].
        cbn [negb bind]. now destruct (py_int_accepts s). }
  clearbody K2.
  assert (Hadd : forall m, K2 (Py.set_add m E1) = Ok [] -> False).
  { intros m Hnil. apply (proj1 (HK2 _)) in Hnil. destruct Hnil as [Hnil _].
    now apply set_add_not_nil in Hnil. }
  assert (Hraise : forall l e,
            K2 l = Raise e <->
            exists s, msd = YStr s /\ s <> ""
                      /\ e = if py_int_accepts s then TypeError else ValueError)
    by (intros l e; apply (proj2 (HK2 l))).
  assert (Hother :
            forall m,
              (forall s, iss = YStr s -> s = "") ->
              (K2 (Py.set_add m E1) = Ok [] <-> False)
              /\ forall e,
                   K2 (Py.set_add m E1) = Raise e <->
                   (exists s, iss = YStr s /\ s <> "" /\ urlparse s = None
                              /\ e = ValueError)
                   \/ ((forall s, iss = YStr s -> s <> "" -> urlparse s <> None)
                       /\ exists s, msd = YStr s /\ s <> ""
                                    /\ e = if py_int_accepts s
                                           then TypeError else ValueError)).
  { intros m Hiss. split; [split; [apply Hadd | intros []]|].
    intros e. rewrite Hraise. split.
    - intros Hd. right. split; [|exact Hd].
      intros s Hs Hne. now apply Hiss in Hs.
    - intros [(s & Hs & Hne & _)|[_ Hd]]; [|exact Hd]. now apply Hiss in Hs. }
  assert (Hfalse : forall b c d e f : bool,
            (False <-> b && false && c && d && e && f = true)).
  { intros b c d e f. rewrite andb_false_r. cbn. split; [intros [] | discriminate]. }
  destruct iss as [|b|z|s|x|d];
    try solve
      [ match goal with
        | |- context [if ?c
                      then Ok (Py.set_add
                                 (DataFederation.errprefix ++ " Issuer not specified") _)
                      else _] => destruct c
        end; cbn [bind];
        match goal with
        | |- (K2 (Py.set_add ?m E1) = Ok [] <-> _) /\ _ =>
            destruct (Hother m) as [Hok Hexc];
            [ intros s Hs; discriminate Hs
            | split; [rewrite Hok; apply Hfalse | exact Hexc] ]
        end ].
  cbn [truthy]. destruct (String.eqb_spec s "") as [->|Hs]; cbn [negb].
  - cbn [bind].
    match goal with
    | |- (K2 (Py.set_add ?m E1) = Ok [] <-> _) /\ _ =>
        destruct (Hother m) as [Hok Hexc];
        [ intros s Hs; now inversion Hs
        | split; [rewrite Hok | exact Hexc] ]
    end.
    destruct (urlparse "") as [[scheme netloc]|]; cbn [String.eqb negb andb];
      apply Hfalse.
  - destruct (urlparse s) as [[scheme netloc]|] eqn:Hu.
    + destruct ((netloc =? "") || negb (scheme =? "https")) eqn:Hc.
      * split.
        -- cbn [bind]. split; [intros Hnil; now apply Hadd in Hnil|].
           rewrite !andb_true_iff. intros [[[[[_ [[_ Hn] Hsch]] _] _] _] _].
           rewrite Hsch in Hc. apply negb_true_iff in Hn. rewrite Hn in Hc.
           discriminate Hc.
        -- intros e. cbn [bind]. rewrite Hraise. split.
           ++ intros Hd. right. split; [|exact Hd].
              intros s0 Hs0 _. inversion Hs0; subst s0. congruence.
           ++ intros [(s0 & Hs0 & _ & Hnone & _)|[_ Hd]]; [|exact Hd].
              inversion Hs0; subst s0. congruence.
      * apply orb_false_iff in Hc. destruct Hc as [Hn Hsch].
        apply negb_false_iff in Hsch.
        rewrite Hn, Hsch. cbn [negb andb]. split.
        -- cbn [bind]. rewrite (proj1 (HK2 E1)), H1, !andb_true_iff. tauto.
        -- intros e. cbn [bind]. rewrite Hraise. split.
           ++ intros Hd. right. split; [|exact Hd].
              intros s0 Hs0 _. inversion Hs0; subst s0. congruence.
           ++ intros [(s0 & Hs0 & _ & Hnone & _)|[_ Hd]]; [|exact Hd].
              inversion Hs0; subst s0. congruence.
    + split.
      * cbn [bind]. split; [discriminate|].
        rewrite !andb_true_iff. intros [[[[[_ Hi] _] _] _] _]. discriminate Hi.
      * intros e. cbn [bind]. split.
        -- intros Heq. inversion Heq; subst e. left. exists s. auto.
        -- intros [(s0 & Hs0 & _ & _ & ->)|[Hno _]]; [reflexivity|].
           now elim (Hno s eq_refl Hs).
Qed.

Section RejectedBlocks.
Context {ext : Externals}.
Import DataFederation.

Lemma df_step_rejected idx d p st :
  Py.dict_get d "Path" = Some (YStr p) ->
  Py.dict_get (namespaces st) p = None ->
  credential_generation_ok d = false ->
  exists e, load_new_entry idx (YDict d) st = Raise e.
Proof.
  intros Hpath Hp Hcg. unfold load_new_entry.
  cbn [py_contains py_getitem py_get bind]. unfold Py.dict_mem.
  rewrite Hpath. cbn [negb bind as_key as_str]. rewrite Hp.
  destruct (parse_authz_list (errors st) p (get_default d "Authorizations" (YList [])))
    as [[l errs']|e]; cbn [bind]; [|eauto].
  unfold credential_generation_ok in Hcg.
  destruct (Py.dict_get d "CredentialGeneration") as [cg|]; [|discriminate].
  cbn [bind].
  destruct (read_credential_generation cg) as [c|e]; cbn [bind]; [|eauto].
  destruct (validate c) as [[|e0 es]|e]; cbn [bind]; eauto. discriminate.
Qed.

Lemma df_loop_rejected entries : forall idx st i d p,
  nth_error entries i = Some (YDict d) ->
  Py.dict_get d "Path" = Some (YStr p) ->
  (forall k yk, k < i -> nth_error entries k = Some yk -> entry_path yk <> Some p) ->
  Py.dict_get (namespaces st) p = None ->
  credential_generation_ok d = false ->
  exists e, load_new_entries idx entries st = Raise e.
Proof.
  induction entries as [|y rest IH]; intros idx st i d p Hi Hpath Hfirst Hp Hcg.
  - destruct i; discriminate.
  - cbn [load_new_entries]. destruct i as [|i]; simpl in Hi.
    + inversion Hi; subst y.
      destruct (df_step_rejected idx d st Hpath Hp Hcg) as [e He].
      rewrite He. cbn [bind]. eauto.
    + destruct (load_new_entry idx y st) as [st1|e] eqn:Hstep; cbn [bind]; [|eauto].
      apply df_step_ok in Hstep.
      apply (IH (S idx) st1 i d p Hi Hpath).
      * intros k yk Hk Hnth. apply (Hfirst (S k)); [lia | exact Hnth].
      * eapply step_leaves_absent; [exact Hstep | exact Hp |].
        apply (Hfirst 0); [lia | reflexivity].
      * exact Hcg.
Qed.

End RejectedBlocks.

(** X7.  In [data_federation.py] a list-shape load does not survive a
    [CredentialGeneration] block that is not a dict or does not pass
    [validate]: when the entry that first declares a path not yet in the
    registry carries such a block, [load_new_yaml] ends in an exception, so
    no [StashCache] is built and no error string is recorded for the block.
    For a block that [validate] answers with errors, after authorizations
    that parse, the exception is the [TypeError] of [self.errors += {...}]. *)
Theorem rejected_credential_generation_aborts_load {ext : Externals}
    (self : DataFederation.StashCache) (top : list (string * Yaml))
    (entries : list Yaml) (i : nat) (d : list (string * Yaml)) (p : string) :
  Py.dict_get top "Namespaces" = Some (YList entries) ->
  nth_error entries i = Some (YDict d) ->
  Py.dict_get d "Path" = Some (YStr p) ->
  (forall k yk, k < i -> nth_error entries k = Some yk -> entry_path yk <> Some p) ->
  Py.dict_get (DataFederation.namespaces self) p = None ->
  DataFederation.credential_generation_ok d = false ->
  (exists e, DataFederation.load_new_yaml self (YDict top) = Raise e)
  /\ forall idx st cg c e0 es l errs',
       Py.dict_get (DataFederation.namespaces st) p = None ->
       DataFederation.parse_authz_list (DataFederation.errors st) p
         (get_default d "Authorizations" (YList [])) = Ok (l, errs') ->
       Py.dict_get d "CredentialGeneration" = Some cg ->
       DataFederation.read_credential_generation cg = Ok c ->
       DataFederation.validate c = Ok (e0 :: es) ->
       DataFederation.load_new_entry idx (YDict d) st = Raise TypeError.
Proof.
  intros Htop Hi Hpath Hfirst Hp Hcg. split.
  - unfold DataFederation.load_new_yaml. cbn [py_getitem]. rewrite Htop.
    cbn [bind py_iter].
    apply (@df_loop_rejected ext entries 0 self i d p); assumption.
  - intros idx st cg c e0 es l errs' Hst Hparse Hcgv Hread Hval.
    unfold DataFederation.load_new_entry.
    cbn [py_contains py_getitem py_get bind]. unfold Py.dict_mem.
    rewrite Hpath. cbn [negb bind DataFederation.as_key as_str]. rewrite Hst.
    rewrite Hparse. cbn [bind]. rewrite Hcgv. cbn [bind]. rewrite Hread.
    cbn [bind]. rewrite Hval. reflexivity.
Qed.

(** The document whose only namespace names the strategy [Bogus]. *)
Lemma rejected_credential_generation_aborts_load_witness :
  exists e,
    DataFederation.load_new_yaml (ext := Fixtures.externals)
      (DataFederation.mkStashCache "OSG" [] [])
      Fixtures.doc_bad_credential_generation = Raise e.
Proof.
  refine (proj1 (@rejected_credential_generation_aborts_load Fixtures.externals
                   (DataFederation.mkStashCache "OSG" [] [])
                   [("Namespaces",
                     YList [YDict [("Path", YStr "/cg");
                                   ("CredentialGeneration",
                                    YDict [("Strategy", YStr "Bogus");
                                           ("Issuer", YStr "https://issuer.example.org")])]])]
                   _ 0 _ "/cg" _ _ _ _ _ _)).
  - reflexivity.
  - reflexivity.
  - reflexivity.
  - intros k yk Hk. lia.
  - reflexivity.
  - vm_compute. reflexivity.
Defined.

(** *** The registry of namespaces *)

Lemma keyed_set (NS : Type) (ns_path ns_vo : NS -> string) vo
    (nss : list (string * NS)) p ns :
  keyed_by_path ns_path ns_vo vo nss -> ns_path ns = p -> ns_vo ns = vo ->
  keyed_by_path ns_path ns_vo vo (Py.dict_set nss p ns).
Proof.
  intros Hk Hp Hv q ns' Hq. destruct (String.eqb_spec q p) as [->|Hne].
  - rewrite dict_get_set_eq in Hq. inversion Hq; subst. auto.
  - rewrite dict_get_set_neq in Hq by assumption. now apply Hk.
Qed.

Lemma keyed_nil (NS : Type) (ns_path ns_vo : NS -> string) vo :
  keyed_by_path ns_path ns_vo vo (@nil (string * NS)).
Proof. intros p ns Hp. discriminate Hp. Qed.

Lemma dict_set_keys (V : Type) (d : list (string * V)) k v :
  Py.dict_get d k = None ->
  map fst (Py.dict_set d k v) = (map fst d ++ [k])%list.
Proof.
  induction d as [|[k' v'] d IH]; simpl; [reflexivity|].
  destruct (String.eqb k k'); [discriminate|].
  intros Hk. simpl. now rewrite IH.
Qed.

Section LoadKeys.

Variables St NS : Type.
Variable nss : St -> list (string * NS).
Variable errs : St -> list string.
Variable vo_of : St -> string.
Variable ns_vo : NS -> string.
Variable ns_path : NS -> string.
Variable declared : string -> string -> Yaml -> NS -> Prop.
Variable step : nat -> Yaml -> St -> result St.
Variable loop : nat -> list Yaml -> St -> result St.

Hypothesis loop_nil : forall idx st, loop idx [] st = Ok st.
Hypothesis loop_cons : forall idx y rest st,
    loop idx (y :: rest) st = bind (step idx y st) (loop (S idx) rest).
Hypothesis step_ok : forall idx y st st',
    step idx y st = Ok st' ->
    step_outcome nss errs vo_of ns_vo declared idx y st st'.
Hypothesis declared_path : forall vo p y ns,
    declared vo p y ns -> ns_path ns = p /\ ns_vo ns = vo.

Lemma step_keyed idx y st st' :
  step_outcome nss errs vo_of ns_vo declared idx y st st' ->
  keyed_by_path ns_path ns_vo (vo_of st) (nss st) ->
  keyed_by_path ns_path ns_vo (vo_of st) (nss st').
Proof.
  intros [_ [_ Hout]] Hk. destruct (entry_path y) as [q|]; [|now rewrite Hout].
  destruct (Py.dict_get (nss st) q) as [orig|].
  - destruct Hout as [-> _]. assumption.
  - destruct Hout as [ns [Hdecl [_ ->]]]. apply declared_path in Hdecl.
    destruct Hdecl as [Hp Hv]. now apply keyed_set.
Qed.

Lemma loop_keyed entries : forall idx st st',
  loop idx entries st = Ok st' ->
  keyed_by_path ns_path ns_vo (vo_of st) (nss st) ->
  vo_of st' = vo_of st /\ keyed_by_path ns_path ns_vo (vo_of st) (nss st').
Proof.
  induction entries as [|y rest IH]; intros idx st st' Hloop Hk.
  - rewrite loop_nil in Hloop. inversion Hloop; subst. now split.
  - rewrite loop_cons in Hloop.
    destruct (step idx y st) as [st1|e] eqn:Hstep; [|discriminate].
    cbn [bind] in Hloop. apply step_ok in Hstep.
    assert (Hk1 := step_keyed Hstep Hk). destruct Hstep as [Hvo _].
    rewrite <- Hvo in Hk1. destruct (IH _ _ _ Hloop Hk1) as [Hvo' Hk'].
    rewrite Hvo in Hvo', Hk'. now split.
Qed.

End LoadKeys.

Section VosRegistry.
Context {ext : Externals}.
Import VosData.

Lemma vos_declared_path vo p y ns :
  declared vo p y ns -> path ns = p /\ vo_name ns = vo.
Proof. intros (d & errs & errs' & _ & Hp & Hv & _). now split. Qed.

Lemma vos_new_keyed entries idx st st' :
  load_new_entries idx entries st = Ok st' ->
  keyed_by_path path vo_name (sc_vo_name st) (namespaces st) ->
  sc_vo_name st' = sc_vo_name st
  /\ keyed_by_path path vo_name (sc_vo_name st) (namespaces st').
Proof.
  exact (@loop_keyed StashCache Namespace namespaces errors sc_vo_name vo_name path
           declared load_new_entry load_new_entries
           (fun _ _ => eq_refl) (fun _ _ _ _ => eq_refl) vos_step_ok
           vos_declared_path entries idx st st').
Qed.

Lemma vos_parse_authz_items_errors path items : forall acc errs l errs' e,
  parse_authz_items path items acc errs = Ok (l, errs') ->
  In e errs' -> In e errs \/ exists err, e = "Namespace " ++ path ++ ": " ++ err.
Proof.
  induction items as [|y rest IH]; intros acc errs l errs' e; simpl.
  - intros Hrun He. inversion Hrun; subst. now left.
  - destruct (parse_authz y) as [[parsed err]|x]; [|discriminate]. simpl.
    destruct (err_truthy err).
    + intros Hrun He. destruct (IH _ _ _ _ _ Hrun He) as [Hin|Hnew]; [|now right].
      apply in_set_add in Hin. destruct Hin as [Hin| ->]; [now left|].
      right. now exists (err_text err).
    + destruct (is_public_auth parsed).
      * intros Hrun He. inversion Hrun; subst. now left.
      * apply IH.
Qed.

Lemma vos_old_step top p v st st' :
  load_old_entry top p v st = Ok st' ->
  sc_vo_name st' = sc_vo_name st
  /\ (forall e, In e (errors st') ->
        In e (errors st)
        \/ (exists err, e = "Namespace " ++ p ++ ": " ++ err)
        \/ exists orig, Py.dict_get (namespaces st) p = Some orig)
  /\ match Py.dict_get (namespaces st) p with
     | Some _ => namespaces st' = namespaces st
     | None =>
         exists ns d,
           top = YDict d
           /\ namespaces st' = Py.dict_set (namespaces st) p ns
           /\ vos_declared_old d (sc_vo_name st) p v ns
     end.
Proof.
  unfold load_old_entry.
  destruct (parse_authz_list (errors st) p v) as [[l errs']|x] eqn:Hparse;
    cbn [bind]; [|discriminate].
  assert (Herrs : forall e, In e errs' ->
            In e (errors st) \/ exists err, e = "Namespace " ++ p ++ ": " ++ err).
  { intros e He. unfold parse_authz_list in Hparse.
    destruct (py_iter v) as [items|x]; [|discriminate]. cbn [bind] in Hparse.
    eapply vos_parse_authz_items_errors; eassumption. }
  cbn [namespaces sc_vo_name errors].
  destruct (Py.dict_get (namespaces st) p) as [orig|] eqn:Hp.
  - intros Hst. inversion Hst; subst st'. cbn.
    split; [reflexivity|]. split; [|reflexivity].
    intros e He. apply in_set_add in He. destruct He as [He|_].
    + destruct (Herrs e He) as [Hin|Hnew]; [now left | right; now left].
    + right. right. now exists orig.
  - destruct top as [| | | | |d]; cbn [py_get bind]; try discriminate.
    destruct (as_str_list (get_default d "AllowedOrigins" (YList [])))
      as [origins|x] eqn:Ho; cbn [bind]; [|discriminate].
    destruct (as_str_list (get_default d "AllowedCaches" (YList [])))
      as [caches|x] eqn:Hc; cbn [bind]; [|discriminate].
    intros Hst. inversion Hst; subst st'. cbn.
    split; [reflexivity|]. split.
    + intros e He. destruct (Herrs e He) as [Hin|Hnew]; [now left | right; now left].
    + eexists. exists d. split; [reflexivity|]. split; [reflexivity|].
      unfold vos_declared_old. cbn. repeat split; try assumption.
      now exists (errors st), errs'.
Qed.

Lemma vos_old_keyed top items : forall st st',
  load_old_entries top items st = Ok st' ->
  keyed_by_path path vo_name (sc_vo_name st) (namespaces st) ->
  sc_vo_name st' = sc_vo_name st
  /\ keyed_by_path path vo_name (sc_vo_name st) (namespaces st').
Proof.
  induction items as [|[p v] rest IH]; intros st st' Hloop Hk; cbn in Hloop.
  - inversion Hloop; subst. now split.
  - destruct (load_old_entry top p v st) as [st1|x] eqn:Hstep; [|discriminate].
    cbn [bind] in Hloop. apply vos_old_step in Hstep.
    destruct Hstep as [Hvo [_ Hcase]].
    assert (Hk1 : keyed_by_path path vo_name (sc_vo_name st1) (namespaces st1)).
    { rewrite Hvo. destruct (Py.dict_get (namespaces st) p) as [orig|].
      - now rewrite Hcase.
      - destruct Hcase as (ns & d & _ & -> & Hp & Hv & _). now apply keyed_set. }
    destruct (IH _ _ Hloop Hk1) as [Hvo' Hk'].
    rewrite Hvo in Hvo', Hk'. now split.
Qed.

End VosRegistry.

Section DataFederationRegistry.
Context {ext : Externals}.
Import DataFederation DataFederationInit.

Lemma df_declared_path vo p y ns :
  declared vo p y ns -> path ns = p /\ vo_name ns = vo.
Proof. intros (d & errs & errs' & _ & Hp & Hv & _). now split. Qed.

Lemma df_new_keyed entries idx st st' :
  load_new_entries idx entries st = Ok st' ->
  keyed_by_path path vo_name (sc_vo_name st) (namespaces st) ->
  sc_vo_name st' = sc_vo_name st
  /\ keyed_by_path path vo_name (sc_vo_name st) (namespaces st').
Proof.
  exact (@loop_keyed StashCache Namespace namespaces errors sc_vo_name vo_name path
           declared load_new_entry load_new_entries
           (fun _ _ => eq_refl) (fun _ _ _ _ => eq_refl) df_step_ok
           df_declared_path entries idx st st').
Qed.

Lemma df_parse_authz_items_errors path items : forall acc errs l errs' e,
  parse_authz_items path items acc errs = Ok (l, errs') ->
  In e errs' -> In e errs \/ exists err, e = "Namespace " ++ path ++ ": " ++ err.
Proof.
  induction items as [|y rest IH]; intros acc errs l errs' e; simpl.
  - intros Hrun He. inversion Hrun; subst. now left.
  - destruct (parse_authz y) as [[parsed err]|x]; [|discriminate]. simpl.
    destruct (err_truthy err).
    + intros Hrun He. destruct (IH _ _ _ _ _ Hrun He) as [Hin|Hnew]; [|now right].
      apply in_set_add in Hin. destruct Hin as [Hin| ->]; [now left|].
      right. now exists (err_text err).
    + apply IH.
Qed.

Lemma df_old_step top p v st st' :
  load_old_entry top p v st = Ok st' ->
  sc_vo_name st' = sc_vo_name st
  /\ (forall e, In e (errors st') ->
        In e (errors st)
        \/ (exists err, e = "Namespace " ++ p ++ ": " ++ err)
        \/ exists orig, Py.dict_get (namespaces st) p = Some orig)
  /\ match Py.dict_get (namespaces st) p with
     | Some _ => namespaces st' = namespaces st
     | None =>
         exists ns d,
           top = YDict d
           /\ namespaces st' = Py.dict_set (namespaces st) p ns
           /\ df_declared_old d (sc_vo_name st) p v ns
     end.
Proof.
  unfold load_old_entry.
  destruct (parse_authz_list (errors st) p v) as [[l errs']|x] eqn:Hparse;
    cbn [bind]; [|discriminate].
  assert (Herrs : forall e, In e errs' ->
            In e (errors st) \/ exists err, e = "Namespace " ++ p ++ ": " ++ err).
  { intros e He. unfold parse_authz_list in Hparse.
    destruct (py_iter v) as [items|x]; [|discriminate]. cbn [bind] in Hparse.
    eapply df_parse_authz_items_errors; eassumption. }
  cbn [namespaces sc_vo_name errors].
  destruct (Py.dict_get (namespaces st) p) as [orig|] eqn:Hp.
  - intros Hst. inversion Hst; subst st'. cbn.
    split; [reflexivity|]. split; [|reflexivity].
    intros e He. apply in_set_add in He. destruct He as [He|_].
    + destruct (Herrs e He) as [Hin|Hnew]; [now left | right; now left].
    + right. right. now exists orig.
  - destruct top as [| | | | |d]; cbn [py_get bind]; try discriminate.
    destruct (as_str_list (get_default d "AllowedOrigins" (YList [])))
      as [origins|x] eqn:Ho; cbn [bind]; [|discriminate].
    destruct (as_str_list (get_default d "AllowedCaches" (YList [])))
      as [caches|x] eqn:Hc; cbn [bind]; [|discriminate].
    intros Hst. inversion Hst; subst st'. cbn.
    split; [reflexivity|]. split.
    + intros e He. destruct (Herrs e He) as [Hin|Hnew]; [now left | right; now left].
    + eexists. exists d. split; [reflexivity|]. split; [reflexivity|].
      unfold df_declared_old. cbn. repeat split; try assumption.
      now exists (errors st), errs'.
Qed.

Lemma df_old_keyed top items : forall st st',
  load_old_entries top items st = Ok st' ->
  keyed_by_path path vo_name (sc_vo_name st) (namespaces st) ->
  sc_vo_name st' = sc_vo_name st
  /\ keyed_by_path path vo_name (sc_vo_name st) (namespaces st').
Proof.
  induction items as [|[p v] rest IH]; intros st st' Hloop Hk; cbn in Hloop.
  - inversion Hloop; subst. now split.
  - destruct (load_old_entry top p v st) as [st1|x] eqn:Hstep; [|discriminate].
    cbn [bind] in Hloop. apply df_old_step in Hstep.
    destruct Hstep as [Hvo [_ Hcase]].
    assert (Hk1 : keyed_by_path path vo_name (sc_vo_name st1) (namespaces st1)).
    { rewrite Hvo. destruct (Py.dict_get (namespaces st) p) as [orig|].
      - now rewrite Hcase.
      - destruct Hcase as (ns & d & _ & -> & Hp & Hv & _). now apply keyed_set. }
    destruct (IH _ _ Hloop Hk1) as [Hvo' Hk'].
    rewrite Hvo in Hvo', Hk'. now split.
Qed.

End DataFederationRegistry.


Lemma vos_new_StashCache_keyed {ext : Externals} (vo : string) (yaml_data : Yaml) sc :
  VosData.new_StashCache vo yaml_data = Ok sc ->
  VosData.sc_vo_name sc = vo
  /\ keyed_by_path VosData.path VosData.vo_name vo (VosData.namespaces sc).
Proof.
  unfold VosData.new_StashCache, VosData.load_yaml.
  destruct (is_null yaml_data ["Namespaces"]).
  { intros Hsc. inversion Hsc; subst sc. split; [reflexivity | apply keyed_nil]. }
  destruct (py_getitem yaml_data "Namespaces") as [nss|x] eqn:Hnss;
    cbn [bind]; [|discriminate].
  assert (Hold : VosData.load_old_yaml (VosData.mkStashCache vo [] []) yaml_data = Ok sc ->
                 VosData.sc_vo_name sc = vo
                 /\ keyed_by_path VosData.path VosData.vo_name vo (VosData.namespaces sc)).
  { unfold VosData.load_old_yaml. rewrite Hnss. cbn [bind].
    destruct nss as [| | | | |items]; try discriminate.
    intros Hload.
    apply (@vos_old_keyed ext yaml_data items (VosData.mkStashCache vo [] []) sc Hload).
    apply keyed_nil. }
  destruct nss as [| | | |entries|items]; try exact Hold.
  unfold VosData.load_new_yaml. rewrite Hnss. cbn [bind py_iter].
  intros Hload.
  apply (@vos_new_keyed ext entries 0 (VosData.mkStashCache vo [] []) sc Hload).
  apply keyed_nil.
Qed.

Lemma df_new_StashCache_keyed {ext : Externals} (vo : string) (yaml_data : Yaml) sc :
  DataFederationInit.new_StashCache vo yaml_data = Ok sc ->
  DataFederation.sc_vo_name sc = vo
  /\ keyed_by_path DataFederation.path DataFederation.vo_name vo
       (DataFederation.namespaces sc).
Proof.
  unfold DataFederationInit.new_StashCache, DataFederationInit.load_yaml.
  destruct (is_null yaml_data ["Namespaces"]).
  { intros Hsc. inversion Hsc; subst sc. split; [reflexivity | apply keyed_nil]. }
  destruct (py_getitem yaml_data "Namespaces") as [nss|x] eqn:Hnss;
    cbn [bind]; [|discriminate].
  assert (Hold : DataFederationInit.load_old_yaml
                   (DataFederation.mkStashCache vo [] []) yaml_data = Ok sc ->
                 DataFederation.sc_vo_name sc = vo
                 /\ keyed_by_path DataFederation.path DataFederation.vo_name vo
                      (DataFederation.namespaces sc)).
  { unfold DataFederationInit.load_old_yaml. rewrite Hnss. cbn [bind].
    destruct nss as [| | | | |items]; try discriminate.
    intros Hload.
    apply (@df_old_keyed ext yaml_data items (DataFederation.mkStashCache vo [] []) sc
             Hload).
    apply keyed_nil. }
  destruct nss as [| | | |entries|items]; try exact Hold.
  unfold DataFederation.load_new_yaml. rewrite Hnss. cbn [bind py_iter].
  intros Hload.
  apply (@df_new_keyed ext entries 0 (DataFederation.mkStashCache vo [] []) sc Hload).
  apply keyed_nil.
Qed.

(** X8.  A [StashCache] that either module builds from a document of either
    shape keeps its VO name, and stores every namespace under its own path
    and with that VO name: the key of an entry of [namespaces] is the
    [path] of its value. *)
Theorem registry_keys_are_paths {ext : Externals} (vo : string) (yaml_data : Yaml) :
  (forall sc,
     VosData.new_StashCache vo yaml_data = Ok sc ->
     VosData.sc_vo_name sc = vo
     /\ keyed_by_path VosData.path VosData.vo_name vo (VosData.namespaces sc))
  /\ (forall sc,
        DataFederationInit.new_StashCache vo yaml_data = Ok sc ->
        DataFederation.sc_vo_name sc = vo
        /\ keyed_by_path DataFederation.path DataFederation.vo_name vo
             (DataFederation.namespaces sc)).
Proof.
  split; intros sc.
  - apply vos_new_StashCache_keyed.
  - apply df_new_StashCache_keyed.
Qed.

(** The document that declares [/a] twice, loaded for the VO [OSG]. *)
Lemma registry_keys_are_paths_witness :
  exists sc,
    VosData.new_StashCache (ext := Fixtures.externals) "OSG"
      (YDict [("Namespaces", YList Fixtures.entries_duplicate)]) = Ok sc
    /\ VosData.sc_vo_name sc = "OSG"
    /\ keyed_by_path VosData.path VosData.vo_name "OSG" (VosData.namespaces sc).
Proof.
  eexists. split; [vm_compute; reflexivity|].
  apply (proj1 (@registry_keys_are_paths Fixtures.externals "OSG"
                  (YDict [("Namespaces", YList Fixtures.entries_duplicate)]))).
  vm_compute. reflexivity.
Defined.

(** *** The map shape *)

Section VosMapShape.
Context {ext : Externals}.
Import VosData.

Lemma vos_old_fresh top items : forall st st',
  load_old_entries (YDict top) items st = Ok st' ->
  NoDup (map fst items) ->
  (forall p, In p (map fst items) -> Py.dict_get (namespaces st) p = None) ->
  map fst (namespaces st') = (map fst (namespaces st) ++ map fst items)%list
  /\ (forall p ns, Py.dict_get (namespaces st) p = Some ns ->
                   Py.dict_get (namespaces st') p = Some ns)
  /\ (forall p v, In (p, v) items ->
        exists ns, Py.dict_get (namespaces st') p = Some ns
                   /\ vos_declared_old top (sc_vo_name st) p v ns)
  /\ (forall e, In e (errors st') ->
        In e (errors st)
        \/ exists p err, In p (map fst items) /\ e = "Namespace " ++ p ++ ": " ++ err).
Proof.
  induction items as [|[p v] rest IH]; intros st st' Hloop Hnd Hfresh; cbn in Hloop.
  - inversion Hloop; subst st'. cbn. rewrite app_nil_r.
    repeat split; auto. intros p v [].
  - destruct (load_old_entry (YDict top) p v st) as [st1|x] eqn:Hstep; [|discriminate].
    cbn [bind] in Hloop. apply vos_old_step in Hstep.
    destruct Hstep as [Hvo [Herr Hcase]].
    assert (Hp : Py.dict_get (namespaces st) p = None)
      by (apply Hfresh; now left).
    rewrite Hp in Hcase. destruct Hcase as (ns & d & Hd & Hnss & Hdecl).
    inversion Hd; subst d. cbn [map fst] in Hnd. inversion Hnd as [|? ? Hnotin Hnd']; subst.
    assert (Hfresh1 : forall q, In q (map fst rest) -> Py.dict_get (namespaces st1) q = None).
    { intros q Hq. rewrite Hnss. rewrite dict_get_set_neq.
      - apply Hfresh. now right.
      - intros ->. now apply Hnotin. }
    destruct (IH st1 st' Hloop Hnd' Hfresh1) as (Hkeys & Hkeep & Hall & Herrs).
    split; [|split; [|split]].
    + rewrite Hkeys, Hnss, dict_set_keys by assumption. cbn [map fst].
      now rewrite <- app_assoc.
    + intros q nsq Hq. apply Hkeep. rewrite Hnss. rewrite dict_get_set_neq; [assumption|].
      intros ->. congruence.
    + intros q w [Heq|Hin].
      * inversion Heq; subst q w. exists ns. split; [|assumption].
        apply Hkeep. rewrite Hnss. apply dict_get_set_eq.
      * destruct (Hall q w Hin) as [nsq [Hq Hdq]]. exists nsq. split; [assumption|].
        now rewrite <- Hvo.
    + intros e He. destruct (Herrs e He) as [Hin|(q & err & Hq & ->)].
      * destruct (Herr e Hin) as [Hold|[[err ->]|[orig Horig]]].
        -- now left.
        -- right. exists p, err. split; [now left | reflexivity].
        -- congruence.
      * right. exists q, err. split; [now right | reflexivity].
Qed.

End VosMapShape.

Section DataFederationMapShape.
Context {ext : Externals}.
Import DataFederation DataFederationInit.

Lemma df_old_fresh top items : forall st st',
  load_old_entries (YDict top) items st = Ok st' ->
  NoDup (map fst items) ->
  (forall p, In p (map fst items) -> Py.dict_get (namespaces st) p = None) ->
  map fst (namespaces st') = (map fst (namespaces st) ++ map fst items)%list
  /\ (forall p ns, Py.dict_get (namespaces st) p = Some ns ->
                   Py.dict_get (namespaces st') p = Some ns)
  /\ (forall p v, In (p, v) items ->
        exists ns, Py.dict_get (namespaces st') p = Some ns
                   /\ df_declared_old top (sc_vo_name st) p v ns)
  /\ (forall e, In e (errors st') ->
        In e (errors st)
        \/ exists p err, In p (map fst items) /\ e = "Namespace " ++ p ++ ": " ++ err).
Proof.
  induction items as [|[p v] rest IH]; intros st st' Hloop Hnd Hfresh; cbn in Hloop.
  - inversion Hloop; subst st'. cbn. rewrite app_nil_r.
    repeat split; auto. intros p v [].
  - destruct (load_old_entry (YDict top) p v st) as [st1|x] eqn:Hstep; [|discriminate].
    cbn [bind] in Hloop. apply df_old_step in Hstep.
    destruct Hstep as [Hvo [Herr Hcase]].
    assert (Hp : Py.dict_get (namespaces st) p = None)
      by (apply Hfresh; now left).
    rewrite Hp in Hcase. destruct Hcase as (ns & d & Hd & Hnss & Hdecl).
    inversion Hd; subst d. cbn [map fst] in Hnd. inversion Hnd as [|? ? Hnotin Hnd']; subst.
    assert (Hfresh1 : forall q, In q (map fst rest) -> Py.dict_get (namespaces st1) q = None).
    { intros q Hq. rewrite Hnss. rewrite dict_get_set_neq.
      - apply Hfresh. now right.
      - intros ->. now apply Hnotin. }
    destruct (IH st1 st' Hloop Hnd' Hfresh1) as (Hkeys & Hkeep & Hall & Herrs).
    split; [|split; [|split]].
    + rewrite Hkeys, Hnss, dict_set_keys by assumption. cbn [map fst].
      now rewrite <- app_assoc.
    + intros q nsq Hq. apply Hkeep. rewrite Hnss. rewrite dict_get_set_neq; [assumption|].
      intros ->. congruence.
    + intros q w [Heq|Hin].
      * inversion Heq; subst q w. exists ns. split; [|assumption].
        apply Hkeep. rewrite Hnss. apply dict_get_set_eq.
      * destruct (Hall q w Hin) as [nsq [Hq Hdq]]. exists nsq. split; [assumption|].
        now rewrite <- Hvo.
    + intros e He. destruct (Herrs e He) as [Hin|(q & err & Hq & ->)].
      * destruct (Herr e Hin) as [Hold|[[err ->]|[orig Horig]]].
        -- now left.
        -- right. exists p, err. split; [now left | reflexivity].
        -- congruence.
      * right. exists q, err. split; [now right | reflexivity].
Qed.

End DataFederationMapShape.

(** X9.  A map-shape document ([Namespaces] a dict from path to
    authorization list, its keys distinct as in any dict), loaded into a new
    [StashCache] by either module: a load that returns stores exactly the
    keys of the map, in the order of the map; the namespace of each key has
    the authorizations parsed from its value, the [AllowedOrigins] and
    [AllowedCaches] of the document itself, and no writeback, dirlist or
    credential generation; and every recorded error is an authorization
    error [Namespace <path>: ...] of one of the keys, so the [Redefining]
    branch of the loop is never taken. *)
Theorem map_shape_load {ext : Externals} (vo : string)
    (top items : list (string * Yaml)) :
  Py.dict_get top "Namespaces" = Some (YDict items) ->
  NoDup (map fst items) ->
  (forall sc,
     VosData.load_old_yaml (VosData.mkStashCache vo [] []) (YDict top) = Ok sc ->
     map fst (VosData.namespaces sc) = map fst items
     /\ (forall p v, In (p, v) items ->
           exists ns, Py.dict_get (VosData.namespaces sc) p = Some ns
                      /\ vos_declared_old top vo p v ns)
     /\ (forall e, In e (VosData.errors sc) ->
           exists p err, In p (map fst items)
                         /\ e = "Namespace " ++ p ++ ": " ++ err))
  /\ (forall sc,
        DataFederationInit.load_old_yaml (DataFederation.mkStashCache vo [] [])
          (YDict top) = Ok sc ->
        map fst (DataFederation.namespaces sc) = map fst items
        /\ (forall p v, In (p, v) items ->
              exists ns, Py.dict_get (DataFederation.namespaces sc) p = Some ns
                         /\ df_declared_old top vo p v ns)
        /\ (forall e, In e (DataFederation.errors sc) ->
              exists p err, In p (map fst items)
                            /\ e = "Namespace " ++ p ++ ": " ++ err)).
Proof.
  intros Htop Hnd. split; intros sc.
  - unfold VosData.load_old_yaml. cbn [py_getitem]. rewrite Htop. cbn [bind].
    intros Hload.
    destruct (@vos_old_fresh ext top items (VosData.mkStashCache vo [] []) sc Hload Hnd)
      as (Hkeys & _ & Hall & Herrs).
    { intros p _. reflexivity. }
    split; [exact Hkeys|]. split; [exact Hall|].
    intros e He. destruct (Herrs e He) as [[]|Hnew]. exact Hnew.
  - unfold DataFederationInit.load_old_yaml. cbn [py_getitem]. rewrite Htop.
    cbn [bind]. intros Hload.
    destruct (@df_old_fresh ext top items (DataFederation.mkStashCache vo [] []) sc
                Hload Hnd) as (Hkeys & _ & Hall & Herrs).
    { intros p _. reflexivity. }
    split; [exact Hkeys|]. split; [exact Hall|].
    intros e He. destruct (Herrs e He) as [[]|Hnew]. exact Hnew.
Qed.

(** A map with two paths, the second with an item that does not parse. *)
Lemma map_shape_load_witness :
  exists sc,
    VosData.load_old_yaml (ext := Fixtures.externals)
      (VosData.mkStashCache "OSG" [] [])
      (YDict [("Namespaces",
               YDict [("/a", YList [YStr "PUBLIC"]); ("/b", YList [YStr "junk"])]);
              ("AllowedCaches", YList [YStr "ANY"])]) = Ok sc
    /\ map fst (VosData.namespaces sc) = ["/a"; "/b"].
Proof.
  eexists. split; [vm_compute; reflexivity|].
  refine (proj1 (proj1 (@map_shape_load Fixtures.externals "OSG"
                          [("Namespaces",
                            YDict [("/a", YList [YStr "PUBLIC"]);
                                   ("/b", YList [YStr "junk"])]);
                           ("AllowedCaches", YList [YStr "ANY"])]
                          [("/a", YList [YStr "PUBLIC"]); ("/b", YList [YStr "junk"])]
                          _ _) _ _)).
  - reflexivity.
  - repeat constructor; simpl; intuition discriminate.
  - vm_compute. reflexivity.
Defined.

(** *** [VOsData.add_vo] *)




(** *** More on the generators *)

Section OriginWithoutTarget.
Context {ext : Externals}.
Import VosData Stashcache.

Variable topology : Topology.
Variable public_origin : bool.

Lemma visit_origin_namespaces_no_target vo_name items acc :
  visit_origin_namespaces topology None public_origin vo_name items acc = Ok acc.
Proof.
  induction items as [|[path namespace] rest IH]; [reflexivity|].
  cbn [visit_origin_namespaces visit_origin_namespace bind]. exact IH.
Qed.

Lemma visit_origin_stashcaches_no_target items acc :
  visit_origin_stashcaches topology None public_origin items acc = Ok acc.
Proof.
  induction items as [|[vo sc] rest IH]; [reflexivity|].
  cbn [visit_origin_stashcaches]. rewrite visit_origin_namespaces_no_target.
  cbn [bind]. exact IH.
Qed.

End OriginWithoutTarget.

(** X11.  [generate_origin_authfile] called without an fqdn (none, or the
    empty string) never returns an authfile: no namespace allows the origin
    [None], so nothing is collected and the call ends in [DataError],
    whatever the registry, the suppress flag and the mode. *)
Theorem origin_authfile_needs_fqdn {ext : Externals}
    (global_data : Stashcache.GlobalData) (fqdn : option string)
    (suppress_errors public_origin : bool) :
  fqdn = None \/ fqdn = Some "" ->
  Stashcache.generate_origin_authfile global_data fqdn suppress_errors public_origin
  = Raise (DataError "Origin does not support any namespaces").
Proof.
  intros Hfqdn. unfold Stashcache.generate_origin_authfile.
  assert (Hgiven : Stashcache.given fqdn = None)
    by (destruct Hfqdn as [-> | ->]; reflexivity).
  rewrite Hgiven, visit_origin_stashcaches_no_target. reflexivity.
Qed.

(** A registry with a public namespace that names the origin, asked without
    an fqdn and with errors suppressed. *)
Lemma origin_authfile_needs_fqdn_witness :
  Stashcache.generate_origin_authfile (ext := Fixtures.externals)
    Fixtures.gd_public (Some "") true true
  = Raise (DataError "Origin does not support any namespaces").
Proof.
  apply (@origin_authfile_needs_fqdn Fixtures.externals Fixtures.gd_public
           (Some "") true true).
  right. reflexivity.
Defined.

Section CacheSnapshot.
Context {ext : Externals}.
Import VosData Stashcache.

Variable global_data : GlobalData.
Variable resource : option Resource.
Variable legacy : bool.

Lemma ligo_extended_refl item : ligo_extended legacy item item.
Proof. split; [reflexivity | now left]. Qed.

Lemma Forall2_ligo_refl items : Forall2 (ligo_extended legacy) items items.
Proof. induction items; constructor; auto using ligo_extended_refl. Qed.

Lemma registry_extended_refl item : registry_extended legacy item item.
Proof. repeat split. apply Forall2_ligo_refl. Qed.

Lemma Forall2_registry_refl items : Forall2 (registry_extended legacy) items items.
Proof. induction items; constructor; auto using registry_extended_refl. Qed.

Lemma visit_namespace_extends dirname namespace acc :
  ligo_extended legacy (dirname, namespace)
    (dirname, fst (visit_namespace global_data resource legacy dirname namespace acc)).
Proof.
  unfold visit_namespace.
  destruct (negb (namespace_allows_cache_resource namespace resource));
    [(split; [reflexivity | now left])|].
  destruct (match resource with
            | Some r => negb (resource_allows_namespace r (Some namespace))
            | None => false
            end); [(split; [reflexivity | now left])|].
  destruct (is_public namespace); [(split; [reflexivity | now left])|].
  destruct (String.eqb_spec dirname "/user/ligo") as [->|Hne];
    [|(split; [reflexivity | now left])].
  destruct legacy; [|(split; [reflexivity | now left])].
  split; [reflexivity|]. right. cbn [fst snd]. repeat split. eauto.
Qed.

Lemma visit_namespace_same dirname namespace acc :
  legacy = false \/ dirname <> "/user/ligo" ->
  fst (visit_namespace global_data resource legacy dirname namespace acc) = namespace.
Proof.
  intros Hsame. unfold visit_namespace.
  destruct (negb (namespace_allows_cache_resource namespace resource)); [reflexivity|].
  destruct (match resource with
            | Some r => negb (resource_allows_namespace r (Some namespace))
            | None => false
            end); [reflexivity|].
  destruct (is_public namespace); [reflexivity|].
  destruct (String.eqb_spec dirname "/user/ligo") as [->|Hne]; [|reflexivity].
  destruct Hsame as [-> | Hne]; [reflexivity | now elim Hne].
Qed.

Lemma visit_namespaces_extends items : forall acc,
  Forall2 (ligo_extended legacy) items
    (fst (visit_namespaces global_data resource legacy items acc)).
Proof.
  induction items as [|[dirname namespace] rest IH]; intros acc;
    cbn [visit_namespaces]; [constructor|].
  assert (Hext := visit_namespace_extends dirname namespace acc).
  destruct (visit_namespace global_data resource legacy dirname namespace acc)
    as [namespace' [acc'|e]]; cbn [fst] in Hext.
  - specialize (IH acc').
    destruct (visit_namespaces global_data resource legacy rest acc') as [rest' r'].
    cbn [fst] in *. now constructor.
  - cbn [fst]. constructor; [assumption | apply Forall2_ligo_refl].
Qed.

Lemma visit_namespaces_same items : forall acc,
  legacy = false \/ (forall dirname namespace,
                       In (dirname, namespace) items -> dirname <> "/user/ligo") ->
  fst (visit_namespaces global_data resource legacy items acc) = items.
Proof.
  induction items as [|[dirname namespace] rest IH]; intros acc Hsame;
    cbn [visit_namespaces]; [reflexivity|].
  assert (Hns := @visit_namespace_same dirname namespace acc).
  destruct (visit_namespace global_data resource legacy dirname namespace acc)
    as [namespace' [acc'|e]]; cbn [fst] in Hns.
  - specialize (IH acc').
    destruct (visit_namespaces global_data resource legacy rest acc') as [rest' r'].
    cbn [fst] in *. rewrite Hns, IH; [reflexivity | |].
    + destruct Hsame as [Hl|Hk]; [now left | right].
      intros d n Hin. apply (Hk d n). now right.
    + destruct Hsame as [Hl|Hk]; [now left | right]. apply (Hk dirname namespace).
      now left.
  - cbn [fst]. rewrite Hns; [reflexivity|].
    destruct Hsame as [Hl|Hk]; [now left | right]. apply (Hk dirname namespace).
    now left.
Qed.

Lemma visit_stashcaches_extends items : forall acc,
  Forall2 (registry_extended legacy) items
    (fst (visit_stashcaches global_data resource legacy items acc)).
Proof.
  induction items as [|[vo sc] rest IH]; intros acc;
    cbn [visit_stashcaches]; [constructor|].
  assert (Hext := visit_namespaces_extends (namespaces sc) acc).
  destruct (visit_namespaces global_data resource legacy (namespaces sc) acc)
    as [nss' [acc'|e]]; cbn [fst] in Hext.
  - specialize (IH acc').
    destruct (visit_stashcaches global_data resource legacy rest acc') as [rest' r'].
    cbn [fst] in *. constructor; [|assumption]. repeat split. exact Hext.
  - cbn [fst]. constructor; [|apply Forall2_registry_refl]. repeat split. exact Hext.
Qed.

Lemma visit_stashcaches_same items : forall acc,
  legacy = false \/ (forall vo sc dirname namespace,
                       In (vo, sc) items -> In (dirname, namespace) (namespaces sc) ->
                       dirname <> "/user/ligo") ->
  fst (visit_stashcaches global_data resource legacy items acc) = items.
Proof.
  induction items as [|[vo sc] rest IH]; intros acc Hsame;
    cbn [visit_stashcaches]; [reflexivity|].
  assert (Hnss : fst (visit_namespaces global_data resource legacy (namespaces sc) acc)
                 = namespaces sc).
  { apply visit_namespaces_same. destruct Hsame as [Hl|Hk]; [now left | right].
    intros d n Hin. apply (Hk vo sc d n); [now left | exact Hin]. }
  assert (Hrest : forall acc',
             fst (visit_stashcaches global_data resource legacy rest acc') = rest).
  { intros acc'. apply IH. destruct Hsame as [Hl|Hk]; [now left | right].
    intros v s d n Hin. apply (Hk v s d n). now right. }
  destruct (visit_namespaces global_data resource legacy (namespaces sc) acc)
    as [nss' [acc'|e]]; cbn [fst] in Hnss; subst nss'.
  - specialize (Hrest acc').
    destruct (visit_stashcaches global_data resource legacy rest acc') as [rest' r'].
    cbn [fst] in *. subst rest'. now destruct sc.
  - cbn [fst]. now destruct sc.
Qed.

End CacheSnapshot.

(** X12.  What [generate_cache_authfile] does to the snapshot it is given.
    The topology, the LIGO DN list and the VO documents stay as they are,
    and so do the VO names, the error sets and the keys of the registry: a
    call can only append to the [authz_list] of a namespace stored under
    [/user/ligo], and only with [legacy].  With [legacy] off, or without a
    namespace under [/user/ligo], the snapshot after the call is the snapshot
    before it, however the call ends. *)
Theorem cache_authfile_touches_only_ligo {ext : Externals}
    (global_data : Stashcache.GlobalData) (fqdn : option string)
    (legacy suppress_errors : bool) :
  let after :=
    fst (Stashcache.generate_cache_authfile global_data fqdn legacy suppress_errors) in
  Stashcache.get_topology after = Stashcache.get_topology global_data
  /\ Stashcache.get_ligo_dn_list after = Stashcache.get_ligo_dn_list global_data
  /\ VosData.vos (Stashcache.get_vos_data after)
     = VosData.vos (Stashcache.get_vos_data global_data)
  /\ Forall2 (registry_extended legacy)
       (VosData.stashcache_by_vo_name (Stashcache.get_vos_data global_data))
       (VosData.stashcache_by_vo_name (Stashcache.get_vos_data after))
  /\ (legacy = false
      \/ (forall vo sc dirname namespace,
            In (vo, sc) (VosData.stashcache_by_vo_name
                           (Stashcache.get_vos_data global_data)) ->
            In (dirname, namespace) (VosData.namespaces sc) ->
            dirname <> "/user/ligo") ->
      after = global_data).
Proof.
  cbv zeta. unfold Stashcache.generate_cache_authfile, Stashcache.collect_cache_authfile.
  assert (Hrun : forall resource,
            let after :=
              fst (let '(scs, r) :=
                     Stashcache.visit_stashcaches global_data resource legacy
                       (VosData.stashcache_by_vo_name (Stashcache.get_vos_data global_data))
                       (Stashcache.mkAcc "" [] [] []) in
                   (Stashcache.set_stashcaches global_data scs,
                    bind r Stashcache.finish_cache_authfile)) in
            Stashcache.get_topology after = Stashcache.get_topology global_data
            /\ Stashcache.get_ligo_dn_list after = Stashcache.get_ligo_dn_list global_data
            /\ VosData.vos (Stashcache.get_vos_data after)
               = VosData.vos (Stashcache.get_vos_data global_data)
            /\ Forall2 (registry_extended legacy)
                 (VosData.stashcache_by_vo_name (Stashcache.get_vos_data global_data))
                 (VosData.stashcache_by_vo_name (Stashcache.get_vos_data after))
            /\ (legacy = false
                \/ (forall vo sc dirname namespace,
                      In (vo, sc) (VosData.stashcache_by_vo_name
                                     (Stashcache.get_vos_data global_data)) ->
                      In (dirname, namespace) (VosData.namespaces sc) ->
                      dirname <> "/user/ligo") ->
                after = global_data)).
  { intros resource. cbv zeta.
    assert (Hext := visit_stashcaches_extends global_data resource legacy
                      (VosData.stashcache_by_vo_name (Stashcache.get_vos_data global_data))
                      (Stashcache.mkAcc "" [] [] [])).
    assert (Hsame := @visit_stashcaches_same ext global_data resource legacy
                       (VosData.stashcache_by_vo_name (Stashcache.get_vos_data global_data))
                       (Stashcache.mkAcc "" [] [] [])).
    destruct (Stashcache.visit_stashcaches global_data resource legacy
                (VosData.stashcache_by_vo_name (Stashcache.get_vos_data global_data))
                (Stashcache.mkAcc "" [] [] [])) as [scs r].
    cbn [fst] in *. repeat split; try assumption.
    intros Hcond. rewrite (Hsame Hcond).
    destruct global_data as [t [v reg] dns]. reflexivity. }
  assert (Hkeep : Stashcache.get_topology global_data = Stashcache.get_topology global_data
            /\ Stashcache.get_ligo_dn_list global_data
               = Stashcache.get_ligo_dn_list global_data
            /\ VosData.vos (Stashcache.get_vos_data global_data)
               = VosData.vos (Stashcache.get_vos_data global_data)
            /\ Forall2 (registry_extended legacy)
                 (VosData.stashcache_by_vo_name (Stashcache.get_vos_data global_data))
                 (VosData.stashcache_by_vo_name (Stashcache.get_vos_data global_data))
            /\ (legacy = false
                \/ (forall vo sc dirname namespace,
                      In (vo, sc) (VosData.stashcache_by_vo_name
                                     (Stashcache.get_vos_data global_data)) ->
                      In (dirname, namespace) (VosData.namespaces sc) ->
                      dirname <> "/user/ligo") ->
                global_data = global_data)).
  { repeat split. apply Forall2_registry_refl. }
  destruct (Stashcache.given fqdn); [|apply Hrun].
  destruct (Stashcache._get_cache_resource fqdn (Stashcache.get_topology global_data)
              suppress_errors) as [[r|]|e]; cbn [fst]; [apply Hrun | exact Hkeep | exact Hkeep].
Qed.

(** The registry with [/user/ligo], asked with [legacy] off. *)
Lemma cache_authfile_touches_only_ligo_witness :
  fst (Stashcache.generate_cache_authfile (ext := Fixtures.externals)
         Fixtures.gd_ligo None false true) = Fixtures.gd_ligo.
Proof.
  apply (@cache_authfile_touches_only_ligo Fixtures.externals Fixtures.gd_ligo
           None false true).
  left. reflexivity.
Defined.

(** *** What the authfile generators raise *)

Lemma in_dict_set (V : Type) (d : list (string * V)) k v a b :
  In (a, b) (Py.dict_set d k v) -> a = k \/ In (a, b) d.
Proof.
  induction d as [|[k' v'] d IH]; simpl.
  - intros [Heq|[]]. inversion Heq. now left.
  - destruct (String.eqb_spec k k') as [->|Hne]; simpl.
    + intros [Heq|Hin]; [inversion Heq; now left | right; now right].
    + intros [Heq|Hin]; [right; now left|].
      destruct (IH Hin) as [?|?]; [now left | right; now right].
Qed.

Lemma covers_nil (m : list (string * string)) : covers m [].
Proof. intros a p []. Qed.

Lemma covers_add (m : list (string * string)) (ids : list (string * list string))
    (k x s : string) :
  covers m ids -> covers (Py.dict_set m k s) (Stashcache.defaultdict_add ids k x).
Proof.
  intros Hc a p Hin.
  destruct (String.eqb_spec a k) as [->|Hne].
  - exists s. apply dict_get_set_eq.
  - rewrite dict_get_set_neq by assumption.
    unfold Stashcache.defaultdict_add in Hin.
    destruct (Py.dict_get ids k); apply in_dict_set in Hin;
      (destruct Hin as [?|Hin]; [contradiction | exact (Hc a p Hin)]).
Qed.

Section GeneratorExceptions.
Context {ext : Externals}.
Import VosData Stashcache.

Lemma get_authfile_id_raises (a : AuthMethod) e :
  get_authfile_id a = Raise e -> e = TypeError /\ generate_dn_hash = None.
Proof.
  destruct a; cbn; try discriminate.
  destruct generate_dn_hash; [discriminate|]. intros Heq. inversion Heq. now split.
Qed.

Lemma add_authz_entries_outcome dirname l : forall acc,
  covers (id_to_str acc) (id_to_dir acc) ->
  match add_authz_entries dirname l acc with
  | Ok acc' => covers (id_to_str acc') (id_to_dir acc')
  | Raise e => e = TypeError /\ generate_dn_hash = None
  end.
Proof.
  induction l as [|a l IH]; intros acc Hc; cbn [add_authz_entries]; [assumption|].
  destruct (used_in_authfile a); [|now apply IH].
  destruct (get_authfile_id a) as [authfile_id|e] eqn:Hid; cbn [bind].
  - apply IH. cbn. now apply covers_add.
  - now apply get_authfile_id_raises in Hid.
Qed.

Lemma visit_namespace_outcome global_data resource legacy dirname namespace acc :
  covers (id_to_str acc) (id_to_dir acc) ->
  match snd (visit_namespace global_data resource legacy dirname namespace acc) with
  | Ok acc' => covers (id_to_str acc') (id_to_dir acc')
  | Raise e => e = TypeError /\ generate_dn_hash = None
  end.
Proof.
  intros Hc. unfold visit_namespace.
  destruct (negb (namespace_allows_cache_resource namespace resource)); [assumption|].
  destruct (match resource with
            | Some r => negb (resource_allows_namespace r (Some namespace))
            | None => false
            end); [assumption|].
  destruct (is_public namespace); [assumption|].
  destruct (String.eqb dirname "/user/ligo"); [destruct legacy|];
    cbn [snd]; now apply add_authz_entries_outcome.
Qed.

Lemma visit_namespaces_outcome global_data resource legacy items : forall acc,
  covers (id_to_str acc) (id_to_dir acc) ->
  match snd (visit_namespaces global_data resource legacy items acc) with
  | Ok acc' => covers (id_to_str acc') (id_to_dir acc')
  | Raise e => e = TypeError /\ generate_dn_hash = None
  end.
Proof.
  induction items as [|[dirname namespace] rest IH]; intros acc Hc;
    cbn [visit_namespaces]; [assumption|].
  assert (Hv := @visit_namespace_outcome global_data resource legacy dirname namespace
                  acc Hc).
  destruct (visit_namespace global_data resource legacy dirname namespace acc)
    as [namespace' [acc'|e]]; cbn [snd] in Hv.
  - specialize (IH acc' Hv).
    destruct (visit_namespaces global_data resource legacy rest acc') as [rest' r'].
    exact IH.
  - exact Hv.
Qed.

Lemma visit_stashcaches_outcome global_data resource legacy items : forall acc,
  covers (id_to_str acc) (id_to_dir acc) ->
  match snd (visit_stashcaches global_data resource legacy items acc) with
  | Ok acc' => covers (id_to_str acc') (id_to_dir acc')
  | Raise e => e = TypeError /\ generate_dn_hash = None
  end.
Proof.
  induction items as [|[vo sc] rest IH]; intros acc Hc;
    cbn [visit_stashcaches]; [assumption|].
  assert (Hv := @visit_namespaces_outcome global_data resource legacy (namespaces sc)
                  acc Hc).
  destruct (visit_namespaces global_data resource legacy (namespaces sc) acc)
    as [nss' [acc'|e]]; cbn [snd] in Hv.
  - specialize (IH acc' Hv).
    destruct (visit_stashcaches global_data resource legacy rest acc') as [rest' r'].
    exact IH.
  - exact Hv.
Qed.

Lemma render_cache_ids_returns m ids :
  covers m ids -> exists text, render_cache_ids ids m = Ok text.
Proof.
  induction ids as [|[authfile_id dirs] rest IH]; intros Hc; cbn [render_cache_ids];
    [eauto|].
  destruct (Hc authfile_id dirs (or_introl eq_refl)) as [s ->].
  destruct IH as [tail ->]; [|cbn [bind]; eauto].
  intros a p Hin. apply (Hc a p). now right.
Qed.

Lemma identity_lines_return m ids :
  covers m ids -> exists lines, identity_lines ids m = Ok lines.
Proof.
  induction ids as [|[authfile_id paths] rest IH]; intros Hc; cbn [identity_lines];
    [eauto|].
  destruct (Hc authfile_id paths (or_introl eq_refl)) as [s ->].
  destruct IH as [tail ->]; [|cbn [bind]; eauto].
  intros a p Hin. apply (Hc a p). now right.
Qed.

Lemma add_origin_entries_outcome path l : forall acc,
  covers (o_id_to_str acc) (id_to_paths acc) ->
  match add_origin_entries path l acc with
  | Ok acc' => covers (o_id_to_str acc') (id_to_paths acc')
  | Raise e => e = TypeError /\ generate_dn_hash = None
  end.
Proof.
  induction l as [|a l IH]; intros acc Hc; cbn [add_origin_entries]; [assumption|].
  destruct (used_in_authfile a); [|now apply IH].
  destruct (get_authfile_id a) as [authfile_id|e] eqn:Hid; cbn [bind].
  - apply IH. cbn. now apply covers_add.
  - now apply get_authfile_id_raises in Hid.
Qed.

Lemma visit_origin_namespace_outcome topology origin public_origin vo path namespace acc :
  covers (o_id_to_str acc) (id_to_paths acc) ->
  match visit_origin_namespace topology origin public_origin vo path namespace acc with
  | Ok acc' => covers (o_id_to_str acc') (id_to_paths acc')
  | Raise e => e = TypeError /\ generate_dn_hash = None
  end.
Proof.
  intros Hc. unfold visit_origin_namespace.
  destruct origin as [o|]; [|assumption].
  destruct (negb (namespace_allows_origin_resource namespace (Some o))); [assumption|].
  destruct (negb (resource_allows_namespace o (Some namespace))); [assumption|].
  destruct (is_public namespace); [assumption|].
  destruct public_origin; [assumption|].
  destruct (get_supported_caches_for_namespace namespace topology) as [|c cs];
    match goal with
    | |- context [resources_to_authz ?v ?p ?rs ?l ?w] =>
        destruct (resources_to_authz v p rs l w) as [authz_list warnings]
    end;
    now apply add_origin_entries_outcome.
Qed.

Lemma visit_origin_namespaces_outcome topology origin public_origin vo items : forall acc,
  covers (o_id_to_str acc) (id_to_paths acc) ->
  match visit_origin_namespaces topology origin public_origin vo items acc with
  | Ok acc' => covers (o_id_to_str acc') (id_to_paths acc')
  | Raise e => e = TypeError /\ generate_dn_hash = None
  end.
Proof.
  induction items as [|[path namespace] rest IH]; intros acc Hc;
    cbn [visit_origin_namespaces]; [assumption|].
  assert (Hv := @visit_origin_namespace_outcome topology origin public_origin vo path
                  namespace acc Hc).
  destruct (visit_origin_namespace topology origin public_origin vo path namespace acc)
    as [acc'|e]; cbn [bind]; [now apply IH | exact Hv].
Qed.

Lemma visit_origin_stashcaches_outcome topology origin public_origin items : forall acc,
  covers (o_id_to_str acc) (id_to_paths acc) ->
  match visit_origin_stashcaches topology origin public_origin items acc with
  | Ok acc' => covers (o_id_to_str acc') (id_to_paths acc')
  | Raise e => e = TypeError /\ generate_dn_hash = None
  end.
Proof.
  induction items as [|[vo sc] rest IH]; intros acc Hc;
    cbn [visit_origin_stashcaches]; [assumption|].
  assert (Hv := @visit_origin_namespaces_outcome topology origin public_origin vo
                  (namespaces sc) acc Hc).
  destruct (visit_origin_namespaces topology origin public_origin vo (namespaces sc) acc)
    as [acc'|e]; cbn [bind]; [now apply IH | exact Hv].
Qed.

Lemma lookup_raises_error fqdn service_name topology suppress_errors e :
  _get_resource_with_service fqdn service_name topology suppress_errors = Raise e ->
  suppress_errors = false /\ lookup_error topology fqdn service_name e.
Proof. intros Hraise. now apply lookup_raises in Hraise. Qed.

End GeneratorExceptions.

(** X13.  The exceptions of the three authfile generators, on a registry
    whose namespaces hold values of the annotated types: allowed lists that
    are lists of texts, and DN and FQAN payloads that are texts (the loaders
    do not check this, and a registry built from a document with, say,
    [AllowedCaches:] left null is outside this statement), and with a hash
    function that, when it was imported, answers every DN.  The cache
    authfile and the origin authfile end in an exception only in three ways:
    the [DataError] of an empty result; the [TypeError] of calling
    [generate_dn_hash] when the import of the hash function failed; and,
    with errors not suppressed, the error of the node lookup.  The public
    cache authfile hashes nothing and has only the first and the last.  In
    particular the lookups [id_to_str[authfile_id]] of the rendering loops
    never raise [KeyError]. *)
Theorem authfile_generators_raise {ext : Externals}
    (global_data : Stashcache.GlobalData) (fqdn : option string)
    (legacy suppress_errors public_origin : bool) (e : exn) :
  (snd (Stashcache.generate_cache_authfile global_data fqdn legacy suppress_errors)
   = Raise e ->
   e = DataError "Cache does not support any protected namespaces"
   \/ (e = TypeError /\ generate_dn_hash = None)
   \/ (suppress_errors = false
       /\ lookup_error (Stashcache.get_topology global_data) fqdn
            XROOTD_CACHE_SERVER e))
  /\ (Stashcache.generate_public_cache_authfile global_data fqdn legacy suppress_errors
      = Raise e ->
      e = DataError "Cache does not support any public namespaces"
      \/ (suppress_errors = false
          /\ lookup_error (Stashcache.get_topology global_data) fqdn
               XROOTD_CACHE_SERVER e))
  /\ (Stashcache.generate_origin_authfile global_data fqdn suppress_errors public_origin
      = Raise e ->
      e = DataError "Origin does not support any namespaces"
      \/ (e = TypeError /\ generate_dn_hash = None)
      \/ (suppress_errors = false
          /\ lookup_error (Stashcache.get_topology global_data) fqdn
               XROOTD_ORIGIN_SERVER e)).
Proof.
  split; [|split].
  - unfold Stashcache.generate_cache_authfile, Stashcache.collect_cache_authfile.
    assert (Hrun : forall resource,
              snd (let '(scs, r) :=
                     Stashcache.visit_stashcaches global_data resource legacy
                       (VosData.stashcache_by_vo_name (Stashcache.get_vos_data global_data))
                       (Stashcache.mkAcc "" [] [] []) in
                   (Stashcache.set_stashcaches global_data scs,
                    bind r Stashcache.finish_cache_authfile)) = Raise e ->
              e = DataError "Cache does not support any protected namespaces"
              \/ (e = TypeError /\ generate_dn_hash = None)
              \/ (suppress_errors = false
                  /\ lookup_error (Stashcache.get_topology global_data) fqdn
                       XROOTD_CACHE_SERVER e)).
    { intros resource.
      assert (Hv := @visit_stashcaches_outcome ext global_data resource legacy
                      (VosData.stashcache_by_vo_name (Stashcache.get_vos_data global_data))
                      (Stashcache.mkAcc "" [] [] []) (covers_nil [])).
      destruct (Stashcache.visit_stashcaches global_data resource legacy
                  (VosData.stashcache_by_vo_name (Stashcache.get_vos_data global_data))
                  (Stashcache.mkAcc "" [] [] [])) as [scs [acc|x]];
        cbn [snd bind] in *.
      - unfold Stashcache.finish_cache_authfile.
        destruct (Stashcache.id_to_dir acc) as [|item ids] eqn:Hids.
        + intros Heq. inversion Heq. now left.
        + destruct (render_cache_ids_returns Hv) as [text ->].
          discriminate.
      - intros Heq. inversion Heq; subst x. right. now left. }
    destruct (Stashcache.given fqdn); [|apply Hrun].
    destruct (Stashcache._get_cache_resource fqdn (Stashcache.get_topology global_data)
                suppress_errors) as [[r|]|x] eqn:Hlook; cbn [snd];
      [apply Hrun | discriminate |].
    intros Heq. inversion Heq; subst x. right. right.
    now apply lookup_raises_error in Hlook.
  - unfold Stashcache.generate_public_cache_authfile.
    assert (Hrun : forall resource,
              match Stashcache.collect_public_dirs resource
                      (VosData.stashcache_by_vo_name (Stashcache.get_vos_data global_data))
              with
              | [] => Raise (DataError "Cache does not support any public namespaces")
              | _ :: _ =>
                  Ok (if Py.endswith
                           (fold_left
                              (fun authfile dirname =>
                                 authfile ++ "    " ++ dirname ++ " rl "
                                 ++ Stashcache.BACKSLASH ++ LF)
                              (Py.sorted
                                 (Stashcache.collect_public_dirs resource
                                    (VosData.stashcache_by_vo_name
                                       (Stashcache.get_vos_data global_data))))
                              ("u * /user/ligo -rl " ++ Stashcache.BACKSLASH ++ LF))
                           (" " ++ Stashcache.BACKSLASH ++ LF)
                      then Py.chop 3
                             (fold_left
                                (fun authfile dirname =>
                                   authfile ++ "    " ++ dirname ++ " rl "
                                   ++ Stashcache.BACKSLASH ++ LF)
                                (Py.sorted
                                   (Stashcache.collect_public_dirs resource
                                      (VosData.stashcache_by_vo_name
                                         (Stashcache.get_vos_data global_data))))
                                ("u * /user/ligo -rl " ++ Stashcache.BACKSLASH ++ LF))
                           ++ LF
                      else fold_left
                             (fun authfile dirname =>
                                authfile ++ "    " ++ dirname ++ " rl "
                                ++ Stashcache.BACKSLASH ++ LF)
                             (Py.sorted
                                (Stashcache.collect_public_dirs resource
                                   (VosData.stashcache_by_vo_name
                                      (Stashcache.get_vos_data global_data))))
                             ("u * /user/ligo -rl " ++ Stashcache.BACKSLASH ++ LF))
              end = Raise e ->
              e = DataError "Cache does not support any public namespaces"
              \/ (suppress_errors = false
                  /\ lookup_error (Stashcache.get_topology global_data) fqdn
                       XROOTD_CACHE_SERVER e)).
    { intros resource.
      destruct (Stashcache.collect_public_dirs resource
                  (VosData.stashcache_by_vo_name (Stashcache.get_vos_data global_data)));
        [|discriminate].
      intros Heq. inversion Heq. now left. }
    destruct (Stashcache.given fqdn); [|apply Hrun].
    destruct (Stashcache._get_cache_resource fqdn (Stashcache.get_topology global_data)
                suppress_errors) as [[r|]|x] eqn:Hlook; unfold bind;
      [apply Hrun | discriminate |].
    intros Heq. inversion Heq; subst x. right.
    now apply lookup_raises_error in Hlook.
  - unfold Stashcache.generate_origin_authfile.
    assert (Hrun : forall resource,
              bind (Stashcache.visit_origin_stashcaches
                      (Stashcache.get_topology global_data) resource public_origin
                      (VosData.stashcache_by_vo_name (Stashcache.get_vos_data global_data))
                      (Stashcache.mkOriginAcc [] [] [] []))
                   (fun acc =>
                      match Stashcache.id_to_paths acc, Stashcache.public_paths acc with
                      | [], [] =>
                          Raise (DataError "Origin does not support any namespaces")
                      | _, _ =>
                          bind (Stashcache.identity_lines (Stashcache.id_to_paths acc)
                                  (Stashcache.o_id_to_str acc))
                               (fun id_lines =>
                                  Ok (Py.join LF
                                        (Stashcache.o_warnings acc ++ id_lines
                                         ++ Stashcache.public_block public_origin
                                              (Stashcache.public_paths acc))%list
                                      ++ LF))
                      end) = Raise e ->
              e = DataError "Origin does not support any namespaces"
              \/ (e = TypeError /\ generate_dn_hash = None)
              \/ (suppress_errors = false
                  /\ lookup_error (Stashcache.get_topology global_data) fqdn
                       XROOTD_ORIGIN_SERVER e)).
    { intros resource.
      assert (Hv := @visit_origin_stashcaches_outcome ext
                      (Stashcache.get_topology global_data) resource public_origin
                      (VosData.stashcache_by_vo_name (Stashcache.get_vos_data global_data))
                      (Stashcache.mkOriginAcc [] [] [] []) (covers_nil [])).
      destruct (Stashcache.visit_origin_stashcaches
                  (Stashcache.get_topology global_data) resource public_origin
                  (VosData.stashcache_by_vo_name (Stashcache.get_vos_data global_data))
                  (Stashcache.mkOriginAcc [] [] [] [])) as [acc|x]; unfold bind at 1.
      - destruct (identity_lines_return Hv) as [lines Hlines].
        destruct (Stashcache.id_to_paths acc) as [|item ids] eqn:Hids;
          destruct (Stashcache.public_paths acc) as [|p ps];
          try (rewrite Hlines; unfold bind; discriminate).
        intros Heq. inversion Heq. now left.
      - intros Heq. inversion Heq; subst x. right. now left. }
    destruct (Stashcache.given fqdn); [|apply Hrun].
    destruct (Stashcache._get_origin_resource fqdn (Stashcache.get_topology global_data)
                suppress_errors) as [[r|]|x] eqn:Hlook; unfold bind at 1;
      [apply Hrun | discriminate |].
    intros Heq. inversion Heq; subst x. right. right.
    now apply lookup_raises_error in Hlook.
Qed.

(** The empty registry: the cache authfile ends in the [DataError]. *)
Lemma authfile_generators_raise_witness :
  DataError "Cache does not support any protected namespaces"
  = DataError "Cache does not support any protected namespaces"
  \/ (DataError "Cache does not support any protected namespaces" = TypeError
      /\ @generate_dn_hash Fixtures.externals = None)
  \/ (true = false
      /\ lookup_error (ext := Fixtures.externals)
           (Stashcache.get_topology Fixtures.gd_empty) None
           (@XROOTD_CACHE_SERVER Fixtures.externals)
           (DataError "Cache does not support any protected namespaces")).
Proof.
  apply (proj1 (@authfile_generators_raise Fixtures.externals Fixtures.gd_empty None
                  true true false
                  (DataError "Cache does not support any protected namespaces"))).
  reflexivity.
Defined.

(** *** The public cache authfile *)

Lemma str_app_assoc (a b c : string) : (a ++ b) ++ c = a ++ b ++ c.
Proof. induction a as [|x a IH]; simpl; [reflexivity | now rewrite IH]. Qed.

Lemma str_length_app (a b : string) :
  String.length (a ++ b) = String.length a + String.length b.
Proof. induction a as [|x a IH]; simpl; [reflexivity | now rewrite IH]. Qed.

Lemma drop_app (a b : string) : Py.drop (String.length a) (a ++ b) = b.
Proof. induction a as [|x a IH]; simpl; [now destruct b | exact IH]. Qed.

Lemma substring_app (a b : string) : String.substring 0 (String.length a) (a ++ b) = a.
Proof.
  induction a as [|x a IH]; simpl; [now destruct b | now rewrite IH].
Qed.

Lemma endswith_app (a suffix : string) : Py.endswith (a ++ suffix) suffix = true.
Proof.
  unfold Py.endswith. rewrite str_length_app.
  replace (String.length a + String.length suffix - String.length suffix)
    with (String.length a) by lia.
  rewrite drop_app. apply String.eqb_refl.
Qed.

Lemma chop_app (a suffix : string) :
  Py.chop (String.length suffix) (a ++ suffix) = a.
Proof.
  unfold Py.chop. rewrite str_length_app.
  replace (String.length a + String.length suffix - String.length suffix)
    with (String.length a) by lia.
  apply substring_app.
Qed.

Lemma join_snoc (sep x y : string) (l : list string) :
  Py.join sep ((x :: l) ++ [y])%list = Py.join sep (x :: l) ++ sep ++ y.
Proof.
  revert x. induction l as [|z l IH]; intros x.
  - reflexivity.
  - change (Py.join sep ((x :: z :: l) ++ [y])%list)
      with (x ++ sep ++ Py.join sep ((z :: l) ++ [y])%list).
    rewrite IH.
    change (Py.join sep (x :: z :: l)) with (x ++ sep ++ Py.join sep (z :: l)).
    now rewrite !str_app_assoc.
Qed.

Lemma fold_left_pointwise (A B : Type) (f g : A -> B -> A) (l : list B) :
  (forall a b, f a b = g a b) -> forall a, fold_left f l a = fold_left g l a.
Proof.
  intros Hfg. induction l as [|b l IH]; intros a; cbn [fold_left]; [reflexivity|].
  now rewrite Hfg, IH.
Qed.

(** The lines of a text that is built by appending [line ++ sep] for each
    item, after a first line. *)
Lemma fold_lines (sep : string) (line : string -> string) (items : list string) :
  forall (first : string) (done : list string),
    fold_left (fun text item => text ++ line item ++ sep) items
      (Py.join sep (first :: done) ++ sep)
    = Py.join sep ((first :: done) ++ map line items)%list ++ sep.
Proof.
  induction items as [|item rest IH]; intros first done; cbn [fold_left map].
  - now rewrite app_nil_r.
  - replace ((Py.join sep (first :: done) ++ sep) ++ line item ++ sep)
      with (Py.join sep (first :: done ++ [line item])%list ++ sep).
    + rewrite IH. cbn [app]. now rewrite <- List.app_assoc.
    + change (first :: done ++ [line item])%list
        with ((first :: done) ++ [line item])%list.
      rewrite join_snoc. now rewrite !str_app_assoc.
Qed.

Section PublicCache.
Context {ext : Externals}.
Import VosData Stashcache.

Variable resource : option Resource.

Lemma visit_public_namespaces_In items : forall dirs d,
  In d (fold_left (visit_public_namespace resource) items dirs)
  <-> In d dirs
      \/ exists namespace, In (d, namespace) items
                           /\ cache_gate resource namespace = true
                           /\ is_public namespace = true.
Proof.
  induction items as [|[dirname namespace] rest IH]; intros dirs d; cbn [fold_left].
  - split; [now left | intros [?|[n [[] _]]]; assumption].
  - rewrite IH. unfold visit_public_namespace at 1, cache_gate.
    destruct (namespace_allows_cache_resource namespace resource) eqn:Hallow;
      cbn [negb andb].
    + destruct (match resource with
                | Some r => negb (resource_allows_namespace r (Some namespace))
                | None => false
                end) eqn:Hres.
      * split.
        -- intros [?|[n [Hin Hn]]]; [now left | right; exists n; split; [now right | exact Hn]].
        -- intros [?|[n [[Heq|Hin] [Hg Hp]]]]; [now left | | right; exists n; auto].
           inversion Heq; subst. unfold cache_gate in Hg. rewrite Hallow in Hg.
           destruct resource as [r|]; [|discriminate Hres].
           cbn [andb] in Hg. rewrite Hg in Hres. discriminate Hres.
      * destruct (is_public namespace) eqn:Hpub.
        -- rewrite in_set_add. split.
           ++ intros [[?| ->]|[n [Hin Hn]]]; [now left | | right; exists n; split; [now right | exact Hn]].
              right. exists namespace. split; [now left|]. split; [|assumption].
              unfold cache_gate. rewrite Hallow. cbn [andb].
              destruct resource as [r|]; [|reflexivity].
              now destruct (resource_allows_namespace r (Some namespace)).
           ++ intros [?|[n [[Heq|Hin] Hn]]]; [left; now left | | right; exists n; auto].
              inversion Heq; subst. left. now right.
        -- split.
           ++ intros [?|[n [Hin Hn]]]; [now left | right; exists n; split; [now right | exact Hn]].
           ++ intros [?|[n [[Heq|Hin] [Hg Hp]]]]; [now left | | right; exists n; auto].
              inversion Heq; subst. congruence.
    + split.
      * intros [?|[n [Hin Hn]]]; [now left | right; exists n; split; [now right | exact Hn]].
      * intros [?|[n [[Heq|Hin] [Hg Hp]]]]; [now left | | right; exists n; auto].
        inversion Heq; subst. unfold cache_gate in Hg. rewrite Hallow in Hg.
        discriminate Hg.
Qed.

Lemma collect_public_dirs_In scs : forall dirs d,
  In d (collect_public_dirs_from resource scs dirs)
  <-> In d dirs
      \/ exists vo sc namespace,
           In (vo, sc) scs /\ In (d, namespace) (namespaces sc)
           /\ cache_gate resource namespace = true
           /\ is_public namespace = true.
Proof.
  unfold collect_public_dirs_from.
  induction scs as [|[vo sc] rest IH]; intros dirs d; cbn [fold_left].
  - split; [now left | intros [?|(v & s & n & [] & _)]; assumption].
  - rewrite IH. cbn [snd]. rewrite visit_public_namespaces_In. split.
    + intros [[?|[n [Hin Hn]]]|(v & s & n & Hin & Hn)].
      * now left.
      * right. exists vo, sc, n. split; [now left | split; [exact Hin | exact Hn]].
      * right. exists v, s, n. split; [now right | exact Hn].
    + intros [?|(v & s & n & [Heq|Hin] & Hin' & Hn)].
      * left. now left.
      * inversion Heq; subst. left. right. exists n. split; assumption.
      * right. exists v, s, n. auto.
Qed.

Lemma public_cache_text dirs :
  let sep := " " ++ BACKSLASH ++ LF in
  let text :=
    fold_left (fun authfile dirname =>
                 authfile ++ "    " ++ dirname ++ " rl " ++ BACKSLASH ++ LF)
              dirs ("u * /user/ligo -rl " ++ BACKSLASH ++ LF) in
  (if Py.endswith text sep then Py.chop 3 text ++ LF else text)
  = Py.join sep ("u * /user/ligo -rl" :: map (fun d => "    " ++ d ++ " rl") dirs) ++ LF.
Proof.
  cbv zeta.
  assert (Hfold :
            fold_left (fun authfile dirname =>
                         authfile ++ "    " ++ dirname ++ " rl " ++ BACKSLASH ++ LF)
                      dirs ("u * /user/ligo -rl " ++ BACKSLASH ++ LF)
            = Py.join (" " ++ BACKSLASH ++ LF)
                ("u * /user/ligo -rl" :: map (fun d => "    " ++ d ++ " rl") dirs)
              ++ " " ++ BACKSLASH ++ LF).
  { pose proof (fold_lines (" " ++ BACKSLASH ++ LF) (fun d => "    " ++ d ++ " rl")
                  dirs "u * /user/ligo -rl" []) as Hlines.
    cbn [app] in Hlines. rewrite <- Hlines.
    change (Py.join (" " ++ BACKSLASH ++ LF) ["u * /user/ligo -rl"]
            ++ " " ++ BACKSLASH ++ LF)
      with ("u * /user/ligo -rl " ++ BACKSLASH ++ LF).
    apply fold_left_pointwise. intros a d.
    rewrite !str_app_assoc. reflexivity. }
  rewrite Hfold, endswith_app.
  change 3 with (String.length (" " ++ BACKSLASH ++ LF)).
  now rewrite chop_app.
Qed.

End PublicCache.

(** X14.  The public cache authfile, once the node lookup is behind.  The
    set of directories holds exactly the keys of the public namespaces that
    pass the gate.  When it is not empty the text is the line
    [u * /user/ligo -rl] followed by one line [    <dir> rl] for each
    directory in sorted order, the lines joined by a backslash continuation
    and the last one ended by a plain newline: the trailing continuation is
    always there to be cut, and it is cut exactly once.  The [legacy]
    argument plays no part. *)
Theorem public_cache_authfile_text {ext : Externals}
    (global_data : Stashcache.GlobalData) (fqdn : option string)
    (legacy suppress_errors : bool) (resource : option Resource) :
  Stashcache.cache_target global_data fqdn suppress_errors resource ->
  let dirs :=
    Stashcache.collect_public_dirs resource
      (VosData.stashcache_by_vo_name (Stashcache.get_vos_data global_data)) in
  (forall d,
     In d dirs
     <-> exists vo sc namespace,
           In (vo, sc) (VosData.stashcache_by_vo_name
                          (Stashcache.get_vos_data global_data))
           /\ In (d, namespace) (VosData.namespaces sc)
           /\ Stashcache.cache_gate resource namespace = true
           /\ VosData.is_public namespace = true)
  /\ Permutation dirs (Py.sorted dirs)
  /\ Sorted (fun a b => String.leb a b = true) (Py.sorted dirs)
  /\ (dirs <> [] ->
      Stashcache.generate_public_cache_authfile global_data fqdn legacy suppress_errors
      = Ok (Py.join (" " ++ Stashcache.BACKSLASH ++ LF)
              ("u * /user/ligo -rl"
               :: map (fun d => "    " ++ d ++ " rl") (Py.sorted dirs))
            ++ LF)).
Proof.
  intros Htarget. cbv zeta. split; [|split; [|split]].
  - intros d. unfold Stashcache.collect_public_dirs.
    rewrite collect_public_dirs_In. split; [intros [[]|H]; exact H | now right].
  - apply sorted_perm.
  - apply sorted_sorted.
  - intros Hdirs.
    assert (Hrun :
              match Stashcache.collect_public_dirs resource
                      (VosData.stashcache_by_vo_name (Stashcache.get_vos_data global_data))
              with
              | [] => Raise (DataError "Cache does not support any public namespaces")
              | _ :: _ =>
                  Ok (let text :=
                        fold_left
                          (fun authfile dirname =>
                             authfile ++ "    " ++ dirname ++ " rl "
                             ++ Stashcache.BACKSLASH ++ LF)
                          (Py.sorted
                             (Stashcache.collect_public_dirs resource
                                (VosData.stashcache_by_vo_name
                                   (Stashcache.get_vos_data global_data))))
                          ("u * /user/ligo -rl " ++ Stashcache.BACKSLASH ++ LF) in
                      if Py.endswith text (" " ++ Stashcache.BACKSLASH ++ LF)
                      then Py.chop 3 text ++ LF else text)
              end
              = Ok (Py.join (" " ++ Stashcache.BACKSLASH ++ LF)
                      ("u * /user/ligo -rl"
                       :: map (fun d => "    " ++ d ++ " rl")
                            (Py.sorted
                               (Stashcache.collect_public_dirs resource
                                  (VosData.stashcache_by_vo_name
                                     (Stashcache.get_vos_data global_data)))))
                    ++ LF)).
    { pose proof (public_cache_text
                    (Py.sorted
                       (Stashcache.collect_public_dirs resource
                          (VosData.stashcache_by_vo_name
                             (Stashcache.get_vos_data global_data))))) as Htext.
      cbv zeta in Htext. cbv zeta.
      destruct (Stashcache.collect_public_dirs resource
                  (VosData.stashcache_by_vo_name (Stashcache.get_vos_data global_data)))
        as [|d ds]; [now elim Hdirs|].
      now rewrite Htext. }
    unfold Stashcache.generate_public_cache_authfile, Stashcache.cache_target in *.
    destruct (Stashcache.given fqdn) as [f|].
    + destruct Htarget as [r [-> ->]]. unfold bind. exact Hrun.
    + subst resource. exact Hrun.
Qed.

(** The registry whose only namespace is public, without a target. *)
Lemma public_cache_authfile_text_witness :
  Stashcache.generate_public_cache_authfile (ext := Fixtures.externals)
    Fixtures.gd_public None true true
  = Ok ("u * /user/ligo -rl " ++ Stashcache.BACKSLASH ++ LF
        ++ "    /public rl" ++ LF).
Proof.
  destruct (@public_cache_authfile_text Fixtures.externals Fixtures.gd_public None
              true true None eq_refl) as (_ & _ & _ & Htext).
  rewrite Htext; [reflexivity|]. vm_compute. discriminate.
Defined.
